(** * Kasboek Debutade: the category recommender and the cash total

    A shallow embedding of two functions of [webapp.py]:
    [recommend_category] (with its local [calculate_similarity]) and
    [calculate_total_amount], together with the parts of the Python
    runtime and of the workbook library they rely on.

    The functions around them follow: [validate_excel_headers], the two
    listings [get_recent_transactions] and [get_all_transactions],
    [add_transaction], the settings [set_excel_file_path] and
    [set_excel_sheet_name], [load_config] with the start of the module,
    and [check_server_ready] of [start_kasboek.py].

    Conventions of the embedding.
    - A Python [str] is a [string] whose characters are the code points
      below 256; [strip], [lower] and [split] follow Python's tables on
      that range.
    - A cell value is [None], a [str], a [bool], an [int], a [float] or
      a date with a time; a float is an IEEE 754 binary64 number
      ([spec_float]) and a date carries the text that [str] gives it.
    - A similarity score is the quotient of two lengths, which the source
      computes as a float.  It is kept as the exact rational [Qc]:
      rounding a quotient to a float does not reverse the order of two
      quotients, which is all the source does with a score.
    - Reading the file system and logging are effects: every function that
      performs them threads a [world]. *)

From Stdlib Require Import ZArith QArith Qcanon String Ascii List.
From Stdlib Require Import Floats.SpecFloat DecimalString Lia.
From Stdlib Require Import Qpower Qabs.
From stdpp Require Import base numbers option sorting gmap sets strings.
From stdpp Require Import list.

#[local] Set Warnings "-clear-no-such-hyp".

(** ** Python strings *)

Module PyStr.

(** [str.isspace] on one character: TAB..CR, FS..US, space, NEL, NBSP. *)
Definition isspace (c : ascii) : bool :=
  let n := nat_of_ascii c in
  (((9 <=? n) && (n <=? 13)) || ((28 <=? n) && (n <=? 32))
   || (n =? 133) || (n =? 160))%nat.

(** [str.lower] on one character: A..Z and the Latin-1 capitals
    (all of 192..222 but the multiplication sign 215). *)
Definition lower_char (c : ascii) : ascii :=
  let n := nat_of_ascii c in
  if (((65 <=? n) && (n <=? 90))
      || ((192 <=? n) && (n <=? 222) && negb (n =? 215)))%nat
  then ascii_of_nat (n + 32) else c.

Fixpoint lower (s : string) : string :=
  match s with
  | EmptyString => EmptyString
  | String c s' => String (lower_char c) (lower s')
  end.

Definition is_empty (s : string) : bool :=
  match s with EmptyString => true | String _ _ => false end.

Fixpoint lstrip (s : string) : string :=
  match s with
  | EmptyString => EmptyString
  | String c s' => if isspace c then lstrip s' else s
  end.

Fixpoint rstrip (s : string) : string :=
  match s with
  | EmptyString => EmptyString
  | String c s' =>
      let r := rstrip s' in
      if isspace c && is_empty r then EmptyString else String c r
  end.

Definition strip (s : string) : string := rstrip (lstrip s).

(** [s.split()]: the maximal runs of characters that are not white
    space, in order. [word] is the run being read. *)
Fixpoint split_from (word : string) (s : string) : list string :=
  match s with
  | EmptyString => if is_empty word then [] else [word]
  | String c s' =>
      if isspace c
      then (if is_empty word then split_from "" s'
            else word :: split_from "" s')
      else split_from (word +:+ String c "") s'
  end.

Definition split (s : string) : list string := split_from "" s.

(** [str(n)] for an [int]. *)
Definition of_int (z : Z) : string := NilZero.string_of_int (Z.to_int z).

End PyStr.

(** ** Cell values *)

Inductive value : Type :=
| VNone
| VStr (s : string)
| VBool (b : bool)
| VInt (z : Z)
| VFloat (f : spec_float)
| VDateTime (text : string).

(** Truth value of an object, as [if v] and [v and w] test it. *)
Definition truthy (v : value) : bool :=
  match v with
  | VNone => false
  | VStr s => negb (PyStr.is_empty s)
  | VBool b => b
  | VInt z => negb (z =? 0)%Z
  | VFloat (S754_zero _) => false
  | VFloat _ => true
  | VDateTime _ => true
  end.

(** ** Workbooks, as the workbook library presents them

    A worksheet is a grid of cells addressed from (1, 1); [max_row] and
    [max_column] bound the cells in use, and a cell that was never written
    reads as [None]. *)

Record worksheet : Type := {
  title : string;
  max_row : nat;
  max_column : nat;
  cell_value : nat → nat → value
}.

Record workbook : Type := {
  sheets : list worksheet;
  active_index : nat
}.

(** [ws.iter_rows(min_row, min_col, max_col, values_only=True)]: one tuple
    per row from [min_row] to [max_row], each with the cells of columns
    [min_col] to [max_col]. *)
Definition iter_rows (ws : worksheet) (min_row min_col max_col : nat)
  : list (list value) :=
  (λ r, (λ c, cell_value ws r c) <$> seq min_col (S max_col - min_col))
    <$> seq min_row (S (max_row ws) - min_row).

Definition sheetnames (wb : workbook) : list string := title <$> sheets wb.

(** ** Exceptions, the world and the monad of effects *)

Inductive exn : Type :=
| IndexError
| KeyError
| AttributeError
| ValueError
| OverflowError
| InvalidFileException.

(** A computation that may raise. *)
Definition result (A : Type) : Type := exn + A.

(** What is found at a path: something that is not a workbook, or a
    workbook. *)
Inductive file : Type :=
| NotAWorkbook
| Xlsx (wb : workbook).

(** The observable actions: file-system queries and log lines. *)
Inductive event : Type :=
| PathExists (path : string)
| LoadWorkbook (path : string)
| LogWarning (msg : string)
| LogError (msg : string).

(** The module globals read from the configuration. *)
Record config : Type := {
  EXCEL_FILE_PATH : string;
  EXCEL_SHEET_NAME : string
}.

Record world : Type := {
  files : gmap string file;
  globals : config;
  trace : list event
}.

Definition emit (e : event) (w : world) : world :=
  {| files := files w; globals := globals w; trace := trace w ++ [e] |}.

Definition M (A : Type) : Type := world → result A * world.

Definition ret {A} (a : A) : M A := λ w, (inr a, w).
Definition raise {A} (e : exn) : M A := λ w, (inl e, w).
Definition bind {A B} (m : M A) (k : A → M B) : M B :=
  λ w, match m w with
       | (inl e, w') => (inl e, w')
       | (inr a, w') => k a w'
       end.
Definition lift {A} (r : result A) : M A := λ w, (r, w).

Definition rbind {A B} (r : result A) (k : A → result B) : result B :=
  match r with
  | inl e => inl e
  | inr a => k a
  end.

Declare Scope py_scope.
Delimit Scope py_scope with py.
Notation "'let*' x := m 'in' k" := (bind m (λ x, k))
  (at level 10, x name, m at level 100, k at level 200) : py_scope.
Notation "'let?' x := r 'in' k" := (rbind r (λ x, k))
  (at level 10, x name, r at level 100, k at level 200) : py_scope.
Notation "m ;; k" := (bind m (λ _, k))
  (at level 100, k at level 200, right associativity) : py_scope.

Definition read_globals : M config := λ w, (inr (globals w), w).

(** [os.path.exists], [load_workbook], [logging.warning], [logging.error]. *)
Definition path_exists (path : string) : M bool :=
  λ w, (inr (bool_decide (is_Some (files w !! path))), emit (PathExists path) w).

Definition load_workbook (path : string) : M workbook :=
  λ w, match files w !! path with
       | Some (Xlsx wb) => (inr wb, emit (LoadWorkbook path) w)
       | _ => (inl InvalidFileException, emit (LoadWorkbook path) w)
       end.

Definition logging_warning (msg : string) : M unit :=
  λ w, (inr tt, emit (LogWarning msg) w).

Definition logging_error (msg : string) : M unit :=
  λ w, (inr tt, emit (LogError msg) w).

(** [try: body except Exception: handler]. *)
Definition try_except {A} (body : M A) (handler : exn → M A) : M A :=
  λ w, match body w with
       | (inl e, w') => handler e w'
       | (inr a, w') => (inr a, w')
       end.

(** [wb.active] is the sheet at the active index, or [None] when there is
    none; a method call on [None] raises. *)
Definition active (wb : workbook) : result worksheet :=
  match sheets wb !! active_index wb with
  | Some ws => inr ws
  | None => inl AttributeError
  end.

(** [wb[name]]: the first sheet with that title. *)
Definition getitem (wb : workbook) (name : string) : result worksheet :=
  match find (λ ws, bool_decide (title ws = name)) (sheets wb) with
  | Some ws => inr ws
  | None => inl KeyError
  end.

(** [row[i]] on a tuple. *)
Definition index (row : list value) (i : nat) : result value :=
  match row !! i with
  | Some v => inr v
  | None => inl IndexError
  end.

Definition os_path_join (a b : string) : string := a +:+ "/" +:+ b.

(** ** The records of the recommender *)

(** An entry of [training_data]. *)
Module Item.
Record t : Type := { description : string; category : string }.
End Item.

(** An entry of [matches], and of the response. *)
Module Match.
Record t : Type := { category : string; score : Qc; example : string }.
End Match.

(** [seen_categories]: a dictionary keeps its keys in insertion order, and
    an assignment to a key that is present keeps the key's place. *)
Definition dict : Type := list (string * Match.t).

Fixpoint dict_get (d : dict) (k : string) : option Match.t :=
  match d with
  | [] => None
  | (k', v) :: d' => if decide (k' = k) then Some v else dict_get d' k
  end.

Fixpoint dict_set (d : dict) (k : string) (v : Match.t) : dict :=
  match d with
  | [] => [(k, v)]
  | (k', v') :: d' =>
      if decide (k' = k) then (k, v) :: d' else (k', v') :: dict_set d' k v
  end.

Definition dict_values (d : dict) : list Match.t := snd <$> d.

(** [sort(key=lambda x: x['score'], reverse=True)] and [sorted] with the
    same arguments: the stable sort by descending score.  [insert_desc x l]
    puts [x], which stood before all of [l], in front of the first element
    whose score is not greater than its own. *)
Fixpoint insert_desc (x : Match.t) (l : list Match.t) : list Match.t :=
  match l with
  | [] => [x]
  | h :: t =>
      if decide (Match.score x < Match.score h)%Qc
      then h :: insert_desc x t
      else x :: h :: t
  end.

Definition sort_desc (l : list Match.t) : list Match.t :=
  foldr insert_desc [] l.

(** [len(a) / len(b)] for a divisor that is not zero; the one division of
    the source is reached with a union that is not empty (lemma
    [union_size_pos]). *)
Definition truediv (a b : nat) : Qc := Q2Qc (Z.of_nat a # Pos.of_nat b).

(** The local function [calculate_similarity] of [recommend_category]. *)
Definition calculate_similarity (text1 text2 : string) : Qc :=
  let words1 : gset string := list_to_set (PyStr.split text1) in
  let words2 : gset string := list_to_set (PyStr.split text2) in
  if bool_decide (size words1 = 0) || bool_decide (size words2 = 0) then 0%Qc
  else
    let intersection := words1 ∩ words2 in
    let union := words1 ∪ words2 in
    truediv (size intersection) (size union).

(** The loop that finds the matches. *)
Fixpoint find_matches (description : string) (training_data : list Item.t)
  : list Match.t :=
  match training_data with
  | [] => []
  | item :: rest =>
      let score := calculate_similarity description (Item.description item) in
      if decide (0 < score)%Qc
      then {| Match.category := Item.category item;
              Match.score := score;
              Match.example := Item.description item |}
             :: find_matches description rest
      else find_matches description rest
  end.

(** The loop that keeps one match per category. *)
Fixpoint keep_best (matches : list Match.t) (seen_categories : dict) : dict :=
  match matches with
  | [] => seen_categories
  | m :: rest =>
      let cat := Match.category m in
      keep_best rest
        match dict_get seen_categories cat with
        | None => dict_set seen_categories cat m
        | Some old =>
            if decide (Match.score old < Match.score m)%Qc
            then dict_set seen_categories cat m
            else seen_categories
        end
  end.

(** ** Numbers: [int] and [float] *)

Inductive number : Type :=
| NInt (z : Z)
| NFloat (f : spec_float).

Definition prec : Z := 53.
Definition emax : Z := 1024.

(** [isinstance(v, (int, float))], with the number when it holds; a
    [bool] is an [int]. *)
Definition as_number (v : value) : option number :=
  match v with
  | VBool b => Some (NInt (Z.b2z b))
  | VInt z => Some (NInt z)
  | VFloat f => Some (NFloat f)
  | VNone | VStr _ | VDateTime _ => None
  end.

(** The conversion of an operand to [float]; an [int] beyond the range of
    the format raises. *)
Definition to_float (n : number) : result spec_float :=
  match n with
  | NFloat f => inr f
  | NInt z =>
      match binary_normalize prec emax z 0 false with
      | S754_infinity _ => inl OverflowError
      | f => inr f
      end
  end.

Definition py_add (a b : number) : result number :=
  match a, b with
  | NInt x, NInt y => inr (NInt (x + y))
  | _, _ =>
      (let? x := to_float a in
       let? y := to_float b in
       inr (NFloat (SFadd prec emax x y)))%py
  end.

Definition py_sub (a b : number) : result number :=
  match a, b with
  | NInt x, NInt y => inr (NInt (x - y))
  | _, _ =>
      (let? x := to_float a in
       let? y := to_float b in
       inr (NFloat (SFsub prec emax x y)))%py
  end.

(** [v == s] for a string literal [s]. *)
Definition eq_str (v : value) (s : string) : bool :=
  match v with
  | VStr s' => bool_decide (s' = s)
  | _ => false
  end.

(** What a row of the cash book does to the total. *)
Inductive sign : Type := Plus | Minus.

(** The terms of the total, added up from the first to the last in the
    arithmetic of the runtime. *)
Fixpoint add_up (terms : list (sign * number)) (total : number)
  : result number :=
  match terms with
  | [] => inr total
  | (Plus, a) :: rest =>
      (let? total := py_add total a in add_up rest total)%py
  | (Minus, a) :: rest =>
      (let? total := py_sub total a in add_up rest total)%py
  end.

(** The sum of signed integers. *)
Definition signed (t : sign * Z) : Z :=
  match t.1 with Plus => t.2 | Minus => - t.2 end%Z.

Definition sum_signed (ts : list (sign * Z)) : Z :=
  foldr (λ t acc, signed t + acc)%Z 0%Z ts.

(** ** More of the workbook library and of the runtime *)

(** [ws.iter_rows(min_row, max_row, min_col, max_col, values_only=True)]
    with all four bounds given. *)
Definition iter_rows_range (ws : worksheet)
    (min_row max_row min_col max_col : nat) : list (list value) :=
  (λ r, (λ c, cell_value ws r c) <$> seq min_col (S max_col - min_col))
    <$> seq min_row (S max_row - min_row).

(** [a or b]. *)
Definition py_or (a b : value) : value := if truthy a then a else b.

(** [d.strftime('%Y-%m-%d')] for a date with a time [d], from the text
    [str(d)]: for the years a workbook can hold that text starts with the
    year, the month and the day in this very form. *)
Definition strftime_ymd (text : string) : string := substring 0 10 text.

(** [s.replace(',', '.')]. *)
Fixpoint replace_comma (s : string) : string :=
  match s with
  | EmptyString => EmptyString
  | String c s' =>
      String (if Ascii.eqb c "," then "."%char else c) (replace_comma s')
  end.

(** [round(x, ndigits)] for a float, as the runtime computes it: the
    float is turned into the decimal text with [ndigits] digits after the
    point that is nearest to its exact value, and the text is read back
    as the nearest float.  Both steps resolve a tie to the even neighbour.
    A zero, an infinity and a NaN are returned as they are.  The source
    rounds to 2 digits; only with a negative number of digits can the
    result be too large for a float, where the runtime raises. *)

(** The integer nearest to [num / den], for [den] positive. *)
Definition round_half_even (num den : Z) : Z :=
  let q := (num / den)%Z in
  match (2 * (num mod den) ?= den)%Z with
  | Lt => q
  | Gt => (q + 1)%Z
  | Eq => if Z.even q then q else (q + 1)%Z
  end.

(** The digits of the decimal text for [m * 2 ^ e], as an integer: the
    integer nearest to [m * 2 ^ e * 10 ^ ndigits]. *)
Definition dtoa (m : positive) (e ndigits : Z) : Z :=
  round_half_even (Z.pos m * 2 ^ Z.max e 0 * 10 ^ Z.max ndigits 0)
    (2 ^ Z.max (- e) 0 * 10 ^ Z.max (- ndigits) 0).

(** The float nearest to [k / 10 ^ ndigits] for [k] that is not negative,
    with the sign [s]: the quotient is rounded as the quotient of two
    floats is. *)
Definition strtod (s : bool) (k ndigits : Z) : spec_float :=
  match (k * 10 ^ Z.max (- ndigits) 0)%Z with
  | Z.pos num =>
      let '(m, e, l) :=
        SFdiv_core_binary prec emax (Z.pos num) 0 (10 ^ Z.max ndigits 0) 0 in
      binary_round_aux prec emax s m e l
  | _ => S754_zero s
  end.

Definition double_round (x : spec_float) (ndigits : Z) : spec_float :=
  match x with
  | S754_finite s m e => strtod s (dtoa m e ndigits) ndigits
  | _ => x
  end.

(** The exact value of a float that is finite, without its sign. *)
Definition magnitude (x : spec_float) : Q :=
  match x with
  | S754_finite _ m e => (inject_Z (Z.pos m) * 2 ^ e)%Q
  | _ => 0%Q
  end.

Definition REQUIRED_HEADERS : list string :=
  ["Datum"; "Naam / Omschrijving"; "Rekening"; "Tegenrekening"; "Code";
   "Af Bij"; "Bedrag (EUR)"; "Mutatiesoort"; "Mededelingen";
   "Saldo na mutatie"; ""; "Tag"].

(** An entry of [get_recent_transactions]; the euro sign that [saldo]
    begins with stands as the bytes of its UTF-8 form. *)
Module Recent.
Record t : Type := {
  datum : string;
  mededelingen : value;
  af_bij : value;
  bedrag : string;
  tag : value;
  saldo : string
}.
End Recent.

(** An entry of [get_all_transactions]. *)
Module Entry.
Record t : Type := {
  datum : string;
  mededelingen : value;
  af_bij : value;
  bedrag : string;
  rekening : value;
  tag : value
}.
End Entry.

(** *** Writing to a sheet *)

(** [ws.cell(row=r, column=c, value=v)]: the cell is set and counts as in
    use from then on. *)
Definition set_cell (ws : worksheet) (r c : nat) (v : value) : worksheet :=
  {| title := title ws;
     max_row := Nat.max (max_row ws) r;
     max_column := Nat.max (max_column ws) c;
     cell_value := λ r' c',
       if decide (r' = r ∧ c' = c) then v else cell_value ws r' c' |}.

(** The texts a cell takes as they are given.  The workbook library cuts
    a text at 32767 characters and refuses one that holds a control
    character other than TAB, LF and CR. *)
Definition is_illegal (c : ascii) : bool :=
  let n := nat_of_ascii c in
  ((n <=? 8) || (n =? 11) || (n =? 12) || ((14 <=? n) && (n <=? 31)))%nat.

Definition plain (s : string) : bool :=
  (Z.of_nat (String.length s) <=? 32767)%Z
  && forallb (λ c, negb (is_illegal c)) (list_ascii_of_string s).

(** [ws.insert_rows(idx)]: the cells of row [idx] and below move down by
    one row, and row [idx] is left empty. *)
Definition insert_rows (ws : worksheet) (idx : nat) : worksheet :=
  {| title := title ws;
     max_row := if (idx <=? max_row ws)%nat then S (max_row ws)
                else max_row ws;
     max_column := max_column ws;
     cell_value := λ r c,
       if (r <? idx)%nat then cell_value ws r c
       else if (r =? idx)%nat then VNone
       else cell_value ws (r - 1) c |}.

(** [for col, value in enumerate(values, start=c): ws.cell(row=r,
    column=col, value=value)] *)
Fixpoint write_cells (ws : worksheet) (r c : nat) (values : list value)
  : worksheet :=
  match values with
  | [] => ws
  | v :: rest => write_cells (set_cell ws r c v) r (S c) rest
  end.

(** A sheet without cells, as [wb.create_sheet(name)] and [Workbook()]
    make it. *)
Definition empty_sheet (name : string) : worksheet :=
  {| title := name; max_row := 1; max_column := 1;
     cell_value := λ _ _, VNone |}.

(** [ws.title = name] *)
Definition set_title (ws : worksheet) (name : string) : worksheet :=
  {| title := name; max_row := max_row ws; max_column := max_column ws;
     cell_value := cell_value ws |}.

(** The place of the sheet that [wb[name]] gives. *)
Definition sheet_index (wb : workbook) (name : string) : option nat :=
  fst <$> list_find (λ ws, title ws = name) (sheets wb).

(** The workbook after the sheet at place [i] has been changed to [ws]. *)
Definition with_sheet (wb : workbook) (i : nat) (ws : worksheet) : workbook :=
  {| sheets := <[i := ws]> (sheets wb); active_index := active_index wb |}.

(** [wb.save(path)]: the file then holds the workbook as it was saved. *)
Definition save_workbook (path : string) (wb : workbook) : M unit :=
  λ w, (inr tt, {| files := <[path := Xlsx wb]> (files w);
                   globals := globals w;
                   trace := trace w |}).

(** Three more built-ins of the runtime that are taken as given: the
    format [.2f] of a float, [float] on a string and [datetime.strptime]
    with the format [%Y-%m-%d].  The last two give [None] where the
    built-in raises [ValueError], and the date is given by the text that
    [str] gives it. *)
Record builtins : Type := {
  float_format_2f : spec_float → string;
  float_of_str : string → option spec_float;
  strptime_ymd : string → option string
}.

(** *** The request and the answer of [add_transaction] *)

(** [request.form]: the fields that were sent. *)
Definition form : Type := gmap string string.

Inductive response : Type :=
| Success (new_total : number)
| BadRequest (message : string)
| ServerError (e : exn).

Definition NEW_HEADERS : list string :=
  ["Datum"; "Naam/Omschrijving"; "Rekening"; "Tegen Rekening"; "Code";
   "Af Bij"; "Bedrag"; "Mutatiesoort"; "Mededelingen"; "Saldo na mutatie";
   ""; "Tag"].

(** [None] or a string, as a cell value. *)
Definition of_field (field : option string) : value :=
  match field with
  | Some s => VStr s
  | None => VNone
  end.

(** *** The answers of the settings *)

(** [s.endswith(suffix)] *)
Definition endswith (s suffix : string) : bool :=
  (String.length suffix <=? String.length s)%nat
  && String.eqb
       (substring (String.length s - String.length suffix)
          (String.length suffix) s)
       suffix.

(** Why a setting is refused with 400. *)
Inductive refusal : Type :=
| Required
| NotXlsx
| FileNotFound
| WrongFormat
| SheetNotFound
| WrongHeaders.

(** Why a setting ends in 500: [save_config] returned [False], an
    exception of the model reached the outer [except], the clause
    [except jsonify] was reached, which raises [TypeError] because
    [jsonify] is not a class of exceptions, or a line before the checks
    raised an exception of the server library. *)
Inductive failure : Type :=
| NotSaved
| Raised (e : exn)
| CannotCatch
| NoJson.

Inductive answer : Type :=
| Changed
| Refused (why : refusal)
| Failed (why : failure).

(** What the request gives the first lines of a setting,
    [data = request.get_json() or {}] and [str(data.get(key, ''))]:
    [get_json()] raises because the body is not JSON; or it returns a
    value that is true in a condition and has no [get], such as a list, a
    text or a number; or it returns a dictionary, or a value that is false
    in a condition and gives way to [{}], and [text] is what [str] makes
    of the field. *)
Inductive payload : Type :=
| Unreadable
| NotAnObject
| Field (text : string).

(** [global EXCEL_FILE_PATH; EXCEL_FILE_PATH = path] and the same for the
    name of the sheet. *)
Definition assign_path (path : string) : M unit :=
  λ w, (inr tt,
        {| files := files w;
           globals := {| EXCEL_FILE_PATH := path;
                         EXCEL_SHEET_NAME := EXCEL_SHEET_NAME (globals w) |};
           trace := trace w |}).

Definition assign_sheet_name (name : string) : M unit :=
  λ w, (inr tt,
        {| files := files w;
           globals := {| EXCEL_FILE_PATH := EXCEL_FILE_PATH (globals w);
                         EXCEL_SHEET_NAME := name |};
           trace := trace w |}).

(** How the writing of the configuration goes: the file is opened and
    the configuration is written to it; the file cannot be opened; or the
    file is opened, which empties it, and the writing fails. *)
Inductive saving : Type :=
| Written
| NotOpened
| NotWritten.

(** [open(path, "w")]: from then on the path holds a file of text, which
    is not a workbook. *)
Definition open_for_writing (path : string) : M unit :=
  λ w, (inr tt, {| files := <[path := NotAWorkbook]> (files w);
                   globals := globals w;
                   trace := trace w |}).

(** [save_config(config)]: [config_path] is [CONFIG_PATH] and [how] tells
    how the writing goes. *)
Definition save_config (config_path : string) (how : saving) : M bool :=
  (match how with
   | Written => open_for_writing config_path ;; ret true
   | NotOpened =>
       logging_error "Fout bij opslaan configuratie" ;; ret false
   | NotWritten =>
       open_for_writing config_path ;;
       logging_error "Fout bij opslaan configuratie" ;; ret false
   end)%py.

(** The files that [save_config] leaves behind. *)
Definition files_after (config_path : string) (how : saving)
    (fs : gmap string file) : gmap string file :=
  match how with
  | NotOpened => fs
  | Written | NotWritten => <[config_path := NotAWorkbook]> fs
  end.

(** ** The configuration file and the start of the module

    [load_config] and the statements at module level that read the
    configuration into the globals. *)

Module Config.

(** A value of the configuration. *)
Inductive cval : Type :=
| CStr (s : string)
| CList (l : list string)
| CNumber.

(** What [json.load] returns: a dictionary, a list (of which only the
    items that are strings matter here), a string, or a number, a boolean
    or [None]. *)
Inductive document : Type :=
| DDict (d : gmap string cval)
| DList (items : list (option string))
| DStr (s : string)
| DAtom.

(** What is found at the path of the configuration: text that is not
    JSON, or a document. *)
Inductive file : Type :=
| Malformed
| Json (doc : document).

Inductive exn : Type :=
| FileNotFoundError
| KeyError (key : string)
| TypeError
| JSONDecodeError.

Definition bind {A B} (r : exn + A) (k : A → exn + B) : exn + B :=
  match r with
  | inl e => inl e
  | inr a => k a
  end.

(** [k in s] for two strings. *)
Fixpoint is_substring (k s : string) : bool :=
  String.prefix k s
  || match s with
     | EmptyString => false
     | String _ s' => is_substring k s'
     end.

(** [key in config]. *)
Definition contains (config : document) (key : string) : exn + bool :=
  match config with
  | DDict d => inr (bool_decide (is_Some (d !! key)))
  | DList items => inr (bool_decide (Some key ∈ items))
  | DStr s => inr (is_substring key s)
  | DAtom => inl TypeError
  end.

(** [config[key]]. *)
Definition getitem (config : document) (key : string) : exn + cval :=
  match config with
  | DDict d =>
      match d !! key with
      | Some v => inr v
      | None => inl (KeyError key)
      end
  | DList _ | DStr _ | DAtom => inl TypeError
  end.

Definition required_keys : list string :=
  ["excel_file_path"; "resources"; "backup_directory"; "log_directory";
   "excel_sheet_name"; "tags"; "log_level"].

(** The loop over [required_keys]. *)
Fixpoint check_keys (config : document) (keys : list string) : exn + unit :=
  match keys with
  | [] => inr tt
  | key :: rest =>
      bind (contains config key) (λ present,
        if negb present then inl (KeyError key)
        else check_keys config rest)
  end.

Definition load_config (fs : gmap string file) (config_path : string)
  : exn + document :=
  match fs !! config_path with
  | None => inl FileNotFoundError
  | Some Malformed => inl JSONDecodeError
  | Some (Json config) =>
      bind (check_keys config required_keys) (λ _, inr config)
  end.

(** The configuration the module falls back on. *)
Definition default_config : gmap string cval :=
  list_to_map
    [("excel_file_directory", CStr "C:\Users\ericg\OneDrive\Documents\Code");
     ("excel_file_name", CStr "records.xlsx");
     ("resources", CStr "C:\Users\ericg\OneDrive\Documents\Code\resources");
     ("backup_directory",
      CStr "C:\Users\ericg\OneDrive\Documents\Code\backups");
     ("log_directory", CStr "C:\Users\ericg\OneDrive\Documents\Code\logs");
     ("excel_sheet_name", CStr "Transacties");
     ("tags",
      CList ["Algemeen"; "Evenement"; "Materiaal"; "Training"; "Overig"]);
     ("log_level", CStr "INFO")].

(** The globals that are read from the configuration. *)
Record settings : Type := {
  EXCEL_FILE_PATH : string;
  BACKUP_DIRECTORY : cval;
  LOG_DIRECTORY : cval;
  EXCEL_SHEET_NAME : cval;
  TAGS : cval;
  LOG_LEVEL : cval
}.

(** [os.path.dirname] and [os.path.basename] take a string and raise on
    anything else. *)
Definition as_path (v : cval) : exn + string :=
  match v with
  | CStr s => inr s
  | CList _ | CNumber => inl TypeError
  end.

(** The statements of the module from [try: config = load_config(...)] to
    the assignment of [LOG_LEVEL]; [config_path] is [CONFIG_PATH]. *)
Definition module_start (fs : gmap string file) (config_path : string)
  : exn + settings :=
  bind
    match load_config fs config_path with
    | inr config => inr config
    | inl FileNotFoundError | inl (KeyError _) => inr (DDict default_config)
    | inl e => inl e
    end
    (λ config,
      bind (getitem config "excel_file_path") (λ path,
      bind (as_path path) (λ path,
      bind (getitem config "backup_directory") (λ backup,
      bind (getitem config "log_directory") (λ log,
      bind (getitem config "excel_sheet_name") (λ sheet,
      bind (getitem config "tags") (λ tags,
      bind (getitem config "log_level") (λ level,
        inr {| EXCEL_FILE_PATH := path; BACKUP_DIRECTORY := backup;
               LOG_DIRECTORY := log; EXCEL_SHEET_NAME := sheet;
               TAGS := tags; LOG_LEVEL := level |})))))))).

End Config.

(** ** The launcher: waiting for the server

    [check_server_ready] of [start_kasboek.py]. *)

Module Launcher.

(** What one [urlopen] does: it answers, it raises one of the errors the
    loop catches ([URLError], [ConnectionRefusedError], [OSError]), or it
    raises another error. *)
Inductive outcome : Type := Answers | Refused | Fails.

(** What the loop leaves behind: the calls of [urlopen] and of
    [time.sleep(0.5)] it made. *)
Record effects : Type := { calls : nat; sleeps : nat }.

Inductive ending : Type := Returned (ready : bool) | Raised.

(** The loop [for i in range(...)], from attempt [i] with [n] attempts
    left; [server i] is what the call of attempt [i] does. *)
Fixpoint attempts (server : nat → outcome) (i n : nat) (eff : effects)
  : ending * effects :=
  match n with
  | 0 => (Returned false, eff)
  | S n' =>
      let eff := {| calls := S (calls eff); sleeps := sleeps eff |} in
      match server i with
      | Answers => (Returned true, eff)
      | Refused =>
          attempts server (S i) n'
            {| calls := calls eff; sleeps := S (sleeps eff) |}
      | Fails => (Raised, eff)
      end
  end.

Definition check_server_ready (server : nat → outcome) (max_attempts : Z)
  : ending * effects :=
  attempts server 0 (Z.to_nat max_attempts) {| calls := 0; sleeps := 0 |}.

End Launcher.

(** ** Worked data

    A data set and a cash book for the examples below. *)

(** The sheet that holds the given rows, from (1, 1) on. *)
Definition sheet_of_rows (name : string) (rows : list (list value))
  : worksheet :=
  {| title := name;
     max_row := Nat.max 1 (length rows);
     max_column := foldr (λ row n, Nat.max (length row) n) 1 rows;
     cell_value := λ r c,
       default VNone (rows !! (r - 1) ≫= λ row, row !! (c - 1)) |}.

Definition demo_config : config :=
  {| EXCEL_FILE_PATH := "kasboek.xlsx"; EXCEL_SHEET_NAME := "Kas" |}.

Definition world_of (fs : gmap string file) : world :=
  {| files := fs; globals := demo_config; trace := [] |}.

Definition test_set_rows : list (list value) :=
  [ [VStr "Datum"; VStr "Naam"; VStr "Mededelingen"; VStr "Tag"];
    [VNone; VNone; VStr "koffie en thee"; VStr "Materiaal"];
    [VNone; VNone; VStr "Koffie voor training"; VStr "Training"];
    [VNone; VNone; VNone; VStr "Training"];
    [VNone; VNone; VStr "koffie"; VNone];
    [VNone; VNone; VStr "thee en koffie"; VStr "Materiaal"];
    [VNone; VNone; VStr "zaalhuur"; VStr "Huur"] ].

Definition test_set_book : workbook :=
  {| sheets := [sheet_of_rows "Sheet" test_set_rows]; active_index := 0 |}.

Definition kas_rows : list (list value) :=
  [ [VStr "Datum"; VNone; VNone; VNone; VNone; VStr "Af/Bij"; VStr "Bedrag"];
    [VNone; VNone; VNone; VNone; VNone; VStr "Bij"; VInt 100];
    [VNone; VNone; VNone; VNone; VNone; VStr "Af"; VInt 30];
    [VNone; VNone; VNone; VNone; VNone; VStr "Af"; VStr "vijf"];
    [VNone; VNone; VNone; VNone; VNone; VStr "af"; VInt 5];
    [VNone; VNone; VNone; VNone; VNone; VNone; VNone] ].

Definition kas_book : workbook :=
  {| sheets := [sheet_of_rows "Kas" kas_rows]; active_index := 0 |}.

Definition demo_world : world :=
  world_of {[ "static/category_test_set.xlsx" := Xlsx test_set_book;
              "kasboek.xlsx" := Xlsx kas_book ]}.

(** A world without the data set and without the cash book. *)
Definition bare_world : world := world_of ∅.

(** Stand-ins for the two built-ins on floats; the worked data holds no
    float. *)
Definition demo_repr (f : spec_float) : string := "0.0".
Definition demo_round (f : spec_float) (ndigits : Z) : spec_float := f.

(** A cash book with the twelve columns of the application, and the
    same rows on a sheet that is not the configured one. *)
Definition ledger_rows : list (list value) :=
  [ VStr <$> REQUIRED_HEADERS;
    [VDateTime "2026-01-05 00:00:00"; VStr "Contributie"; VStr "";
     VStr ""; VStr ""; VStr "Bij"; VInt 100; VStr "Kas";
     VStr "Contributie januari"; VStr ""; VNone; VStr "Algemeen"];
    [VNone; VStr "Zonder datum"; VNone; VNone; VNone; VStr "Af"; VInt 1;
     VNone; VNone; VNone; VNone; VNone];
    [VDateTime "2026-01-03 00:00:00"; VStr "Koffie"; VStr "";
     VStr ""; VStr ""; VStr "Af"; VInt 30; VStr "Kas";
     VNone; VStr ""; VNone; VStr "Materiaal"] ].

Definition ledger_book : workbook :=
  {| sheets := [sheet_of_rows "Kas" ledger_rows]; active_index := 0 |}.

Definition ledger_world : world :=
  world_of {[ "kasboek.xlsx" := Xlsx ledger_book ]}.

Definition other_book : workbook :=
  {| sheets := [sheet_of_rows "Blad1" ledger_rows]; active_index := 0 |}.

Definition other_world : world :=
  world_of {[ "kasboek.xlsx" := Xlsx other_book ]}.

(** The amount 12.5, and stand-ins for the three further built-ins that
    know one amount and one date. *)
Definition twelve_and_a_half : spec_float :=
  binary_normalize prec emax 25 (-1) false.

Definition demo_builtins : builtins :=
  {| float_format_2f := λ _, "0.00";
     float_of_str := λ s,
       if decide (s = "12.50") then Some twelve_and_a_half else None;
     strptime_ymd := λ s,
       if decide (s = "2026-01-07") then Some "2026-01-07 00:00:00"
       else None |}.

Definition demo_form : form :=
  {[ "datum" := "2026-01-07"; "mededelingen" := "Ballen";
     "af_bij" := "Af"; "bedrag" := "12,50"; "tag" := "Materiaal" ]}.

(** A cash book whose amounts are floats, as [add_transaction] writes
    them: 0.1 and 0.2 come in and 0.125 goes out.  The same rows on a
    sheet that is not the configured one. *)
Definition tenth : spec_float := S754_finite false 7205759403792794 (-56).
Definition fifth : spec_float := S754_finite false 7205759403792794 (-55).
Definition eighth : spec_float := S754_finite false 4503599627370496 (-55).

Definition cents_rows : list (list value) :=
  [ VStr <$> REQUIRED_HEADERS;
    [VDateTime "2026-02-03 00:00:00"; VStr "Statiegeld"; VStr "";
     VStr ""; VStr ""; VStr "Bij"; VFloat tenth; VStr "Kas";
     VStr "Statiegeld"; VStr ""; VStr ""; VStr "Overig"];
    [VDateTime "2026-02-02 00:00:00"; VStr "Statiegeld"; VStr "";
     VStr ""; VStr ""; VStr "Bij"; VFloat fifth; VStr "Kas";
     VStr "Statiegeld"; VStr ""; VStr ""; VStr "Overig"];
    [VDateTime "2026-02-01 00:00:00"; VStr "Afronding"; VStr "";
     VStr ""; VStr ""; VStr "Af"; VFloat eighth; VStr "Kas";
     VStr "Afronding"; VStr ""; VStr ""; VStr "Overig"] ].

Definition cents_book : workbook :=
  {| sheets := [sheet_of_rows "Kas" cents_rows]; active_index := 0 |}.

Definition cents_world : world :=
  world_of {[ "kasboek.xlsx" := Xlsx cents_book ]}.

Definition centen_book : workbook :=
  {| sheets := [sheet_of_rows "Centen" cents_rows]; active_index := 0 |}.

Definition centen_world : world :=
  world_of {[ "kasboek.xlsx" := Xlsx centen_book ]}.

(** A world in which the file of the cash book is not a workbook. *)
Definition broken_world : world :=
  world_of {[ "kasboek.xlsx" := NotAWorkbook ]}.

(** A complete configuration, and one that lacks the tags. *)
Definition full_config : gmap string Config.cval :=
  <["excel_file_path" := Config.CStr "kasboek.xlsx"]> Config.default_config.

Definition config_files : gmap string Config.file :=
  {[ "config.json" := Config.Json (Config.DDict full_config);
     "old.json" := Config.Json (Config.DDict (delete "tags" full_config)) ]}.

(** A server that refuses the first two calls and answers the third. *)
Definition slow_server (attempt : nat) : Launcher.outcome :=
  if (attempt <? 2)%nat then Launcher.Refused else Launcher.Answers.

Section Kasboek.

(** Two built-ins of the runtime on floats are taken as given: [repr],
    which [str] uses, and [round] to a number of decimals.  What holds
    for any rounding is proved for [float_round]; the statements on the
    value of the total take the rounding of the runtime,
    [double_round]. *)
Variable float_repr : spec_float → string.
Variable float_round : spec_float → Z → spec_float.

(** [str(v)]. *)
Definition py_str (v : value) : string :=
  match v with
  | VNone => "None"
  | VStr s => s
  | VBool true => "True"
  | VBool false => "False"
  | VInt z => PyStr.of_int z
  | VFloat f => float_repr f
  | VDateTime text => text
  end.

(** [round(n, ndigits)]: an [int] is returned as it is. *)
Definition py_round (n : number) (ndigits : Z) : number :=
  match n with
  | NInt z => NInt z
  | NFloat f => NFloat (float_round f ndigits)
  end.

(** *** [recommend_category] *)

(** The loop that fills [training_data] from the rows of the sheet. *)
Fixpoint collect (rows : list (list value)) (training_data : list Item.t)
  : result (list Item.t) :=
  match rows with
  | [] => inr training_data
  | row :: rest =>
      (let? r2 := index row 2 in
       if truthy r2 then
         let? r3 := index row 3 in
         if truthy r3 then
           collect rest
             (training_data ++
                [{| Item.description := PyStr.lower (py_str r2);
                    Item.category := py_str r3 |}])
         else collect rest training_data
       else collect rest training_data)%py
  end.

Definition test_set_path : string :=
  os_path_join "static" "category_test_set.xlsx".

(** The body of the [try] block.  [description_field] is the text
    [str(data.get('description', ''))] of the request; [wb.close()] has no
    effect on what is read and is left out. *)
Definition recommend_body (description_field : string) : M (list Match.t) :=
  (let description := PyStr.lower (PyStr.strip description_field) in
   if PyStr.is_empty description || (String.length description <? 3)%nat
   then ret []
   else
     let* found := path_exists test_set_path in
     if negb found then
       logging_warning "Category test set niet gevonden" ;; ret []
     else
       let* wb := load_workbook test_set_path in
       let* sheet := lift (active wb) in
       let* training_data :=
         lift (collect (iter_rows sheet 2 1 (max_column sheet)) []) in
       let matches := find_matches description training_data in
       let matches := sort_desc matches in
       let seen_categories := keep_best matches [] in
       let recommendations :=
         take 5 (sort_desc (dict_values seen_categories)) in
       ret recommendations)%py.

Definition recommend_category (description_field : string)
  : M (list Match.t) :=
  try_except (recommend_body description_field)
    (λ e, logging_error "Fout bij category recommendation" ;; ret [])%py.

(** *** [calculate_total_amount] *)

(** The loop over the rows of columns F and G. *)
Fixpoint total_loop (rows : list (list value)) (total : number)
  : result number :=
  match rows with
  | [] => inr total
  | [af_bij; amount] :: rest =>
      match as_number amount with
      | Some a =>
          if eq_str af_bij "Af" then
            (let? total := py_sub total a in total_loop rest total)%py
          else if eq_str af_bij "Bij" then
            (let? total := py_add total a in total_loop rest total)%py
          else total_loop rest total
      | None => total_loop rest total
      end
  | _ :: _ => inl ValueError
  end.

Definition total_body : M number :=
  (let* g := read_globals in
   let* found := path_exists (EXCEL_FILE_PATH g) in
   if negb found then ret (NInt 0)
   else
     let* wb := load_workbook (EXCEL_FILE_PATH g) in
     if bool_decide (EXCEL_SHEET_NAME g ∈ sheetnames wb) then
       let* sheet := lift (getitem wb (EXCEL_SHEET_NAME g)) in
       let* total := lift (total_loop (iter_rows sheet 2 6 7) (NInt 0)) in
       ret (py_round total 2)
     else ret (NInt 0))%py.

Definition calculate_total_amount : M number :=
  try_except total_body
    (λ e, logging_error "Fout bij berekenen totaal" ;; ret (NInt 0))%py.

(** *** Views of a call, for the statements *)

(** The query as the function compares it: trimmed and in lower case. *)
Definition normalize (description_field : string) : string :=
  PyStr.lower (PyStr.strip description_field).

(** The test that ends the call before the data set is looked at. *)
Definition too_short (description_field : string) : bool :=
  PyStr.is_empty (normalize description_field)
  || (String.length (normalize description_field) <? 3)%nat.

(** The example that row [r] of a sheet gives, if it gives one: the
    description is in column 3 and the category in column 4, counted from
    1, which are the indices 2 and 3 of the row. *)
Definition item_of_row (sheet : worksheet) (r : nat) : option Item.t :=
  let d := cell_value sheet r 3 in
  let c := cell_value sheet r 4 in
  if truthy d && truthy c
  then Some {| Item.description := PyStr.lower (py_str d);
               Item.category := py_str c |}
  else None.

(** The term that row [r] of the cash book gives, if it gives one: the
    amount of column G when it is a number, added when column F holds
    "Bij" and subtracted when it holds "Af". *)
Definition signed_amount (sheet : worksheet) (r : nat)
  : option (sign * number) :=
  match as_number (cell_value sheet r 7) with
  | Some a =>
      if eq_str (cell_value sheet r 6) "Bij" then Some (Plus, a)
      else if eq_str (cell_value sheet r 6) "Af" then Some (Minus, a)
      else None
  | None => None
  end.

(** The match that an example gives for a query, if it gives one, and the
    match that row [r] of a sheet gives. *)
Definition match_of_item (q : string) (item : Item.t) : option Match.t :=
  let score := calculate_similarity q (Item.description item) in
  if decide (0 < score)%Qc
  then Some {| Match.category := Item.category item;
               Match.score := score;
               Match.example := Item.description item |}
  else None.

Definition match_of_row (q : string) (sheet : worksheet) (r : nat)
  : option Match.t :=
  item_of_row sheet r ≫= match_of_item q.

(** The examples the data set of a world holds, when it can be read. *)
Definition training_data (w : world) : result (list Item.t) :=
  match files w !! test_set_path with
  | Some (Xlsx wb) =>
      (let? sheet := active wb in
       collect (iter_rows sheet 2 1 (max_column sheet)) [])%py
  | Some NotAWorkbook => inl InvalidFileException
  | None => inr []
  end.

(** The list [matches] of a call, before it is sorted. *)
Definition all_matches (description_field : string) (w : world)
  : list Match.t :=
  match training_data w with
  | inr td => find_matches (normalize description_field) td
  | inl _ => []
  end.

(** From [matches] to [recommendations]. *)
Definition rank (matches : list Match.t) : list Match.t :=
  take 5 (sort_desc (dict_values (keep_best (sort_desc matches) []))).

(** *** [validate_excel_headers] *)

(** [str(val).strip() if val is not None else ''] *)
Definition header_text (val : value) : string :=
  match val with
  | VNone => ""
  | _ => PyStr.strip (py_str val)
  end.

(** The comparison of the first row with the required headers, from
    [normalized_row = ...] to the [return] of the [try] block. *)
Definition headers_match (first_row : list value)
    (required_headers : list string) : bool :=
  let normalized_row := header_text <$> first_row in
  let normalized_row :=
    if (length normalized_row <? length required_headers)%nat
    then normalized_row
           ++ replicate (length required_headers - length normalized_row) ""
    else normalized_row in
  let normalized_required := PyStr.strip <$> required_headers in
  bool_decide
    (take (length normalized_required) normalized_row = normalized_required).

(** [next(sheet.iter_rows(min_row=1, max_row=1, values_only=True), ())] *)
Definition first_row_of (sheet : worksheet) : list value :=
  match iter_rows_range sheet 1 1 1 (max_column sheet) with
  | row :: _ => row
  | [] => []
  end.

(** [wb[EXCEL_SHEET_NAME] if EXCEL_SHEET_NAME in wb.sheetnames else
    wb.active] *)
Definition sheet_or_active (wb : workbook) (name : string)
  : result worksheet :=
  if bool_decide (name ∈ sheetnames wb) then getitem wb name else active wb.

Definition validate_body (file_path : string)
    (required_headers : list string) : M bool :=
  (let* wb := load_workbook file_path in
   let* g := read_globals in
   let* sheet := lift (sheet_or_active wb (EXCEL_SHEET_NAME g)) in
   ret (headers_match (first_row_of sheet) required_headers))%py.

Definition validate_excel_headers (file_path : string)
    (required_headers : list string) : M bool :=
  try_except (validate_body file_path required_headers)
    (λ e, logging_error "Fout bij valideren Excel headers" ;; ret false)%py.

(** *** [get_recent_transactions] and [get_all_transactions] *)

(** Three more built-ins, taken as given. *)
Variable rt : builtins.

(** [f"{n:.2f}"] for a number; an [int] is converted to a float first. *)
Definition format_2f (n : number) : result string :=
  (let? f := to_float n in inr (float_format_2f rt f))%py.

(** [v.strftime('%Y-%m-%d') if isinstance(v, datetime) else str(v)] *)
Definition datum_text (v : value) : string :=
  match v with
  | VDateTime text => strftime_ymd text
  | _ => py_str v
  end.

(** [(row[8] if len(row) > 8 else None) or row[1] or ''] *)
Definition mededelingen_of (row : list value) : result value :=
  (let? m := (if (8 <? length row)%nat then index row 8 else inr VNone) in
   if truthy m then inr m
   else let? naam := index row 1 in inr (py_or naam (VStr "")))%py.

(** [f"{v:.2f}" if isinstance(v, (int, float)) else '0.00'] *)
Definition amount_text (v : value) : result string :=
  match as_number v with
  | Some n => format_2f n
  | None => inr "0.00"
  end.

(** The entry that a row adds to [transactions] in
    [get_recent_transactions], if it adds one. *)
Definition recent_of_row (row : list value) : result (option Recent.t) :=
  (let? date := index row 0 in
   if truthy date then
     let? mededelingen := mededelingen_of row in
     let? af_bij := index row 5 in
     let? bedrag := index row 6 in
     let? bedrag := amount_text bedrag in
     let? tag := index row 11 in
     let? saldo := index row 9 in
     let? saldo := amount_text saldo in
     inr (Some {| Recent.datum := datum_text date;
                  Recent.mededelingen := mededelingen;
                  Recent.af_bij := py_or af_bij (VStr "");
                  Recent.bedrag := bedrag;
                  Recent.tag := py_or tag (VStr "");
                  Recent.saldo := "€ " +:+ saldo |})
   else inr None)%py.

(** The same for [get_all_transactions]. *)
Definition entry_of_row (row : list value) : result (option Entry.t) :=
  (let? date := index row 0 in
   if truthy date then
     let? mededelingen := mededelingen_of row in
     let? af_bij := index row 5 in
     let? bedrag := index row 6 in
     let? bedrag := amount_text bedrag in
     let? rekening := index row 2 in
     let? tag := index row 11 in
     inr (Some {| Entry.datum := datum_text date;
                  Entry.mededelingen := mededelingen;
                  Entry.af_bij := py_or af_bij (VStr "");
                  Entry.bedrag := bedrag;
                  Entry.rekening := py_or rekening (VStr "");
                  Entry.tag := py_or tag (VStr "") |})
   else inr None)%py.

(** The loop [for row in ...: if row[0]: transactions.append(...)]. *)
Fixpoint gather {A} (of_row : list value → result (option A))
    (rows : list (list value)) (transactions : list A) : result (list A) :=
  match rows with
  | [] => inr transactions
  | row :: rest =>
      (let? entry := of_row row in
       gather of_row rest
         match entry with
         | Some t => transactions ++ [t]
         | None => transactions
         end)%py
  end.

(** The rows [iter_rows(min_row=2, max_row=min(limit+1, sheet.max_row))]
    runs over: a bound that is 0 stands for no bound. *)
Definition recent_rows (sheet : worksheet) (limit : Z) : list (list value) :=
  let bound := Z.min (limit + 1) (Z.of_nat (max_row sheet)) in
  let bound := if (bound =? 0)%Z then Z.of_nat (max_row sheet) else bound in
  iter_rows_range sheet 2 (Z.to_nat bound) 1 (max_column sheet).

Definition recent_body (limit : Z) : M (list Recent.t) :=
  (let* g := read_globals in
   let* found := path_exists (EXCEL_FILE_PATH g) in
   if negb found then ret []
   else
     let* wb := load_workbook (EXCEL_FILE_PATH g) in
     if negb (bool_decide (EXCEL_SHEET_NAME g ∈ sheetnames wb)) then ret []
     else
       let* sheet := lift (getitem wb (EXCEL_SHEET_NAME g)) in
       lift (gather recent_of_row (recent_rows sheet limit) []))%py.

Definition get_recent_transactions (limit : Z) : M (list Recent.t) :=
  try_except (recent_body limit)
    (λ e, logging_error "Fout bij ophalen transacties" ;; ret [])%py.

Definition all_body : M (list Entry.t) :=
  (let* g := read_globals in
   let* found := path_exists (EXCEL_FILE_PATH g) in
   if negb found then ret []
   else
     let* wb := load_workbook (EXCEL_FILE_PATH g) in
     if negb (bool_decide (EXCEL_SHEET_NAME g ∈ sheetnames wb)) then ret []
     else
       let* sheet := lift (getitem wb (EXCEL_SHEET_NAME g)) in
       lift (gather entry_of_row
               (iter_rows sheet 2 1 (max_column sheet)) []))%py.

Definition get_all_transactions : M (list Entry.t) :=
  try_except all_body
    (λ e, logging_error "Fout bij ophalen alle transacties" ;; ret [])%py.

(** *** [add_transaction] *)

(** The list [row_data]. *)
Definition row_data (f : form) (datum : string) (bedrag : spec_float)
  : list value :=
  [ VDateTime datum;
    VStr (default "" (f !! "mededelingen"));
    VStr (default "" (f !! "rekening"));
    VStr (default "" (f !! "tegenrekening"));
    VStr (default "" (f !! "code"));
    of_field (f !! "af_bij");
    VFloat bedrag;
    VStr (default "Kas" (f !! "mutatiesoort"));
    VStr (default "" (f !! "mededelingen"));
    VStr (default "" (f !! "saldo"));
    VStr "";
    VStr (default "" (f !! "tag")) ].

(** From [if os.path.exists(EXCEL_FILE_PATH)] to [wb.save]: the workbook
    is loaded or made, the sheet is found or made, the row is put in at
    row 2, and the workbook is saved. *)
Definition store_row (g : config) (values : list value) : M unit :=
  (let* found := path_exists (EXCEL_FILE_PATH g) in
   let* located :=
     if found then
       let* wb := load_workbook (EXCEL_FILE_PATH g) in
       if bool_decide (EXCEL_SHEET_NAME g ∈ sheetnames wb) then
         match sheet_index wb (EXCEL_SHEET_NAME g),
               getitem wb (EXCEL_SHEET_NAME g) with
         | Some i, inr sheet => ret (wb, i, sheet)
         | _, _ => raise KeyError
         end
       else
         let sheet := empty_sheet (EXCEL_SHEET_NAME g) in
         ret ({| sheets := sheets wb ++ [sheet];
                 active_index := active_index wb |},
              length (sheets wb), sheet)
     else
       let sheet := set_title (empty_sheet "Sheet") (EXCEL_SHEET_NAME g) in
       let sheet := write_cells sheet 1 1 (VStr <$> NEW_HEADERS) in
       ret ({| sheets := [sheet]; active_index := 0 |}, 0, sheet) in
   let '(wb, i, sheet) := located in
   let sheet := insert_rows sheet 2 in
   let sheet := write_cells sheet 2 1 values in
   save_workbook (EXCEL_FILE_PATH g) (with_sheet wb i sheet))%py.

(** The body of the [try] block.  The line that [logging.info] writes
    after the save is not kept in the trace. *)
Definition add_body (f : form) : M response :=
  (let* g := read_globals in
   if PyStr.is_empty (EXCEL_FILE_PATH g)
      || PyStr.is_empty (PyStr.strip (EXCEL_FILE_PATH g))
   then ret (BadRequest
     "Geen Excel bestand ingesteld. Ga naar Instellingen en selecteer/upload een Excel bestand.")
   else
     let* found := path_exists (EXCEL_FILE_PATH g) in
     if negb found
     then ret (BadRequest
       "Excel bestand niet gevonden. Ga naar Instellingen en selecteer/upload een geldig Excel bestand.")
     else
       let datum := f !! "datum" in
       let mededelingen := default "" (f !! "mededelingen") in
       let bedrag := f !! "bedrag" in
       if PyStr.is_empty (default "" datum)
       then ret (BadRequest "Datum is verplicht")
       else if PyStr.is_empty (PyStr.strip mededelingen)
       then ret (BadRequest "Mededeling is verplicht")
       else
         let* bedrag :=
           match bedrag with
           | Some s => ret s
           | None => raise AttributeError
           end in
         if PyStr.is_empty (PyStr.strip bedrag)
         then ret (BadRequest "Bedrag is verplicht")
         else
           match float_of_str rt (replace_comma bedrag) with
           | None => ret (BadRequest "Ongeldig bedrag")
           | Some bedrag =>
               match strptime_ymd rt (default "" datum) with
               | None => ret (BadRequest "Ongeldige datum")
               | Some datum =>
                   store_row g (row_data f datum bedrag) ;;
                   let* new_total := calculate_total_amount in
                   ret (Success new_total)
               end
           end)%py.

Definition add_transaction (f : form) : M response :=
  try_except (add_body f)
    (λ e, logging_error "Fout bij toevoegen transactie" ;;
          ret (ServerError e))%py.

(** *** [set_excel_file_path] and [set_excel_sheet_name]

    [request] is what the request gives the first lines of the function,
    [config_path] is [CONFIG_PATH] and [how] tells how the writing of the
    configuration goes.  [getpass.getuser()] and [request.remote_addr]
    are taken to answer.  The globals [EXCEL_FILE_NAME] and
    [EXCEL_FILE_DIRECTORY] and the dictionary [config], which no function
    here reads, are left out. *)

(** The [try] block from the check [if not new_path] on; [field] is
    [str(data.get('excel_file_path', ''))]. *)
Definition set_path_body (field : string) (config_path : string)
    (how : saving) : M answer :=
  (let new_path := PyStr.strip field in
   if PyStr.is_empty new_path then ret (Refused Required)
   else if negb (endswith (PyStr.lower new_path) ".xlsx")
   then ret (Refused NotXlsx)
   else
     let* found := path_exists new_path in
     if negb found then ret (Refused FileNotFound)
     else
       let* valid := validate_excel_headers new_path REQUIRED_HEADERS in
       if negb valid then ret (Refused WrongFormat)
       else
         assign_path new_path ;;
         let* saved := save_config config_path how in
         if negb saved then ret (Failed NotSaved)
         else ret Changed)%py.

(** An exception of the first lines is answered by the [except] like one
    of the lines after them. *)
Definition set_excel_file_path (request : payload) (config_path : string)
    (how : saving) : M answer :=
  let handler (e : exn) : M answer :=
    (logging_error "Fout bij instellen excel pad" ;;
     ret (Failed (Raised e)))%py in
  match request with
  | Unreadable =>
      (logging_error "Fout bij instellen excel pad" ;;
       ret (Failed NoJson))%py
  | NotAnObject => try_except (raise AttributeError) handler
  | Field field => try_except (set_path_body field config_path how) handler
  end.

(** The inner [try] block of [set_excel_sheet_name]: the answer with
    which the function returns from it, if it does. *)
Definition check_sheet (new_sheet_name : string) : M (option answer) :=
  (let* g := read_globals in
   let* wb := load_workbook (EXCEL_FILE_PATH g) in
   if negb (bool_decide (new_sheet_name ∈ sheetnames wb))
   then ret (Some (Refused SheetNotFound))
   else
     let* sheet := lift (getitem wb new_sheet_name) in
     if negb (headers_match (first_row_of sheet) REQUIRED_HEADERS)
     then ret (Some (Refused WrongHeaders))
     else ret None)%py.

(** The outer [try] block from the check [if not new_sheet_name] on;
    [field] is [str(data.get('sheet_name', ''))]. *)
Definition set_sheet_body (field : string) (config_path : string)
    (how : saving) : M answer :=
  (let new_sheet_name := PyStr.strip field in
   if PyStr.is_empty new_sheet_name then ret (Refused Required)
   else
     let* g := read_globals in
     let* found := path_exists (EXCEL_FILE_PATH g) in
     if negb found then ret (Refused FileNotFound)
     else
       (* an exception in the inner block reaches [except jsonify], which
          raises [TypeError]; the outer [except] answers it *)
       let* early :=
         try_except (check_sheet new_sheet_name)
           (λ _, logging_error "Fout bij instellen excel sheet naam" ;;
                 ret (Some (Failed CannotCatch))) in
       match early with
       | Some a => ret a
       | None =>
           assign_sheet_name new_sheet_name ;;
           let* saved := save_config config_path how in
           if negb saved then ret (Failed NotSaved)
           else ret Changed
       end)%py.

Definition set_excel_sheet_name (request : payload) (config_path : string)
    (how : saving) : M answer :=
  let handler (e : exn) : M answer :=
    (logging_error "Fout bij instellen excel sheet naam" ;;
     ret (Failed (Raised e)))%py in
  match request with
  | Unreadable =>
      (logging_error "Fout bij instellen excel sheet naam" ;;
       ret (Failed NoJson))%py
  | NotAnObject => try_except (raise AttributeError) handler
  | Field field => try_except (set_sheet_body field config_path how) handler
  end.

(** What the checks of [add_transaction] ask of the form: a date that is
    not empty and parses to [datum], a description that is not blank, and
    an amount that is not blank and, with its commas turned into points,
    parses to [bedrag]. *)
Definition accepted (f : form) (datum : string) (bedrag : spec_float)
  : Prop :=
  ∃ d b,
    f !! "datum" = Some d ∧ d ≠ "" ∧ strptime_ymd rt d = Some datum
    ∧ PyStr.strip (default "" (f !! "mededelingen")) ≠ ""
    ∧ f !! "bedrag" = Some b ∧ PyStr.strip b ≠ ""
    ∧ float_of_str rt (replace_comma b) = Some bedrag.

(** The text the check reads at index [i] of the header row: a cell
    beyond the last column counts as empty. *)
Definition header_at (sheet : worksheet) (i : nat) : string :=
  if decide (i < max_column sheet)
  then header_text (cell_value sheet 1 (S i))
  else "".

(** What the entries of the two listings have in common. *)
Definition recent_common (t : Recent.t)
  : string * value * value * string * value :=
  (Recent.datum t, Recent.mededelingen t, Recent.af_bij t, Recent.bedrag t,
   Recent.tag t).

Definition entry_common (t : Entry.t)
  : string * value * value * string * value :=
  (Entry.datum t, Entry.mededelingen t, Entry.af_bij t, Entry.bedrag t,
   Entry.tag t).

(** ** Notions the statements use *)

(** The set of the words of a text. *)
Definition tokens (text : string) : gset string :=
  list_to_set (PyStr.split text).

(** The Jaccard index of two sets of words as the specification words it:
    the size of the intersection over the size of the union, and zero when
    either set is empty. *)
Definition jaccard (A B : gset string) : Qc :=
  if decide (A = ∅ ∨ B = ∅) then 0%Qc
  else (Q2Qc (inject_Z (Z.of_nat (size (A ∩ B))))
        / Q2Qc (inject_Z (Z.of_nat (size (A ∪ B)))))%Qc.

(** [before a b]: [a] may stand before [b] in a list of descending score. *)
Definition before (a b : Match.t) : Prop :=
  (Match.score b ≤ Match.score a)%Qc.

(** The entries of a list that are the first of their category, in order;
    [seen] holds the categories met so far. *)
Fixpoint first_by_category (seen : list string) (l : list Match.t)
  : list Match.t :=
  match l with
  | [] => []
  | m :: rest =>
      if decide (Match.category m ∈ seen)
      then first_by_category seen rest
      else m :: first_by_category (Match.category m :: seen) rest
  end.

(** A dictionary of matches is keyed by the category of each match. *)
Definition dict_wf (d : dict) : Prop :=
  NoDup (d.*1) ∧ Forall (λ kv, Match.category kv.2 = kv.1) d.

(** One turn of the loop [keep_best]. *)
Definition visit (seen_categories : dict) (m : Match.t) : dict :=
  match dict_get seen_categories (Match.category m) with
  | None => dict_set seen_categories (Match.category m) m
  | Some old =>
      if decide (Match.score old < Match.score m)%Qc
      then dict_set seen_categories (Match.category m) m
      else seen_categories
  end.

(** ** Strings: trimming does not change the words *)

Section Strings.

Import PyStr.

Lemma isspace_lower_char c : isspace (lower_char c) = isspace c.
Proof. by destruct c as [[] [] [] [] [] [] [] []]. Qed.

Lemma is_empty_lower s : is_empty (lower s) = is_empty s.
Proof. by destruct s. Qed.

Lemma is_empty_true s : is_empty s = true → s = EmptyString.
Proof. by destruct s. Qed.

Lemma lower_lstrip s : lower (lstrip s) = lstrip (lower s).
Proof.
  induction s as [|c s IH]; simpl; [done|].
  rewrite isspace_lower_char. by destruct (isspace c).
Qed.

Lemma lower_rstrip s : lower (rstrip s) = rstrip (lower s).
Proof.
  induction s as [|c s IH]; simpl; [done|].
  rewrite <-IH, is_empty_lower, isspace_lower_char.
  by destruct (isspace c && is_empty (rstrip s)).
Qed.

Lemma lower_strip s : lower (strip s) = strip (lower s).
Proof. unfold strip. by rewrite lower_rstrip, lower_lstrip. Qed.

Lemma split_lstrip s : split (lstrip s) = split s.
Proof.
  unfold split. induction s as [|c s IH]; simpl; [done|].
  destruct (isspace c) eqn:Hc; [done|]. simpl. by rewrite Hc.
Qed.

Lemma split_from_rstrip word s :
  split_from word (rstrip s) = split_from word s.
Proof.
  revert word. induction s as [|c s IH]; intros word; simpl; [done|].
  destruct (isspace c) eqn:Hc; simpl.
  - destruct (is_empty (rstrip s)) eqn:He; simpl.
    + rewrite <-(IH EmptyString), (is_empty_true _ He). simpl.
      by destruct (is_empty word).
    + by rewrite Hc, !IH.
  - by rewrite Hc, IH.
Qed.

Lemma split_strip s : split (strip s) = split s.
Proof. unfold strip, split. by rewrite split_from_rstrip, split_lstrip. Qed.

End Strings.

(** ** The similarity of two texts *)

Section Similarity.

Lemma Zpos_of_nat (n : nat) : 0 < n → Z.pos (Pos.of_nat n) = Z.of_nat n.
Proof. intros Hn. rewrite <-positive_nat_Z, Nat2Pos.id; [done|lia]. Qed.

Lemma truediv_le_1 (a b : nat) : a ≤ b → 0 < b → (truediv a b ≤ 1)%Qc.
Proof.
  intros Hab Hb. unfold truediv, Qcle. simpl. rewrite !Qred_correct.
  unfold Qle. simpl. rewrite Zpos_of_nat by done. lia.
Qed.

Lemma truediv_pos (a b : nat) : 0 < a → (0 < truediv a b)%Qc.
Proof.
  intros Ha. unfold truediv, Qclt. simpl. rewrite !Qred_correct.
  unfold Qlt. simpl. lia.
Qed.

Lemma truediv_Qcdiv (a b : nat) :
  0 < b →
  truediv a b
  = (Q2Qc (inject_Z (Z.of_nat a)) / Q2Qc (inject_Z (Z.of_nat b)))%Qc.
Proof.
  intros Hb. unfold truediv. apply Qc_is_canon. simpl.
  rewrite !Qred_correct. rewrite <-(Zpos_of_nat b) by done.
  apply Qmake_Qdiv.
Qed.

Lemma union_size_pos (X Y : gset string) : size X ≠ 0 → 0 < size (X ∪ Y).
Proof.
  intros HX. assert (size X ≤ size (X ∪ Y)); [|lia].
  apply subseteq_size. set_solver.
Qed.

Lemma similarity_empty t1 t2 :
  tokens t1 = ∅ ∨ tokens t2 = ∅ → calculate_similarity t1 t2 = 0%Qc.
Proof.
  unfold calculate_similarity, tokens. intros [->| ->];
    rewrite size_empty; simpl; [done|].
  by rewrite orb_true_r.
Qed.

Lemma similarity_jaccard t1 t2 :
  calculate_similarity t1 t2 = jaccard (tokens t1) (tokens t2).
Proof.
  unfold jaccard. case_decide as He; [by apply similarity_empty|].
  unfold calculate_similarity. fold (tokens t1) (tokens t2).
  assert (size (tokens t1) ≠ 0 ∧ size (tokens t2) ≠ 0) as [H1 H2].
  { split; intros Hs%size_empty_iff%leibniz_equiv; tauto. }
  rewrite !bool_decide_false by done. simpl.
  by apply truediv_Qcdiv, union_size_pos.
Qed.

Lemma similarity_le_1 t1 t2 : (calculate_similarity t1 t2 ≤ 1)%Qc.
Proof.
  unfold calculate_similarity.
  destruct (bool_decide _ || bool_decide _) eqn:Hg; [done|].
  apply orb_false_iff in Hg as [H1%bool_decide_eq_false _].
  apply truediv_le_1.
  - apply subseteq_size. set_solver.
  - by apply union_size_pos.
Qed.

End Similarity.

(** ** The stable sort *)

Section Sorting.

Implicit Types (x m : Match.t) (l : list Match.t).

Lemma insert_desc_perm x l : insert_desc x l ≡ₚ x :: l.
Proof.
  induction l as [|h t IH]; simpl; [done|].
  case_decide; [|done].
  rewrite IH. apply Permutation_swap.
Qed.

Lemma sort_desc_perm l : sort_desc l ≡ₚ l.
Proof.
  induction l as [|x l IH]; simpl; [done|].
  by rewrite insert_desc_perm, IH.
Qed.

Lemma elem_of_sort_desc m l : m ∈ sort_desc l ↔ m ∈ l.
Proof. by rewrite sort_desc_perm. Qed.

Lemma before_trans a b c : before a b → before b c → before a c.
Proof. unfold before. intros Hab Hbc. by etrans. Qed.

Lemma insert_desc_sorted x l :
  StronglySorted before l → StronglySorted before (insert_desc x l).
Proof.
  induction 1 as [|h t Hs IH Hh]; simpl.
  - repeat constructor.
  - case_decide as Hlt.
    + constructor; [done|].
      rewrite insert_desc_perm. constructor; [|done].
      by apply Qclt_le_weak.
    + apply Qcnot_lt_le in Hlt.
      constructor; [by constructor|].
      constructor; [done|].
      eapply Forall_impl; [exact Hh|].
      intros y Hy. by eapply before_trans.
Qed.

Lemma sort_desc_sorted l : StronglySorted before (sort_desc l).
Proof.
  induction l; simpl; [constructor | by apply insert_desc_sorted].
Qed.

(** A list in descending order is left as it is. *)
Lemma sort_desc_id l : StronglySorted before l → sort_desc l = l.
Proof.
  induction 1 as [|x l Hs IH Hx]; simpl; [done|].
  rewrite IH. destruct Hx as [|h t Hh _]; simpl; [done|].
  case_decide as Hlt; [|done].
  by apply Qclt_not_le in Hlt.
Qed.

(** Stability: entries of one score keep their relative order. *)
Lemma insert_desc_stable (P : Match.t → Prop) `{!∀ m, Decision (P m)} s x l :
  (∀ m, P m → Match.score m = s) →
  filter P (insert_desc x l) = filter P (x :: l).
Proof.
  intros HP. induction l as [|h t IH]; simpl; [done|].
  case_decide as Hlt; [|done].
  rewrite !filter_cons in *.
  destruct (decide (P h)) as [Hh|Hh], (decide (P x)) as [Hx|Hx];
    rewrite IH; try done.
  apply HP in Hh, Hx. rewrite Hh, Hx in Hlt.
  by apply Qclt_not_eq in Hlt.
Qed.

Lemma sort_desc_stable (P : Match.t → Prop) `{!∀ m, Decision (P m)} s l :
  (∀ m, P m → Match.score m = s) →
  filter P (sort_desc l) = filter P l.
Proof.
  intros HP. induction l as [|x l IH]; simpl; [done|].
  rewrite (insert_desc_stable P s) by done.
  by rewrite !filter_cons, IH.
Qed.

End Sorting.

(** ** The dictionary and the loop over the sorted matches *)

Section Dict.

Implicit Types (d : dict) (k : string) (v m : Match.t).

Lemma dict_get_None d k : dict_get d k = None ↔ k ∉ d.*1.
Proof.
  induction d as [|[k' v'] d IH]; simpl.
  - split; [intros _; apply not_elem_of_nil | done].
  - rewrite not_elem_of_cons. case_decide as Hk.
    + split; [done|]. intros [Hne _]. by destruct Hne.
    + rewrite IH. split; [by split|]. by intros [_ ?].
Qed.

Lemma dict_get_Some d k v : dict_get d k = Some v → (k, v) ∈ d.
Proof.
  induction d as [|[k' v'] d IH]; simpl; [done|].
  case_decide as Hk; [intros [= ->]; subst k'; left | right; auto].
Qed.

Lemma dict_set_absent d k v :
  dict_get d k = None → dict_set d k v = d ++ [(k, v)].
Proof.
  induction d as [|[k' v'] d IH]; simpl; [done|].
  case_decide; [done|]. intros Hd. by rewrite IH.
Qed.

Lemma dict_set_present d k old v :
  dict_get d k = Some old →
  ∃ d1 d2, d = d1 ++ (k, old) :: d2 ∧ dict_set d k v = d1 ++ (k, v) :: d2.
Proof.
  induction d as [|[k' v'] d IH]; simpl; [done|].
  case_decide as Hk.
  - intros [= <-]. subst k'. by exists [], d.
  - intros Hd. destruct (IH Hd) as (d1 & d2 & -> & ->).
    by exists ((k', v') :: d1), d2.
Qed.

Lemma keep_best_cons m l d : keep_best (m :: l) d = keep_best l (visit d m).
Proof. done. Qed.

Lemma visit_wf d m : dict_wf d → dict_wf (visit d m).
Proof.
  intros [Hnd Hcat]. unfold visit.
  destruct (dict_get d (Match.category m)) as [old|] eqn:Hget.
  - case_decide; [|done].
    destruct (dict_set_present _ _ _ m Hget) as (d1 & d2 & Hd & ->).
    subst d. split.
    + rewrite fmap_app in Hnd |- *. exact Hnd.
    + rewrite Forall_app, Forall_cons in Hcat |- *.
      destruct Hcat as (H1 & _ & H2). by split_and!.
  - rewrite dict_set_absent by done. apply dict_get_None in Hget. split.
    + rewrite fmap_app. apply NoDup_app. split_and!; [done| |apply NoDup_singleton].
      intros k Hk ->%list_elem_of_singleton. done.
    + rewrite Forall_app, Forall_singleton. done.
Qed.

Lemma visit_elem_of d m v :
  v ∈ dict_values (visit d m) → v ∈ dict_values d ∨ v = m.
Proof.
  unfold visit, dict_values.
  destruct (dict_get d (Match.category m)) as [old|] eqn:Hget.
  - case_decide; [|by left].
    destruct (dict_set_present _ _ _ m Hget) as (d1 & d2 & -> & ->).
    rewrite !fmap_app, !fmap_cons, !elem_of_app, !elem_of_cons. naive_solver.
  - rewrite dict_set_absent by done.
    rewrite fmap_app, elem_of_app. simpl.
    rewrite list_elem_of_singleton. naive_solver.
Qed.

(** Whatever was in the dictionary or is visited is matched, in its
    category, by an entry that scores at least as much. *)
Lemma visit_dominates d m x :
  dict_wf d → x ∈ dict_values d ∨ x = m →
  ∃ y, y ∈ dict_values (visit d m)
       ∧ Match.category y = Match.category x
       ∧ (Match.score x ≤ Match.score y)%Qc.
Proof.
  intros [Hnd Hcat] Hx. unfold visit, dict_values in *.
  destruct (dict_get d (Match.category m)) as [old|] eqn:Hget.
  - assert (Match.category old = Match.category m) as Hold.
    { apply dict_get_Some in Hget.
      rewrite Forall_forall in Hcat. by apply (Hcat _ Hget). }
    case_decide as Hlt.
    + destruct (dict_set_present _ _ _ m Hget) as (d1 & d2 & -> & ->).
      rewrite !fmap_app, !fmap_cons, !elem_of_app, !elem_of_cons in Hx.
      simpl in Hx.
      assert (x = old ∨ x = m ∨ x ∈ d1.*2 ∨ x ∈ d2.*2) as Hc by naive_solver.
      destruct Hc as [->| [->| Hc]].
      * exists m. split_and!; [|done|by apply Qclt_le_weak].
        rewrite fmap_app, fmap_cons, elem_of_app, elem_of_cons. auto.
      * exists m. split_and!; [|done|done].
        rewrite fmap_app, fmap_cons, elem_of_app, elem_of_cons. auto.
      * exists x. split_and!; [|done|done].
        rewrite fmap_app, fmap_cons, elem_of_app, elem_of_cons. naive_solver.
    + destruct Hx as [Hx| ->]; [by exists x|].
      exists old. split_and!; [|done|by apply Qcnot_lt_le].
      apply dict_get_Some in Hget.
      apply list_elem_of_fmap. by exists (Match.category m, old).
  - rewrite dict_set_absent by done. exists x. split_and!; [|done|done].
    rewrite fmap_app, elem_of_app. simpl.
    rewrite list_elem_of_singleton. naive_solver.
Qed.

Lemma keep_best_wf l d : dict_wf d → dict_wf (keep_best l d).
Proof.
  revert d. induction l as [|m l IH]; intros d Hd; [done|].
  rewrite keep_best_cons. by apply IH, visit_wf.
Qed.

(** Every entry that is kept comes from the dictionary or from the list,
    and no entry of its category there scores more. *)
Lemma keep_best_spec l d v :
  dict_wf d → v ∈ dict_values (keep_best l d) →
  (v ∈ dict_values d ∨ v ∈ l)
  ∧ ∀ x, x ∈ dict_values d ∨ x ∈ l →
         Match.category x = Match.category v →
         (Match.score x ≤ Match.score v)%Qc.
Proof.
  revert d. induction l as [|m l IH]; intros d Hd Hv.
  - simpl in Hv. split; [by left|].
    intros x [Hx|Hx] Hc; [|by apply elem_of_nil in Hx].
    destruct Hd as [Hnd Hcat]. unfold dict_values in *.
    apply list_elem_of_fmap in Hv as ([k1 v1] & -> & Hv).
    apply list_elem_of_fmap in Hx as ([k2 x1] & -> & Hx).
    simpl in *. rewrite Forall_forall in Hcat.
    pose proof (Hcat _ Hv) as H1. pose proof (Hcat _ Hx) as H2. simpl in *.
    assert (k1 = k2) as <- by congruence.
    assert (v1 = x1) as ->; [|done].
    apply list_elem_of_lookup in Hv as [i Hi], Hx as [j Hj].
    assert (i = j) as ->.
    { eapply NoDup_lookup; [exact Hnd| |];
        rewrite list_lookup_fmap; [by rewrite Hi | by rewrite Hj]. }
    congruence.
  - rewrite keep_best_cons in Hv.
    destruct (IH _ (visit_wf _ m Hd) Hv) as [Hin Hmax]. split.
    + destruct Hin as [Hin|Hin]; [|right; by right].
      apply visit_elem_of in Hin as [Hin| ->]; [by left | right; by left].
    + intros x Hx Hc.
      assert (x ∈ l ∨ (x ∈ dict_values d ∨ x = m)) as [Hl|Hdm].
      { rewrite elem_of_cons in Hx. naive_solver. }
      * apply Hmax; auto.
      * destruct (visit_dominates d m x Hd Hdm) as (y & Hy & Hcy & Hle).
        etrans; [exact Hle|]. apply Hmax; [by left | congruence].
Qed.

Lemma first_by_category_ext (s1 s2 : list string) (l : list Match.t) :
  (∀ k, k ∈ s1 ↔ k ∈ s2) →
  first_by_category s1 l = first_by_category s2 l.
Proof.
  revert s1 s2. induction l as [|m l IH]; intros s1 s2 Hs; simpl; [done|].
  destruct (decide (Match.category m ∈ s1)) as [H1|H1],
           (decide (Match.category m ∈ s2)) as [H2|H2].
  - by apply IH.
  - by apply Hs in H1.
  - by apply Hs in H2.
  - f_equal. apply IH. intros k. rewrite !elem_of_cons, Hs. done.
Qed.

Lemma first_by_category_sublist (seen : list string) (l : list Match.t) :
  first_by_category seen l `sublist_of` l.
Proof.
  revert seen. induction l as [|m l IH]; intros seen; simpl; [done|].
  case_decide; [apply sublist_cons | apply sublist_skip]; apply IH.
Qed.

Lemma StronglySorted_sublist {A} (R : relation A) (l1 l2 : list A) :
  l1 `sublist_of` l2 → StronglySorted R l2 → StronglySorted R l1.
Proof.
  induction 1 as [|x l1 l2 Hsub IH|x l1 l2 Hsub IH];
    rewrite ?StronglySorted_cons; [done| |].
  - intros [Hx Hs]. split; [|by apply IH].
    rewrite Forall_forall in Hx |- *. intros y Hy.
    apply Hx. by eapply elem_of_sublist.
  - intros [_ Hs]. by apply IH.
Qed.

(** On a list in descending order nothing is ever replaced: a category is
    entered at its first match and stays. *)
Lemma visit_sorted d m :
  dict_wf d → Forall (λ o, before o m) (dict_values d) →
  visit d m =
    if decide (Match.category m ∈ d.*1) then d
    else d ++ [(Match.category m, m)].
Proof.
  intros Hd Hb. unfold visit.
  destruct (dict_get d (Match.category m)) as [old|] eqn:Hget.
  - pose proof (dict_get_Some _ _ _ Hget) as Hin.
    assert (Match.category m ∈ d.*1) as Hk.
    { apply list_elem_of_fmap. by exists (Match.category m, old). }
    assert (old ∈ dict_values d) as Ho.
    { apply list_elem_of_fmap. by exists (Match.category m, old). }
    rewrite (decide_True _ _ Hk). rewrite decide_False; [done|].
    apply Qcle_not_lt. rewrite Forall_forall in Hb. by apply Hb.
  - rewrite dict_set_absent by done.
    apply dict_get_None in Hget. by rewrite decide_False.
Qed.

Lemma keep_best_sorted l d :
  dict_wf d → StronglySorted before (dict_values d ++ l) →
  dict_values (keep_best l d) = dict_values d ++ first_by_category (d.*1) l.
Proof.
  revert d. induction l as [|m l IH]; intros d Hd Hs.
  - simpl. by rewrite app_nil_r.
  - rewrite keep_best_cons. pose proof (visit_wf d m Hd) as Hd'.
    assert (Forall (λ o, before o m) (dict_values d)) as Hb.
    { apply Forall_forall. intros o Ho.
      eapply StronglySorted_app_1_elem_of; [exact Hs|done|by left]. }
    rewrite visit_sorted in Hd' |- * by done. simpl.
    destruct (decide (Match.category m ∈ d.*1)) as [Hin|Hin].
    + apply IH; [done|].
      eapply StronglySorted_sublist; [|exact Hs].
      apply sublist_app; [done|]. by apply sublist_cons.
    + rewrite IH; [|done|].
      * unfold dict_values. rewrite !fmap_app. simpl.
        rewrite <-app_assoc. simpl. do 2 f_equal.
        apply first_by_category_ext. intros k.
        set_solver.
      * unfold dict_values in *. rewrite fmap_app. simpl.
        by rewrite <-app_assoc.
Qed.

End Dict.

(** ** From the matches to the recommendations *)

Section Rank.

Implicit Types (r m : Match.t) (ms : list Match.t).

Lemma dict_wf_nil : dict_wf [].
Proof. split; [apply NoDup_nil_2 | apply Forall_nil_2]. Qed.

Lemma dict_wf_categories (d : dict) :
  dict_wf d → Match.category <$> dict_values d = d.*1.
Proof.
  intros [_ Hcat]. unfold dict_values.
  induction Hcat as [|[k v] d Hk _ IH]; [done|].
  rewrite !fmap_cons. simpl in *. by rewrite Hk, IH.
Qed.

Lemma StronglySorted_lookup {A} (R : relation A) (l : list A) i j a b :
  StronglySorted R l → i < j → l !! i = Some a → l !! j = Some b → R a b.
Proof.
  intros Hs. revert i j.
  induction Hs as [|x l Hs IH Hx]; intros i j Hij Hi Hj; [done|].
  destruct j as [|j]; [lia|]. destruct i as [|i]; simpl in *.
  - injection Hi as ->. rewrite Forall_forall in Hx.
    apply Hx. by eapply list_elem_of_lookup_2.
  - eapply (IH i j); [lia|done|done].
Qed.

(** The second sort finds its input in order: the recommendations are the
    first match of each category in the sorted list, cut to five. *)
Lemma rank_first ms :
  rank ms = take 5 (first_by_category [] (sort_desc ms)).
Proof.
  unfold rank. f_equal.
  rewrite (keep_best_sorted _ [] dict_wf_nil) by apply sort_desc_sorted.
  simpl. apply sort_desc_id.
  eapply StronglySorted_sublist;
    [apply first_by_category_sublist | apply sort_desc_sorted].
Qed.

Lemma rank_length ms : length (rank ms) ≤ 5.
Proof. unfold rank. rewrite length_take. lia. Qed.

Lemma rank_sorted ms : StronglySorted before (rank ms).
Proof.
  unfold rank. eapply StronglySorted_sublist;
    [apply sublist_take | apply sort_desc_sorted].
Qed.

Lemma rank_NoDup ms : NoDup (Match.category <$> rank ms).
Proof.
  unfold rank. rewrite fmap_take.
  eapply sublist_NoDup; [|apply sublist_take].
  rewrite sort_desc_perm.
  pose proof (keep_best_wf (sort_desc ms) [] dict_wf_nil) as Hwf.
  rewrite dict_wf_categories by done. apply Hwf.
Qed.

Lemma rank_best ms r :
  r ∈ rank ms →
  r ∈ ms ∧ ∀ m, m ∈ ms → Match.category m = Match.category r →
                (Match.score m ≤ Match.score r)%Qc.
Proof.
  unfold rank. intros Hr.
  pose proof (elem_of_sublist _ _ _ Hr (sublist_take _ 5)) as Hr'.
  clear Hr. apply (proj1 (elem_of_sort_desc _ _)) in Hr'.
  destruct (keep_best_spec _ _ _ dict_wf_nil Hr') as [Hin Hmax].
  split.
  - destruct Hin as [Hin|Hin]; [by apply elem_of_nil in Hin|].
    by apply (proj1 (elem_of_sort_desc _ _)) in Hin.
  - intros m Hm. apply Hmax. right. by apply (proj2 (elem_of_sort_desc _ _)).
Qed.

Lemma first_by_category_not_seen (seen : list string) ms r :
  r ∈ first_by_category seen ms → Match.category r ∉ seen.
Proof.
  revert seen. induction ms as [|m ms IH]; intros seen; simpl.
  { by intros ?%elem_of_nil. }
  case_decide as Hm; [apply IH|].
  intros [->|Hr]%elem_of_cons; [done|].
  apply IH in Hr. rewrite not_elem_of_cons in Hr. by destruct Hr.
Qed.

(** An entry that is the first of its category has no entry of that
    category before it. *)
Lemma first_by_category_elem (seen : list string) ms r :
  r ∈ first_by_category seen ms →
  ∃ l1 l2, ms = l1 ++ r :: l2
           ∧ ∀ m, m ∈ l1 → Match.category m ≠ Match.category r.
Proof.
  revert seen. induction ms as [|m ms IH]; intros seen; simpl.
  { by intros ?%elem_of_nil. }
  case_decide as Hm.
  - intros Hr. pose proof (first_by_category_not_seen _ _ _ Hr) as Hns.
    destruct (IH _ Hr) as (l1 & l2 & -> & Hl1).
    exists (m :: l1), l2. split; [done|].
    intros m' [->|Hm']%elem_of_cons; [congruence | by apply Hl1].
  - intros [->|Hr]%elem_of_cons.
    + exists [], ms. split; [done|]. by intros m' ?%elem_of_nil.
    + pose proof (first_by_category_not_seen _ _ _ Hr) as Hns.
      rewrite not_elem_of_cons in Hns. destruct Hns as [Hne _].
      destruct (IH _ Hr) as (l1 & l2 & -> & Hl1).
      exists (m :: l1), l2. split; [done|].
      intros m' [->|Hm']%elem_of_cons; [congruence | by apply Hl1].
Qed.

Lemma filter_none {A} (P : A → Prop) `{!∀ x, Decision (P x)} (l : list A) :
  (∀ y, y ∈ l → ¬ P y) → filter P l = [].
Proof.
  induction l as [|a l IH]; intros Hl; [done|].
  rewrite filter_cons, decide_False by (apply Hl; by left).
  apply IH. intros y Hy. apply Hl. by right.
Qed.

Lemma filter_head {A} (P : A → Prop) `{!∀ x, Decision (P x)}
    (l : list A) x t :
  filter P l = x :: t →
  ∃ l1 l2, l = l1 ++ x :: l2 ∧ ∀ y, y ∈ l1 → ¬ P y.
Proof.
  induction l as [|a l IH]; [done|].
  rewrite filter_cons. case_decide as Ha.
  - intros [= -> _]. exists [], l. split; [done|]. by intros y ?%elem_of_nil.
  - intros Hf. destruct (IH Hf) as (l1 & l2 & -> & Hl1).
    exists (a :: l1), l2. split; [done|].
    intros y [->|Hy]%elem_of_cons; [done | by apply Hl1].
Qed.

(** Of the matches of its category and its score, a recommendation is the
    one that comes first in the list of matches. *)
Lemma rank_earliest ms r :
  r ∈ rank ms →
  ∃ l1 l2, ms = l1 ++ r :: l2
    ∧ ∀ m, m ∈ l1 → Match.category m = Match.category r →
           (Match.score m < Match.score r)%Qc.
Proof.
  intros Hr. pose proof (rank_best _ _ Hr) as [_ Hmax].
  rewrite rank_first in Hr.
  pose proof (elem_of_sublist _ _ _ Hr (sublist_take _ 5)) as Hr'.
  destruct (first_by_category_elem _ _ _ Hr') as (s1 & s2 & Hs & Hs1).
  set (P := λ m : Match.t, Match.category m = Match.category r
                           ∧ Match.score m = Match.score r).
  assert (filter P ms = r :: filter P s2) as Hf.
  { rewrite <-(sort_desc_stable P (Match.score r)) by (by intros m [_ ?]).
    rewrite Hs, filter_app, filter_cons, decide_True by done.
    rewrite (filter_none P s1); [done|].
    intros m Hm [Hc _]. by apply (Hs1 m). }
  destruct (filter_head P _ _ _ Hf) as (l1 & l2 & Hms & Hl1).
  exists l1, l2. split; [done|]. intros m Hm Hc.
  destruct (Qcle_lt_or_eq _ _ (Hmax m ltac:(rewrite Hms; set_solver) Hc))
    as [Hlt|Heq]; [done|].
  by destruct (Hl1 m Hm).
Qed.

End Rank.

(** ** Loading the examples *)

Section Loading.

Implicit Types (sheet : worksheet) (r n : nat).

Lemma row_lookup sheet r n i v :
  (cell_value sheet r <$> seq 1 n) !! i = Some v →
  v = cell_value sheet r (S i).
Proof.
  rewrite list_lookup_fmap_Some. intros (c & -> & Hc).
  apply lookup_seq in Hc as [-> _]. done.
Qed.

Lemma row_lookup_lt sheet r n i :
  i < n → (cell_value sheet r <$> seq 1 n) !! i
          = Some (cell_value sheet r (S i)).
Proof.
  intros Hi. by rewrite list_lookup_fmap, lookup_seq_lt.
Qed.

Lemma iter_rows_all sheet :
  iter_rows sheet 2 1 (max_column sheet)
  = (λ r, cell_value sheet r <$> seq 1 (max_column sheet))
      <$> seq 2 (max_row sheet - 1).
Proof.
  unfold iter_rows. simpl. by rewrite Nat.sub_0_r.
Qed.

(** With four columns or more no row raises, and each row gives its
    example or nothing. *)
Lemma collect_wide sheet n (rs : list nat) acc :
  4 ≤ n →
  collect ((λ r, cell_value sheet r <$> seq 1 n) <$> rs) acc
  = inr (acc ++ omap (item_of_row sheet) rs).
Proof.
  intros Hn. revert acc.
  induction rs as [|r rs IH]; intros acc; simpl.
  { by rewrite app_nil_r. }
  unfold index. rewrite !row_lookup_lt by lia. simpl.
  unfold item_of_row.
  destruct (truthy (cell_value sheet r 3)); simpl; [|apply IH].
  destruct (truthy (cell_value sheet r 4)); simpl; [|apply IH].
  rewrite IH. by rewrite <-app_assoc.
Qed.

(** Whatever the width, an example that is collected is the example of
    one of the rows. *)
Lemma collect_elem sheet n (rs : list nat) acc td item :
  collect ((λ r, cell_value sheet r <$> seq 1 n) <$> rs) acc = inr td →
  item ∈ td →
  item ∈ acc ∨ ∃ r, r ∈ rs ∧ item_of_row sheet r = Some item.
Proof.
  revert acc. induction rs as [|r rs IH]; intros acc; simpl.
  { intros [= <-] Hin. by left. }
  unfold index.
  destruct (_ !! 2) as [d|] eqn:Hd; simpl; [|done].
  apply row_lookup in Hd as ->.
  assert (∀ acc', collect ((λ r, cell_value sheet r <$> seq 1 n) <$> rs) acc'
                  = inr td → item ∈ td → (∀ x, x ∈ acc' → x ∈ acc) →
          item ∈ acc ∨ ∃ r', r' ∈ r :: rs ∧ item_of_row sheet r' = Some item)
    as Hskip.
  { intros acc' Hc Hin Hsub.
    destruct (IH _ Hc Hin) as [Ha|(r' & Hr' & Hitem)]; [left; auto|].
    right. exists r'. split; [by right|done]. }
  destruct (truthy (cell_value sheet r 3)) eqn:Ht3; [|by eauto].
  destruct (_ !! 3) as [c|] eqn:Hc; simpl; [|done].
  apply row_lookup in Hc as ->.
  destruct (truthy (cell_value sheet r 4)) eqn:Ht4; [|by eauto].
  intros Hcol Hin.
  destruct (IH _ Hcol Hin) as [Ha|(r' & Hr' & Hitem)].
  - apply elem_of_app in Ha as [Ha| ->%list_elem_of_singleton]; [by left|].
    right. exists r. split; [by left|].
    unfold item_of_row. by rewrite Ht3, Ht4.
  - right. exists r'. split; [by right|done].
Qed.

(** With fewer than four columns the loop ends without raising only if
    it keeps nothing. *)
Lemma collect_narrow sheet n (rs : list nat) acc td :
  n < 4 →
  collect ((λ r, cell_value sheet r <$> seq 1 n) <$> rs) acc = inr td →
  td = acc.
Proof.
  intros Hn. revert acc. induction rs as [|r rs IH]; intros acc; simpl.
  { by intros [= <-]. }
  unfold index.
  destruct (_ !! 2) as [d|] eqn:Hd; simpl; [|done].
  destruct (truthy d); [|apply IH].
  rewrite list_lookup_fmap, lookup_seq_ge by lia. done.
Qed.

Lemma find_matches_omap q (td : list Item.t) :
  find_matches q td = omap (match_of_item q) td.
Proof.
  induction td as [|item td IH]; simpl; [done|].
  unfold match_of_item at 1. case_decide; by rewrite IH.
Qed.

Lemma omap_omap {A B C} (f : A → option B) (g : B → option C) (l : list A) :
  omap g (omap f l) = omap (λ x, f x ≫= g) l.
Proof.
  induction l as [|x l IH]; simpl; [done|].
  destruct (f x) as [y|]; simpl; [|done].
  destruct (g y); [f_equal|]; exact IH.
Qed.

(** The matches of a call are the matches of the rows of the active
    sheet, from the second row on and in the order of the rows. *)
Lemma all_matches_rows d w :
  all_matches d w = []
  ∨ ∃ wb sheet,
      files w !! test_set_path = Some (Xlsx wb)
      ∧ active wb = inr sheet
      ∧ all_matches d w
        = omap (match_of_row (normalize d) sheet)
            (seq 2 (max_row sheet - 1)).
Proof.
  unfold all_matches, training_data.
  destruct (files w !! test_set_path) as [[|wb]|]; [by left| |by left].
  destruct (active wb) as [e|sheet] eqn:Hact; simpl; [by left|].
  rewrite iter_rows_all.
  destruct (decide (4 ≤ max_column sheet)) as [Hw|Hw].
  - right. exists wb, sheet. split_and!; [done|done|].
    rewrite collect_wide by done. simpl.
    by rewrite find_matches_omap, omap_omap.
  - left. destruct (collect _ _) as [e|td] eqn:Hc; [done|].
    apply collect_narrow in Hc as ->; [done|lia].
Qed.

Lemma omap_split {A B} (f : A → option B) (l : list A) l1 y l2 :
  omap f l = l1 ++ y :: l2 →
  ∃ k1 x k2, l = k1 ++ x :: k2 ∧ f x = Some y ∧ omap f k1 = l1.
Proof.
  revert l1. induction l as [|a l IH]; intros l1; simpl.
  { by destruct l1. }
  destruct (f a) as [b|] eqn:Hfa.
  - destruct l1 as [|b' l1]; simpl.
    + intros [= -> _]. exists [], a, l. by split_and!.
    + intros [= -> Hl]. destruct (IH _ Hl) as (k1 & x & k2 & -> & Hx & <-).
      exists (a :: k1), x, k2. split_and!; [done|done|].
      simpl. by rewrite Hfa.
  - intros Hl. destruct (IH _ Hl) as (k1 & x & k2 & -> & Hx & <-).
    exists (a :: k1), x, k2. split_and!; [done|done|].
    simpl. by rewrite Hfa.
Qed.

Lemma seq_split (a n : nat) k1 x k2 :
  seq a n = k1 ++ x :: k2 →
  a ≤ x < a + n ∧ ∀ j, a ≤ j < x → j ∈ k1.
Proof.
  intros Hs.
  assert (seq a n !! length k1 = Some x) as Hx.
  { rewrite Hs. by apply list_lookup_middle. }
  apply lookup_seq in Hx as [-> Hlen]. split; [lia|].
  intros j Hj. apply list_elem_of_lookup. exists (j - a).
  assert (seq a n !! (j - a) = Some j) as Hjl.
  { apply lookup_seq. lia. }
  rewrite Hs, lookup_app_l in Hjl by lia. done.
Qed.

End Loading.

(** ** Runs of [recommend_category] *)

(** A call with a query that is too short ends at once. *)
Lemma recommend_category_short d w :
  too_short d = true → recommend_category d w = (inr [], w).
Proof.
  unfold too_short, normalize, recommend_category, try_except, recommend_body.
  intros ->. done.
Qed.

(** Every call returns; what it returns is [rank] of the matches, and the
    files and the globals are as before. *)
Lemma recommend_category_run d w :
  ∃ w', recommend_category d w
        = (inr (if too_short d then [] else rank (all_matches d w)), w')
        ∧ files w' = files w ∧ globals w' = globals w.
Proof.
  destruct (too_short d) eqn:Hshort.
  { exists w. by rewrite recommend_category_short. }
  unfold recommend_category, try_except, recommend_body.
  unfold too_short, normalize in Hshort. rewrite Hshort.
  unfold all_matches, training_data, rank, normalize.
  unfold bind, path_exists, load_workbook, logging_warning, logging_error,
    lift, ret.
  destruct (files w !! test_set_path) as [[|wb]|] eqn:Hfile; simpl.
  - rewrite Hfile. simpl. eauto.
  - rewrite Hfile. simpl.
    destruct (active wb) as [e|sheet]; simpl; [eauto|].
    destruct (collect _ _) as [e|td]; simpl; eauto.
  - eauto.
Qed.

(** A match is an example of the data set, with the similarity of the
    query to it, and that similarity is not zero. *)
Lemma find_matches_elem q td r :
  r ∈ find_matches q td →
  ∃ item, item ∈ td
    ∧ (0 < calculate_similarity q (Item.description item))%Qc
    ∧ r = {| Match.category := Item.category item;
             Match.score := calculate_similarity q (Item.description item);
             Match.example := Item.description item |}.
Proof.
  induction td as [|item td IH]; simpl; [by intros ?%elem_of_nil|].
  case_decide as Hpos.
  - intros [->|Hr]%elem_of_cons.
    + exists item. split_and!; [by left|done|done].
    + destruct (IH Hr) as (it & Hit & Hs & ->).
      exists it. split_and!; [by right|done|done].
  - intros Hr. destruct (IH Hr) as (it & Hit & Hs & ->).
    exists it. split_and!; [by right|done|done].
Qed.

Lemma all_matches_score d w r :
  r ∈ all_matches d w →
  Match.score r = calculate_similarity (normalize d) (Match.example r)
  ∧ (0 < Match.score r)%Qc.
Proof.
  unfold all_matches. destruct (training_data w) as [e|td].
  - by intros ?%elem_of_nil.
  - intros (item & _ & Hpos & ->)%find_matches_elem. by split.
Qed.

Lemma tokens_normalize d : tokens (normalize d) = tokens (PyStr.lower d).
Proof.
  unfold tokens, normalize. by rewrite lower_strip, split_strip.
Qed.

(** The answer depends on the query and on the files only. *)
Lemma recommend_category_files d w1 w2 :
  files w1 = files w2 →
  (recommend_category d w1).1 = (recommend_category d w2).1.
Proof.
  intros Hf.
  destruct (recommend_category_run d w1) as (w1' & -> & _).
  destruct (recommend_category_run d w2) as (w2' & -> & _).
  simpl. unfold all_matches, training_data. by rewrite Hf.
Qed.

(** With no match at all, whatever the reason, the answer is empty. *)
Lemma recommend_category_no_match d w :
  all_matches d w = [] → (recommend_category d w).1 = inr [].
Proof.
  intros Hm. destruct (recommend_category_run d w) as (w' & -> & _).
  simpl. rewrite Hm. by destruct (too_short d).
Qed.

(** ** The properties of the recommender *)

(** C1. For every query the recommendations are at most five, their
    categories are pairwise distinct, and each of them is a match of the
    query (a category, a score and the example that scored it) whose score
    no match of the same category exceeds. *)
Theorem recommend_five_distinct_best d w :
  ∃ l w', recommend_category d w = (inr l, w')
    ∧ length l ≤ 5
    ∧ NoDup (Match.category <$> l)
    ∧ ∀ r, r ∈ l →
        r ∈ all_matches d w
        ∧ ∀ m, m ∈ all_matches d w →
               Match.category m = Match.category r →
               (Match.score m ≤ Match.score r)%Qc.
Proof.
  destruct (recommend_category_run d w) as (w' & Hrun & _).
  eexists _, w'. split; [exact Hrun|].
  destruct (too_short d).
  - split_and!; [simpl; lia | apply NoDup_nil_2 |].
    intros r Hr. by apply elem_of_nil in Hr.
  - split_and!; [apply rank_length | apply rank_NoDup | apply rank_best].
Qed.

(** C3. A query whose trimmed and lower-cased form has fewer than three
    characters is answered with the empty list, and the world is left as
    it was: no file is looked for or loaded. *)
Theorem recommend_short_query d w :
  String.length (normalize d) < 3 →
  recommend_category d w = (inr [], w).
Proof.
  intros Hlen. apply recommend_category_short. unfold too_short.
  apply orb_true_iff. right. by apply Nat.ltb_lt.
Qed.

(** C4. The recommendations are in order of non-increasing score: of two
    entries, the one at the later position does not score more. *)
Theorem recommend_descending d w :
  ∃ l w', recommend_category d w = (inr l, w')
    ∧ ∀ i j ri rj, i < j → l !! i = Some ri → l !! j = Some rj →
        (Match.score rj ≤ Match.score ri)%Qc.
Proof.
  destruct (recommend_category_run d w) as (w' & Hrun & _).
  eexists _, w'. split; [exact Hrun|].
  intros i j ri rj Hij Hi Hj.
  destruct (too_short d); [done|].
  exact (StronglySorted_lookup before _ i j ri rj (rank_sorted _) Hij Hi Hj).
Qed.

(** C8. Two calls with the same query, in worlds that hold the same
    files, give the same list of recommendations, entry for entry. *)
Theorem recommend_deterministic d w1 w2 :
  files w1 = files w2 →
  (recommend_category d w1).1 = (recommend_category d w2).1.
Proof. apply recommend_category_files. Qed.

(** A call leaves the files as they are, so a second call right after the
    first answers the same. *)
Lemma recommend_twice d w :
  (recommend_category d (recommend_category d w).2).1
  = (recommend_category d w).1.
Proof.
  apply recommend_category_files.
  destruct (recommend_category_run d w) as (w' & -> & Hf & _). done.
Qed.

(** C2. The similarity the recommender computes for a query and a
    reference description is the Jaccard index of the sets of words of
    the lower-cased query and of the description, which is zero when
    either set is empty; every match carries that index as its score; and
    the query "koffie" scores 1/3 against "koffie en thee". *)
Theorem similarity_is_jaccard :
  (∀ q t, calculate_similarity (normalize q) t
          = jaccard (tokens (PyStr.lower q)) (tokens t))
  ∧ (∀ t1 t2, tokens t1 = ∅ ∨ tokens t2 = ∅ →
              calculate_similarity t1 t2 = 0%Qc)
  ∧ (∀ d w r, r ∈ all_matches d w →
        Match.score r
        = jaccard (tokens (PyStr.lower d)) (tokens (Match.example r)))
  ∧ calculate_similarity (normalize "koffie") (PyStr.lower "koffie en thee")
    = Q2Qc (1 # 3).
Proof.
  split_and!.
  - intros q t. by rewrite similarity_jaccard, tokens_normalize.
  - apply similarity_empty.
  - intros d w r [-> _]%all_matches_score.
    by rewrite similarity_jaccard, tokens_normalize.
  - apply Qc_is_canon. by vm_compute.
Qed.

(** C5. Every recommendation has a score above 0 and at most 1. *)
Theorem recommend_score_range d w :
  ∃ l w', recommend_category d w = (inr l, w')
    ∧ ∀ r, r ∈ l → (0 < Match.score r)%Qc ∧ (Match.score r ≤ 1)%Qc.
Proof.
  destruct (recommend_category_run d w) as (w' & Hrun & _).
  eexists _, w'. split; [exact Hrun|].
  intros r Hr. destruct (too_short d); [by apply elem_of_nil in Hr|].
  apply rank_best in Hr as [Hr _].
  apply all_matches_score in Hr as [Hs Hpos].
  split; [done|]. rewrite Hs. apply similarity_le_1.
Qed.

(** C6. A call never raises: it always returns a list.  When the data
    set is missing, or is not a workbook, or the body of the function
    raises anything, the list is empty; and the answer for a missing data
    set is the answer for a data set without a match. *)
Theorem recommend_never_raises d w :
  (∃ l w', recommend_category d w = (inr l, w'))
  ∧ (files w !! test_set_path = None →
     (recommend_category d w).1 = inr [])
  ∧ (files w !! test_set_path = Some NotAWorkbook →
     (recommend_category d w).1 = inr [])
  ∧ (∀ e w1, recommend_body d w = (inl e, w1) →
     (recommend_category d w).1 = inr [])
  ∧ (∀ w0, files w0 !! test_set_path = None → all_matches d w = [] →
     (recommend_category d w0).1 = (recommend_category d w).1).
Proof.
  split_and!.
  - destruct (recommend_category_run d w) as (w' & Hrun & _). eauto.
  - intros Hf. apply recommend_category_no_match.
    unfold all_matches, training_data. by rewrite Hf.
  - intros Hf. apply recommend_category_no_match.
    unfold all_matches, training_data. by rewrite Hf.
  - intros e w1 Hraise. unfold recommend_category, try_except.
    by rewrite Hraise.
  - intros w0 Hf Hm. rewrite !recommend_category_no_match; [done|done|].
    unfold all_matches, training_data. by rewrite Hf.
Qed.

(** C7. The examples are read from the second row on, the description
    from index 2 of the row and the category from index 3 (columns 3 and
    4 of the sheet).  On a sheet of four columns or more the loop ends
    without raising and keeps, in the order of the rows, the example of
    each row that has both; a row whose description or category is
    missing gives none; on any sheet an example that is kept is the
    example of a row below the header; and a sheet of fewer than four
    columns, where every row lacks one of the two, gives no example. *)
Theorem load_skips_header_and_gaps sheet :
  (4 ≤ max_column sheet →
   collect (iter_rows sheet 2 1 (max_column sheet)) []
   = inr (omap (item_of_row sheet) (seq 2 (max_row sheet - 1))))
  ∧ (∀ r, cell_value sheet r 3 = VNone ∨ cell_value sheet r 4 = VNone →
          item_of_row sheet r = None)
  ∧ (∀ td item,
       collect (iter_rows sheet 2 1 (max_column sheet)) [] = inr td →
       item ∈ td →
       ∃ r, 2 ≤ r ≤ max_row sheet ∧ item_of_row sheet r = Some item)
  ∧ (max_column sheet < 4 →
     ∀ td, collect (iter_rows sheet 2 1 (max_column sheet)) [] = inr td →
           td = []).
Proof.
  rewrite iter_rows_all. split_and!.
  - intros Hw. by rewrite collect_wide.
  - intros r [Hr|Hr]; unfold item_of_row; rewrite Hr; simpl; [done|].
    by rewrite andb_false_r.
  - intros td item Hc Hin.
    destruct (collect_elem _ _ _ _ _ _ Hc Hin) as [Ha|(r & Hr & Hitem)].
    { by apply elem_of_nil in Ha. }
    exists r. split; [|done]. apply elem_of_seq in Hr. lia.
  - intros Hn td Hc. by apply collect_narrow in Hc.
Qed.

(** C9. Ties are settled by the order of the rows.  The recommendations
    are the first entry of each category in the list of matches sorted by
    score, in the order of that list, cut to five.  Each recommendation is
    the match of a row of the data set, and every earlier row that matches
    in the same category scores strictly less: of the examples that attain
    the best score of a category the earliest row is kept.  Both facts
    rest on the sort keeping entries of equal score in their order, and on
    the loop replacing an entry only for a strictly greater score. *)
Theorem recommend_tie_breaking d w :
  ∃ l w', recommend_category d w = (inr l, w')
    ∧ (too_short d = false →
       l = take 5 (first_by_category [] (sort_desc (all_matches d w))))
    ∧ (∀ r, r ∈ l →
       ∃ wb sheet i,
         files w !! test_set_path = Some (Xlsx wb)
         ∧ active wb = inr sheet
         ∧ 2 ≤ i ≤ max_row sheet
         ∧ match_of_row (normalize d) sheet i = Some r
         ∧ ∀ j m, 2 ≤ j < i →
             match_of_row (normalize d) sheet j = Some m →
             Match.category m = Match.category r →
             (Match.score m < Match.score r)%Qc)
    ∧ (∀ (s : Qc) ms,
         filter (λ m, Match.score m = s) (sort_desc ms)
         = filter (λ m, Match.score m = s) ms)
    ∧ (∀ seen m old,
         dict_get seen (Match.category m) = Some old →
         (Match.score m ≤ Match.score old)%Qc →
         visit seen m = seen).
Proof.
  destruct (recommend_category_run d w) as (w' & Hrun & _).
  eexists _, w'. split; [exact Hrun|]. split_and!.
  - intros ->. apply rank_first.
  - intros r Hr. destruct (too_short d); [by apply elem_of_nil in Hr|].
    destruct (rank_earliest _ _ Hr) as (l1 & l2 & Hms & Hl1).
    destruct (all_matches_rows d w) as [Hnil|(wb & sheet & Hf & Ha & Hrows)].
    { rewrite Hnil in Hms. by destruct l1. }
    rewrite Hrows in Hms.
    destruct (omap_split _ _ _ _ _ Hms) as (k1 & i & k2 & Hseq & Hi & Hk1).
    destruct (seq_split _ _ _ _ _ Hseq) as [Hrange Hbefore].
    exists wb, sheet, i. split_and!; [done|done|lia|lia|done|].
    intros j m Hj Hm Hc. apply Hl1; [|done].
    rewrite <-Hk1. apply list_elem_of_omap. exists j. split; [|done].
    by apply Hbefore.
  - intros s ms. by apply (sort_desc_stable _ s).
  - intros seen m old Hget Hle. unfold visit. rewrite Hget.
    rewrite decide_False; [done|]. by apply Qcle_not_lt.
Qed.

(** ** The total of the cash book *)

Section Total.

Lemma eq_str_Af_Bij v : eq_str v "Af" = true → eq_str v "Bij" = false.
Proof.
  destruct v as [|s| | | |]; simpl; try done.
  intros ->%bool_decide_eq_true. done.
Qed.

Lemma iter_rows_F_G sheet :
  iter_rows sheet 2 6 7
  = (λ r, [cell_value sheet r 6; cell_value sheet r 7])
      <$> seq 2 (max_row sheet - 1).
Proof. done. Qed.

(** The loop adds up the terms of the rows, in the order of the rows. *)
Lemma total_loop_add_up sheet (rs : list nat) total :
  total_loop ((λ r, [cell_value sheet r 6; cell_value sheet r 7]) <$> rs)
    total
  = add_up (omap (signed_amount sheet) rs) total.
Proof.
  revert total. induction rs as [|r rs IH]; intros total; simpl; [done|].
  unfold signed_amount.
  destruct (as_number (cell_value sheet r 7)) as [a|]; [|apply IH].
  destruct (eq_str (cell_value sheet r 6) "Af") eqn:HAf.
  - rewrite (eq_str_Af_Bij _ HAf). simpl.
    destruct (py_sub total a); simpl; [done|apply IH].
  - destruct (eq_str (cell_value sheet r 6) "Bij"); simpl; [|apply IH].
    destruct (py_add total a); simpl; [done|apply IH].
Qed.

Lemma getitem_sheetnames wb name :
  name ∈ sheetnames wb →
  ∃ sheet, getitem wb name = inr sheet ∧ title sheet = name
           ∧ sheet ∈ sheets wb.
Proof.
  unfold sheetnames, getitem.
  induction (sheets wb) as [|ws l IH]; simpl.
  { by intros ?%elem_of_nil. }
  intros Hin. case_bool_decide as Ht.
  - exists ws. split_and!; [done|done|by left].
  - apply elem_of_cons in Hin as [->|Hin]; [done|].
    destruct (IH Hin) as (sheet & Hg & Hn & Hs).
    exists sheet. split_and!; [done|done|by right].
Qed.

(** On integers the terms add up to their sum. *)
Lemma add_up_ints (ts : list (sign * Z)) (z : Z) :
  add_up ((λ t, (t.1, NInt t.2)) <$> ts) (NInt z)
  = inr (NInt (z + sum_signed ts)).
Proof.
  revert z. induction ts as [|[[] a] ts IH]; intros z; simpl.
  - by rewrite Z.add_0_r.
  - rewrite IH. unfold signed. simpl. do 2 f_equal. lia.
  - rewrite IH. unfold signed. simpl. do 2 f_equal. lia.
Qed.

(** A call of [calculate_total_amount] when the workbook is there and has
    the sheet. *)
Lemma calculate_total_amount_run w wb sheet :
  files w !! EXCEL_FILE_PATH (globals w) = Some (Xlsx wb) →
  EXCEL_SHEET_NAME (globals w) ∈ sheetnames wb →
  getitem wb (EXCEL_SHEET_NAME (globals w)) = inr sheet →
  (calculate_total_amount w).1
  = inr match add_up (omap (signed_amount sheet)
                        (seq 2 (max_row sheet - 1))) (NInt 0) with
        | inr total => py_round total 2
        | inl _ => NInt 0
        end.
Proof.
  intros Hf Hin Hget.
  unfold calculate_total_amount, try_except, total_body.
  unfold bind, read_globals, path_exists, load_workbook, logging_error,
    lift, ret.
  simpl. rewrite Hf. simpl. rewrite Hf. simpl.
  rewrite bool_decide_true by done. rewrite Hget.
  rewrite iter_rows_F_G, total_loop_add_up.
  by destruct (add_up _ _).
Qed.

End Total.

(** The ways [calculate_total_amount] ends, whatever the rounding of
    floats is. *)
Lemma calculate_total_amount_cases w :
  (∃ n w', calculate_total_amount w = (inr n, w'))
  ∧ (files w !! EXCEL_FILE_PATH (globals w) = None →
     (calculate_total_amount w).1 = inr (NInt 0))
  ∧ (∀ wb, files w !! EXCEL_FILE_PATH (globals w) = Some (Xlsx wb) →
       EXCEL_SHEET_NAME (globals w) ∉ sheetnames wb →
       (calculate_total_amount w).1 = inr (NInt 0))
  ∧ (∀ e w1, total_body w = (inl e, w1) →
       (calculate_total_amount w).1 = inr (NInt 0))
  ∧ (∀ wb, files w !! EXCEL_FILE_PATH (globals w) = Some (Xlsx wb) →
       EXCEL_SHEET_NAME (globals w) ∈ sheetnames wb →
       ∃ sheet,
         getitem wb (EXCEL_SHEET_NAME (globals w)) = inr sheet
         ∧ title sheet = EXCEL_SHEET_NAME (globals w)
         ∧ (∀ total,
              add_up (omap (signed_amount sheet)
                        (seq 2 (max_row sheet - 1))) (NInt 0) = inr total →
              (calculate_total_amount w).1 = inr (py_round total 2))
         ∧ (∀ ts,
              omap (signed_amount sheet) (seq 2 (max_row sheet - 1))
              = (λ t, (t.1, NInt t.2)) <$> ts →
              (calculate_total_amount w).1 = inr (NInt (sum_signed ts)))).
Proof.
  split_and!.
  - unfold calculate_total_amount, try_except.
    destruct (total_body w) as [[e|n] w1]; simpl; eauto.
  - intros Hf. unfold calculate_total_amount, try_except, total_body.
    unfold bind, read_globals, path_exists, ret. simpl. by rewrite Hf.
  - intros wb Hf Hnot.
    unfold calculate_total_amount, try_except, total_body.
    unfold bind, read_globals, path_exists, load_workbook, ret.
    simpl. rewrite Hf. simpl. rewrite Hf. simpl.
    by rewrite bool_decide_false.
  - intros e w1 Hraise. unfold calculate_total_amount, try_except.
    by rewrite Hraise.
  - intros wb Hf Hin.
    destruct (getitem_sheetnames _ _ Hin) as (sheet & Hget & Htitle & _).
    exists sheet. split_and!; [done|done| |].
    + intros total Hsum.
      by rewrite (calculate_total_amount_run w wb sheet), Hsum.
    + intros ts Hts.
      rewrite (calculate_total_amount_run w wb sheet) by done.
      by rewrite Hts, add_up_ints.
Qed.

(** ** The check of the headers *)

Section Headers.

Lemma first_row_of_lookup sheet i :
  first_row_of sheet !! i
  = if decide (i < max_column sheet)
    then Some (cell_value sheet 1 (S i)) else None.
Proof.
  unfold first_row_of, iter_rows_range. simpl. rewrite Nat.sub_0_r.
  rewrite list_lookup_fmap. case_decide as Hi.
  - by rewrite lookup_seq_lt.
  - by rewrite lookup_seq_ge by lia.
Qed.

(** The padded row, cut to the number of required headers, holds at each
    index the text of the cell, or the empty text where the row ends. *)
Lemma padded_lookup (row : list string) n i :
  take n (if (length row <? n)%nat
          then row ++ replicate (n - length row) "" else row) !! i
  = if decide (i < n) then Some (default "" (row !! i)) else None.
Proof.
  case_decide as Hi; [|by rewrite lookup_take_ge by lia].
  rewrite lookup_take_lt by done.
  destruct (Nat.ltb_spec (length row) n) as [Hlen|Hlen].
  - destruct (decide (i < length row)) as [Hr|Hr].
    + rewrite lookup_app_l by done.
      destruct (lookup_lt_is_Some_2 row i Hr) as [x Hx]. by rewrite Hx.
    + rewrite lookup_app_r by lia.
      rewrite lookup_replicate_2 by lia.
      by rewrite (lookup_ge_None_2 row i) by lia.
  - destruct (lookup_lt_is_Some_2 row i ltac:(lia)) as [x Hx]. by rewrite Hx.
Qed.

Lemma headers_match_spec (first_row : list value) (required : list string) :
  headers_match first_row required = true
  ↔ ∀ i h, required !! i = Some h →
           default "" (header_text <$> first_row !! i) = PyStr.strip h.
Proof.
  unfold headers_match. rewrite bool_decide_eq_true, length_fmap.
  split.
  - intros Heq i h Hi.
    assert (i < length required) as Hlt by (by eapply lookup_lt_Some).
    apply (f_equal (λ l, l !! i)) in Heq.
    rewrite padded_lookup, decide_True in Heq by done.
    rewrite !list_lookup_fmap, Hi in Heq. simpl in Heq.
    by injection Heq.
  - intros Hall. apply list_eq. intros i.
    rewrite padded_lookup, !list_lookup_fmap.
    case_decide as Hi.
    + destruct (lookup_lt_is_Some_2 required i Hi) as [h Hh].
      rewrite Hh. simpl. f_equal. by rewrite <-(Hall i h Hh).
    + by rewrite (lookup_ge_None_2 required i) by lia.
Qed.

Lemma header_at_first_row sheet i :
  default "" (header_text <$> first_row_of sheet !! i) = header_at sheet i.
Proof.
  rewrite first_row_of_lookup. unfold header_at. by case_decide.
Qed.

(** A call of [validate_excel_headers] on a workbook. *)
Lemma validate_run path required w wb :
  files w !! path = Some (Xlsx wb) →
  (validate_excel_headers path required w).1
  = inr match sheet_or_active wb (EXCEL_SHEET_NAME (globals w)) with
        | inr sheet => headers_match (first_row_of sheet) required
        | inl _ => false
        end.
Proof.
  intros Hf. unfold validate_excel_headers, try_except, validate_body.
  unfold bind, load_workbook, read_globals, lift, ret, logging_error.
  rewrite Hf. simpl.
  by destruct (sheet_or_active wb _).
Qed.

End Headers.

(** [validate_excel_headers] never raises and changes no file.  It
    returns [False] when the path holds no workbook.  On a workbook it
    checks the sheet of the configured name or, when there is none, the
    active sheet, and returns [True] exactly when at each index of a
    required header the first row holds that header, both trimmed, where
    an empty cell and a cell beyond the last column count as the empty
    text; cells further right and all other rows play no part. *)
Theorem validate_excel_headers_spec path required w :
  (∃ b w', validate_excel_headers path required w = (inr b, w')
           ∧ files w' = files w)
  ∧ ((files w !! path = None ∨ files w !! path = Some NotAWorkbook) →
     (validate_excel_headers path required w).1 = inr false)
  ∧ (∀ wb sheet,
       files w !! path = Some (Xlsx wb) →
       sheet_or_active wb (EXCEL_SHEET_NAME (globals w)) = inr sheet →
       ∃ b, (validate_excel_headers path required w).1 = inr b
            ∧ (b = true ↔ ∀ i h, required !! i = Some h →
                                 header_at sheet i = PyStr.strip h)).
Proof.
  split_and!.
  - unfold validate_excel_headers, try_except, validate_body.
    unfold bind, load_workbook, read_globals, lift, ret, logging_error.
    destruct (files w !! path) as [[|wb]|]; simpl; eauto.
    destruct (sheet_or_active wb _); simpl; eauto.
  - unfold validate_excel_headers, try_except, validate_body.
    unfold bind, load_workbook.
    by intros [-> | ->].
  - intros wb sheet Hf Hsheet. rewrite (validate_run _ _ _ _ Hf), Hsheet.
    eexists. split; [done|].
    rewrite headers_match_spec.
    by setoid_rewrite header_at_first_row.
Qed.

(** With the headers the application requires, a sheet of fewer than
    twelve columns is refused: the twelfth header, "Tag", finds no
    cell. *)
Theorem validate_excel_headers_narrow path w wb sheet :
  files w !! path = Some (Xlsx wb) →
  sheet_or_active wb (EXCEL_SHEET_NAME (globals w)) = inr sheet →
  max_column sheet < 12 →
  (validate_excel_headers path REQUIRED_HEADERS w).1 = inr false.
Proof.
  intros Hf Hsheet Hn. rewrite (validate_run _ _ _ _ Hf), Hsheet.
  f_equal. apply not_true_is_false. rewrite headers_match_spec.
  intros Hall. specialize (Hall 11 "Tag" eq_refl).
  rewrite header_at_first_row in Hall. unfold header_at in Hall.
  by rewrite decide_False in Hall by lia.
Qed.

(** ** The listings of the transactions *)

Section Listings.

Lemma gather_extends {A} (f : list value → result (option A)) rows acc l :
  gather f rows acc = inr l → ∃ k, l = acc ++ k ∧ length k ≤ length rows.
Proof.
  revert acc. induction rows as [|row rows IH]; intros acc; simpl.
  { intros [= <-]. exists []. by rewrite app_nil_r. }
  destruct (f row) as [e|[t|]]; simpl; [done| |].
  - intros (k & -> & Hk)%IH. exists (t :: k).
    rewrite <-app_assoc. split; [done|simpl; lia].
  - intros (k & -> & Hk)%IH. exists k. split; [done|lia].
Qed.

(** A row of fewer than twelve cells gives no entry: it is passed over
    for want of a date, or it raises. *)
Lemma entry_of_row_narrow row t :
  length row < 12 → entry_of_row row ≠ inr (Some t).
Proof.
  intros Hn. unfold entry_of_row, index.
  rewrite (lookup_ge_None_2 row 11) by lia.
  destruct (row !! 0); simpl; [|done].
  destruct (truthy _); [|done].
  destruct (mededelingen_of row); simpl; [done|].
  destruct (row !! 5); simpl; [|done].
  destruct (row !! 6); simpl; [|done].
  destruct (amount_text _); simpl; [done|].
  by destruct (row !! 2).
Qed.

Lemma recent_of_row_narrow row t :
  length row < 12 → recent_of_row row ≠ inr (Some t).
Proof.
  intros Hn. unfold recent_of_row, index.
  rewrite (lookup_ge_None_2 row 11) by lia.
  destruct (row !! 0); simpl; [|done].
  destruct (truthy _); [|done].
  destruct (mededelingen_of row); simpl; [done|].
  destruct (row !! 5); simpl; [|done].
  destruct (row !! 6); simpl; [|done].
  by destruct (amount_text _).
Qed.

Lemma gather_narrow {A} (f : list value → result (option A)) rows l :
  (∀ row t, row ∈ rows → f row ≠ inr (Some t)) →
  gather f rows [] = inr l → l = [].
Proof.
  intros Hf. induction rows as [|row rows IH]; simpl; [by intros [= <-]|].
  destruct (f row) as [e|[t|]] eqn:Hrow; simpl; [done| |].
  - by destruct (Hf row t ltac:(by left)).
  - apply IH. intros r t Hr. apply Hf. by right.
Qed.

Lemma iter_rows_range_width sheet a b n row :
  row ∈ iter_rows_range sheet a b 1 n → length row = n.
Proof.
  unfold iter_rows_range. intros (r & -> & _)%list_elem_of_fmap.
  rewrite length_fmap, length_seq. lia.
Qed.

Lemma iter_rows_as_range sheet a c d :
  iter_rows sheet a c d = iter_rows_range sheet a (max_row sheet) c d.
Proof. done. Qed.

Lemma getitem_elem wb name sheet :
  getitem wb name = inr sheet → name ∈ sheetnames wb.
Proof.
  unfold getitem, sheetnames.
  destruct (find _ _) as [ws|] eqn:Hfind; [|done].
  intros [= <-]. apply find_some in Hfind as [Hin Ht].
  apply bool_decide_eq_true in Ht as <-.
  apply list_elem_of_fmap. exists ws. split; [done|].
  by apply list_elem_of_In.
Qed.

(** The two listings on a workbook that has the sheet. *)
Lemma get_all_transactions_run w wb sheet :
  files w !! EXCEL_FILE_PATH (globals w) = Some (Xlsx wb) →
  getitem wb (EXCEL_SHEET_NAME (globals w)) = inr sheet →
  all_body w
  = (gather entry_of_row (iter_rows sheet 2 1 (max_column sheet)) [],
     emit (LoadWorkbook (EXCEL_FILE_PATH (globals w)))
       (emit (PathExists (EXCEL_FILE_PATH (globals w))) w)).
Proof.
  intros Hf Hget. pose proof (getitem_elem _ _ _ Hget) as Hin.
  unfold all_body, bind, read_globals, path_exists, load_workbook, lift, ret.
  simpl. rewrite Hf. simpl. rewrite Hf. simpl.
  rewrite bool_decide_true by done. simpl. rewrite Hget.
  by destruct (gather _ _ _).
Qed.

Lemma get_recent_transactions_run limit w wb sheet :
  files w !! EXCEL_FILE_PATH (globals w) = Some (Xlsx wb) →
  getitem wb (EXCEL_SHEET_NAME (globals w)) = inr sheet →
  recent_body limit w
  = (gather recent_of_row (recent_rows sheet limit) [],
     emit (LoadWorkbook (EXCEL_FILE_PATH (globals w)))
       (emit (PathExists (EXCEL_FILE_PATH (globals w))) w)).
Proof.
  intros Hf Hget. pose proof (getitem_elem _ _ _ Hget) as Hin.
  unfold recent_body, bind, read_globals, path_exists, load_workbook,
    lift, ret.
  simpl. rewrite Hf. simpl. rewrite Hf. simpl.
  rewrite bool_decide_true by done. simpl. rewrite Hget.
  by destruct (gather _ _ _).
Qed.

Lemma recent_rows_length sheet limit :
  (0 ≤ limit)%Z → length (recent_rows sheet limit) ≤ Z.to_nat limit.
Proof.
  intros Hl. unfold recent_rows, iter_rows_range.
  rewrite length_fmap, length_seq.
  destruct (Z.eqb_spec (Z.min (limit + 1) (Z.of_nat (max_row sheet))) 0); lia.
Qed.

(** The rows of the short listing are the first rows of the long one. *)
Lemma recent_rows_take sheet limit :
  (0 ≤ limit)%Z →
  recent_rows sheet limit
  = take (Z.to_nat limit) (iter_rows sheet 2 1 (max_column sheet)).
Proof.
  intros Hl. unfold recent_rows, iter_rows, iter_rows_range.
  rewrite <-fmap_take, take_seq. do 2 f_equal.
  destruct (Z.eqb_spec (Z.min (limit + 1) (Z.of_nat (max_row sheet))) 0); lia.
Qed.

(** On one row the two listings agree: both raise, both pass the row
    over, or both give an entry with the same common part; only the
    balance of the short listing and the account of the long one can make
    one of them raise alone. *)
Lemma row_common row er ea :
  recent_of_row row = inr er → entry_of_row row = inr ea →
  recent_common <$> er = entry_common <$> ea.
Proof.
  unfold recent_of_row, entry_of_row.
  destruct (index row 0) as [|date]; simpl; [done|].
  destruct (truthy date); [|by intros [= <-] [= <-]].
  destruct (mededelingen_of row) as [|m]; simpl; [done|].
  destruct (index row 5) as [|a]; simpl; [done|].
  destruct (index row 6) as [|b]; simpl; [done|].
  destruct (amount_text b) as [|bt]; simpl; [done|].
  destruct (index row 11) as [|tg]; simpl;
    [by destruct (index row 2)|].
  destruct (index row 9) as [|sa]; simpl; [done|].
  destruct (amount_text sa) as [|st]; simpl; [done|].
  destruct (index row 2) as [|rk]; simpl; [done|].
  by intros [= <-] [= <-].
Qed.

Lemma gather_prefix k rows accr acca lr la :
  recent_common <$> accr = entry_common <$> acca →
  gather recent_of_row (take k rows) accr = inr lr →
  gather entry_of_row rows acca = inr la →
  (recent_common <$> lr) `prefix_of` (entry_common <$> la).
Proof.
  revert k accr acca.
  induction rows as [|row rows IH]; intros k accr acca Hacc.
  { rewrite take_nil. simpl. intros [= <-] [= <-]. by rewrite Hacc. }
  destruct k as [|k]; simpl.
  - intros [= <-]. rewrite Hacc.
    destruct (entry_of_row row) as [|ea]; simpl; [done|].
    intros (l & -> & _)%gather_extends.
    rewrite fmap_app. apply prefix_app_r.
    destruct ea; [rewrite fmap_app; by apply prefix_app_r | done].
  - destruct (recent_of_row row) as [|er] eqn:Hr; simpl; [done|].
    destruct (entry_of_row row) as [|ea] eqn:Ha; simpl; [done|].
    pose proof (row_common _ _ _ Hr Ha) as Hc.
    apply IH. destruct er as [r|], ea as [a|]; simpl in Hc; try done.
    assert (recent_common r = entry_common a) as Hra by congruence.
    rewrite !fmap_app, Hacc. simpl. by rewrite Hra.
Qed.

(** The ways a call of the short listing can go. *)
Lemma recent_body_cases limit w :
  ∃ w', files w' = files w
    ∧ (recent_body limit w = (inr [], w')
       ∨ (∃ e, recent_body limit w = (inl e, w'))
       ∨ ∃ sheet,
           recent_body limit w
           = (gather recent_of_row (recent_rows sheet limit) [], w')).
Proof.
  unfold recent_body, bind, read_globals, path_exists, load_workbook,
    lift, ret. simpl.
  destruct (files w !! EXCEL_FILE_PATH (globals w)) as [[|wb]|] eqn:Hf;
    simpl; rewrite ?Hf; simpl.
  - eexists. split; [|right; left; eauto]. done.
  - case_bool_decide; simpl.
    + destruct (getitem wb _) as [e|sheet]; simpl.
      * eexists. split; [|right; left; eauto]. done.
      * eexists. split; [|right; right; exists sheet; by destruct (gather _ _ _)].
        done.
    + eexists. split; [|by left]. done.
  - eexists. split; [|by left]. done.
Qed.

End Listings.

(** [get_recent_transactions] with a limit that is not negative never
    raises, changes no file and lists at most [limit] transactions. *)
Theorem get_recent_transactions_limit limit w :
  (0 ≤ limit)%Z →
  ∃ l w', get_recent_transactions limit w = (inr l, w')
          ∧ length l ≤ Z.to_nat limit
          ∧ files w' = files w.
Proof.
  intros Hl. unfold get_recent_transactions, try_except.
  destruct (recent_body_cases limit w)
    as (w' & Hfiles & [Hnil|[[e Hraise]|(sheet & Hrun)]]).
  - rewrite Hnil. exists [], w'. split_and!; [done|simpl; lia|done].
  - rewrite Hraise. eexists [], _. split_and!; [done|simpl; lia|done].
  - rewrite Hrun.
    destruct (gather _ _ _) as [e|l] eqn:Hg.
    + eexists [], _. split_and!; [done|simpl; lia|done].
    + exists l, w'. split_and!; [done| |done].
      apply gather_extends in Hg as (k & -> & Hk). simpl.
      pose proof (recent_rows_length sheet limit Hl). lia.
Qed.

(** On a sheet of fewer than twelve columns both listings are empty,
    whatever the rows hold: each row is passed over for want of a date or
    makes the listing raise, and the raise is answered with the empty
    list. *)
Theorem listings_narrow_sheet limit w wb sheet :
  files w !! EXCEL_FILE_PATH (globals w) = Some (Xlsx wb) →
  getitem wb (EXCEL_SHEET_NAME (globals w)) = inr sheet →
  max_column sheet < 12 →
  (get_all_transactions w).1 = inr []
  ∧ (get_recent_transactions limit w).1 = inr [].
Proof.
  intros Hf Hget Hn. split.
  - unfold get_all_transactions, try_except.
    rewrite (get_all_transactions_run _ _ _ Hf Hget).
    destruct (gather _ _ _) as [e|l] eqn:Hg; simpl; [done|].
    apply gather_narrow in Hg as ->; [done|].
    intros row t Hrow. apply entry_of_row_narrow.
    rewrite iter_rows_as_range in Hrow.
    by rewrite (iter_rows_range_width _ _ _ _ _ Hrow).
  - unfold get_recent_transactions, try_except.
    rewrite (get_recent_transactions_run _ _ _ _ Hf Hget).
    destruct (gather _ _ _) as [e|l] eqn:Hg; simpl; [done|].
    apply gather_narrow in Hg as ->; [done|].
    intros row t Hrow. apply recent_of_row_narrow.
    unfold recent_rows in Hrow.
    by rewrite (iter_rows_range_width _ _ _ _ _ Hrow).
Qed.

(** When neither listing raises, the short listing is the beginning of
    the long one: its entries are, in date, description, Af/Bij, amount
    and tag, the first entries of [get_all_transactions]. *)
Theorem recent_is_prefix_of_all limit w lr la w1 w2 :
  (0 ≤ limit)%Z →
  recent_body limit w = (inr lr, w1) →
  all_body w = (inr la, w2) →
  (recent_common <$> lr) `prefix_of` (entry_common <$> la).
Proof.
  intros Hl. unfold recent_body, all_body, bind, read_globals, path_exists,
    load_workbook, lift, ret. simpl.
  destruct (files w !! EXCEL_FILE_PATH (globals w)) as [[|wb]|] eqn:Hf;
    simpl; rewrite ?Hf; simpl; try (by intros [= <- _] [= <- _]).
  case_bool_decide; simpl; [|by intros [= <- _] [= <- _]].
  destruct (getitem wb _) as [|sheet]; simpl; [done|].
  rewrite recent_rows_take by done.
  destruct (gather recent_of_row _ _) as [|lr'] eqn:Hr; [done|].
  destruct (gather entry_of_row _ _) as [|la'] eqn:Ha; [done|].
  intros [= <- _] [= <- _].
  by eapply (gather_prefix _ _ [] []).
Qed.

(** ** Adding a transaction *)

Section Adding.

Lemma write_cells_title ws r c values :
  title (write_cells ws r c values) = title ws.
Proof.
  revert ws c. induction values as [|v values IH]; intros ws c; simpl; [done|].
  by rewrite IH.
Qed.

Lemma write_cells_other ws r c values r' c' :
  r' ≠ r ∨ c' < c →
  cell_value (write_cells ws r c values) r' c' = cell_value ws r' c'.
Proof.
  revert ws c. induction values as [|v values IH]; intros ws c Hne; simpl;
    [done|].
  rewrite IH by lia. simpl. rewrite decide_False; [done|lia].
Qed.

Lemma write_cells_lookup ws r c values j v :
  values !! j = Some v →
  cell_value (write_cells ws r c values) r (c + j) = v.
Proof.
  revert ws c j. induction values as [|x values IH]; intros ws c j; [done|].
  destruct j as [|j]; simpl.
  - intros [= ->]. rewrite Nat.add_0_r, write_cells_other by lia.
    simpl. by rewrite decide_True.
  - intros Hj. rewrite <-Nat.add_succ_comm. by apply IH.
Qed.

(** The sheet after the row has been put in at row 2: the row is there,
    row 1 is as it was, and what was in row [r] is in row [r + 1]. *)
Lemma put_row_spec sheet values :
  let sheet' := write_cells (insert_rows sheet 2) 2 1 values in
  title sheet' = title sheet
  ∧ (∀ j v, values !! j = Some v → cell_value sheet' 2 (S j) = v)
  ∧ (∀ c, cell_value sheet' 1 c = cell_value sheet 1 c)
  ∧ (∀ r c, 2 ≤ r → cell_value sheet' (S r) c = cell_value sheet r c).
Proof.
  simpl. split_and!.
  - by rewrite write_cells_title.
  - intros j v Hj. by apply (write_cells_lookup _ 2 1).
  - intros c. rewrite write_cells_other by lia. done.
  - intros r c Hr. rewrite write_cells_other by lia.
    unfold insert_rows. simpl cell_value.
    destruct (Nat.ltb_spec (S r) 2); [lia|].
    destruct (Nat.eqb_spec r 1); [lia|].
    by rewrite Nat.sub_0_r.
Qed.

(** [wb[name]] after the sheet at the first place with that title has
    been changed to a sheet of the same title. *)
Lemma find_insert (l : list worksheet) name i ws :
  i < length l →
  (∀ j y, l !! j = Some y → j < i → title y ≠ name) →
  title ws = name →
  find (λ s, bool_decide (title s = name)) (<[i := ws]> l) = Some ws.
Proof.
  revert i. induction l as [|x l IH]; intros i Hi Hbefore Ht; simpl in *.
  { lia. }
  destruct i as [|i]; simpl.
  - by rewrite bool_decide_true.
  - rewrite bool_decide_false by (apply (Hbefore 0 x); [done|lia]).
    apply IH; [lia| |done].
    intros j y Hj Hlt. apply (Hbefore (S j) y); [done|lia].
Qed.

Lemma calculate_total_amount_keeps w :
  ∃ n w', calculate_total_amount w = (inr n, w')
          ∧ files w' = files w ∧ globals w' = globals w.
Proof.
  unfold calculate_total_amount, try_except, total_body.
  unfold bind, read_globals, path_exists, load_workbook, logging_error,
    lift, ret. simpl.
  destruct (files w !! EXCEL_FILE_PATH (globals w)) as [[|wb]|] eqn:Hf;
    simpl; rewrite ?Hf; simpl; eauto.
  case_bool_decide; simpl; eauto.
  destruct (getitem wb _); simpl; eauto.
  destruct (total_loop _ _); simpl; eauto.
Qed.

(** What [store_row] does when the workbook is there: it raises and
    leaves the files as they are, or it saves the workbook with the row
    put in on the sheet of the configured name, which it makes if the
    workbook does not have it. *)
Lemma store_row_cases g values w wb :
  files w !! EXCEL_FILE_PATH g = Some (Xlsx wb) →
  ∃ w', globals w' = globals w
    ∧ ((∃ e, store_row g values w = (inl e, w') ∧ files w' = files w)
       ∨ ∃ wb0 i sheet,
           store_row g values w = (inr tt, w')
           ∧ files w'
             = <[EXCEL_FILE_PATH g :=
                   Xlsx (with_sheet wb0 i
                           (write_cells (insert_rows sheet 2) 2 1 values))]>
                 (files w)
           ∧ (∃ s0, sheets wb0 !! i = Some s0
                    ∧ title s0 = EXCEL_SHEET_NAME g)
           ∧ title sheet = EXCEL_SHEET_NAME g
           ∧ (∀ j y, sheets wb0 !! j = Some y → j < i →
                     title y ≠ EXCEL_SHEET_NAME g)
           ∧ (∀ j y, sheets wb !! j = Some y →
                     title y ≠ EXCEL_SHEET_NAME g →
                     sheets wb0 !! j = Some y)
           ∧ ((EXCEL_SHEET_NAME g ∈ sheetnames wb
               ∧ getitem wb (EXCEL_SHEET_NAME g) = inr sheet
               ∧ wb0 = wb)
              ∨ ((EXCEL_SHEET_NAME g ∉ sheetnames wb)
                 ∧ sheet = empty_sheet (EXCEL_SHEET_NAME g)))).
Proof.
  intros Hf. unfold store_row, bind, path_exists, load_workbook,
    save_workbook, raise, ret. simpl.
  rewrite Hf. simpl. rewrite Hf. simpl.
  case_bool_decide as Hin; simpl.
  - unfold sheet_index.
    destruct (list_find _ (sheets wb)) as [[i ws]|] eqn:Hfind; simpl.
    2:{ eexists. split; [|left; eexists; split; [reflexivity|done]]. done. }
    destruct (getitem wb (EXCEL_SHEET_NAME g)) as [e|sheet] eqn:Hget; simpl.
    { eexists. split; [|left; eexists; split; [reflexivity|done]]. done. }
    apply list_find_Some in Hfind as (Hi & Ht & Hbefore).
    eexists. split; [|right; exists wb, i, sheet; split; [reflexivity|]];
      [done|].
    split; [done|].
    split; [by exists ws|].
    split.
    { unfold getitem in Hget.
      destruct (find _ _) as [x|] eqn:Hx; [|done].
      injection Hget as <-. apply find_some in Hx as [_ Hx].
      by apply bool_decide_eq_true in Hx. }
    split; [done|]. split; [done|]. left. by split.
  - eexists. split;
      [|right;
        exists {| sheets := sheets wb ++ [empty_sheet (EXCEL_SHEET_NAME g)];
                  active_index := active_index wb |},
               (length (sheets wb)), (empty_sheet (EXCEL_SHEET_NAME g));
        split; [reflexivity|]]; [done|].
    split; [done|].
    split.
    { exists (empty_sheet (EXCEL_SHEET_NAME g)). simpl.
      by rewrite lookup_app_r, Nat.sub_diag. }
    split; [done|].
    split.
    { simpl. intros j y Hj Hlt Ht.
      rewrite lookup_app_l in Hj by done.
      apply Hin. unfold sheetnames. apply list_elem_of_fmap.
      exists y. split; [done|]. by eapply list_elem_of_lookup_2. }
    split.
    { simpl. intros j y Hj _. rewrite lookup_app_l; [done|].
      by eapply lookup_lt_Some. }
    right. by split.
Qed.

Lemma store_row_not_workbook g values w :
  files w !! EXCEL_FILE_PATH g = Some NotAWorkbook →
  ∃ e w', store_row g values w = (inl e, w')
          ∧ files w' = files w ∧ globals w' = globals w.
Proof.
  intros Hf. unfold store_row, bind, path_exists, load_workbook. simpl.
  rewrite Hf. simpl. rewrite Hf. simpl. eauto.
Qed.

Lemma is_empty_false s : PyStr.is_empty s = false → s ≠ "".
Proof. by destruct s. Qed.

#[local] Opaque store_row calculate_total_amount.

(** How a call of [add_transaction] can end. *)
Lemma add_transaction_run f w :
  ∃ r w', add_transaction f w = (inr r, w')
    ∧ globals w' = globals w
    ∧ match r with
      | BadRequest _ => files w' = files w
      | ServerError _ => files w' = files w
      | Success n =>
          ∃ wb datum bedrag wb0 i sheet,
            files w !! EXCEL_FILE_PATH (globals w) = Some (Xlsx wb)
            ∧ accepted f datum bedrag
            ∧ files w'
              = <[EXCEL_FILE_PATH (globals w) :=
                    Xlsx (with_sheet wb0 i
                            (write_cells (insert_rows sheet 2) 2 1
                               (row_data f datum bedrag)))]> (files w)
            ∧ (∃ s0, sheets wb0 !! i = Some s0
                     ∧ title s0 = EXCEL_SHEET_NAME (globals w))
            ∧ title sheet = EXCEL_SHEET_NAME (globals w)
            ∧ (∀ j y, sheets wb0 !! j = Some y → j < i →
                      title y ≠ EXCEL_SHEET_NAME (globals w))
            ∧ (∀ j y, sheets wb !! j = Some y →
                      title y ≠ EXCEL_SHEET_NAME (globals w) →
                      sheets wb0 !! j = Some y)
            ∧ ((EXCEL_SHEET_NAME (globals w) ∈ sheetnames wb
                ∧ getitem wb (EXCEL_SHEET_NAME (globals w)) = inr sheet
                ∧ wb0 = wb)
               ∨ ((EXCEL_SHEET_NAME (globals w) ∉ sheetnames wb)
                  ∧ sheet = empty_sheet (EXCEL_SHEET_NAME (globals w))))
      end.
Proof.
  unfold add_transaction, try_except, add_body.
  unfold bind, read_globals, path_exists, raise, logging_error, ret.
  simpl.
  destruct (PyStr.is_empty _ || PyStr.is_empty _); simpl.
  { eexists _, _. split; [reflexivity|]. by split. }
  destruct (files w !! EXCEL_FILE_PATH (globals w)) as [file|] eqn:Hf; simpl.
  2:{ eexists _, _. split; [reflexivity|]. by split. }
  destruct (f !! "datum") as [d|] eqn:Hd; simpl.
  2:{ eexists _, _. split; [reflexivity|]. by split. }
  destruct (PyStr.is_empty d) eqn:Hde; simpl.
  { eexists _, _. split; [reflexivity|]. by split. }
  destruct (PyStr.is_empty (PyStr.strip (default "" (f !! "mededelingen"))))
    eqn:Hme; simpl.
  { eexists _, _. split; [reflexivity|]. by split. }
  destruct (f !! "bedrag") as [b|] eqn:Hb; simpl.
  2:{ eexists _, _. split; [reflexivity|]. by split. }
  destruct (PyStr.is_empty (PyStr.strip b)) eqn:Hbe; simpl.
  { eexists _, _. split; [reflexivity|]. by split. }
  destruct (float_of_str rt (replace_comma b)) as [bedrag|] eqn:Hfl; simpl.
  2:{ eexists _, _. split; [reflexivity|]. by split. }
  destruct (strptime_ymd rt d) as [datum|] eqn:Hdt; simpl.
  2:{ eexists _, _. split; [reflexivity|]. by split. }
  set (w1 := emit (PathExists (EXCEL_FILE_PATH (globals w))) w).
  assert (files w1 = files w) as Hw1 by done.
  assert (globals w1 = globals w) as Hg1 by done.
  destruct file as [|wb].
  { destruct (store_row_not_workbook (globals w)
                (row_data f datum bedrag) w1) as (e & w2 & -> & Hf2 & Hg2).
    { by rewrite Hw1. }
    simpl. eexists _, _. split; [reflexivity|]. split; [simpl; congruence|].
    simpl. congruence. }
  destruct (store_row_cases (globals w) (row_data f datum bedrag) w1 wb)
    as (w2 & Hg2 & [(e & -> & Hf2)|(wb0 & i & sheet & -> & Hf2 & Hrest)]).
  { by rewrite Hw1. }
  { simpl. eexists _, _. split; [reflexivity|]. split; [simpl; congruence|].
    simpl. congruence. }
  destruct (calculate_total_amount_keeps w2) as (n & w3 & Hn & Hf3 & Hg3).
  simpl. rewrite Hn. simpl.
  exists (Success n), w3. split; [reflexivity|]. split; [congruence|].
  exists wb, datum, bedrag, wb0, i, sheet.
  split; [done|]. split.
  { exists d, b. split_and!; try done; by apply is_empty_false. }
  split; [by rewrite Hf3, Hf2, Hw1|]. exact Hrest.
Qed.

#[local] Transparent store_row calculate_total_amount.

End Adding.

(** [add_transaction] always answers and leaves the globals as they
    are.  An answer 400 leaves every file as it was.  The answer is 400
    when the workbook does not exist: no workbook is ever made.  And the
    answer is a success only if the workbook was there and the form passed
    every check. *)
Theorem add_transaction_checks f w :
  ∃ r w', add_transaction f w = (inr r, w')
    ∧ globals w' = globals w
    ∧ (∀ m, r = BadRequest m → files w' = files w)
    ∧ (files w !! EXCEL_FILE_PATH (globals w) = None →
       ∃ m, r = BadRequest m)
    ∧ (∀ n, r = Success n →
       ∃ wb datum bedrag,
         files w !! EXCEL_FILE_PATH (globals w) = Some (Xlsx wb)
         ∧ accepted f datum bedrag).
Proof.
  destruct (add_transaction_run f w) as (r & w' & Hrun & Hg & Hr).
  exists r, w'. split; [done|]. split; [done|]. split_and!.
  - by intros m ->.
  - intros Hnone. revert Hrun.
    unfold add_transaction, try_except, add_body.
    unfold bind, read_globals, path_exists, ret. simpl.
    destruct (PyStr.is_empty _ || PyStr.is_empty _); simpl;
      [intros [= <- _]; eauto|].
    rewrite Hnone. simpl. intros [= <- _]. eauto.
  - intros n ->.
    destruct Hr as (wb & datum & bedrag & _ & _ & _ & Hf & Hacc & _).
    eauto.
Qed.

(** A form without the field "bedrag" that passes the checks before the
    one of the amount is answered with 500, not with 400: the check calls
    [strip] on [None], which raises.  No file is changed. *)
Theorem add_transaction_missing_amount f w d :
  PyStr.is_empty (EXCEL_FILE_PATH (globals w))
  || PyStr.is_empty (PyStr.strip (EXCEL_FILE_PATH (globals w))) = false →
  is_Some (files w !! EXCEL_FILE_PATH (globals w)) →
  f !! "datum" = Some d → d ≠ "" →
  PyStr.strip (default "" (f !! "mededelingen")) ≠ "" →
  f !! "bedrag" = None →
  (add_transaction f w).1 = inr (ServerError AttributeError)
  ∧ files (add_transaction f w).2 = files w.
Proof.
  intros Hpath [file Hf] Hd Hne Hm Hb.
  unfold add_transaction, try_except, add_body.
  unfold bind, read_globals, path_exists, raise, logging_error, ret.
  simpl. rewrite Hpath, Hf, Hd, Hb. simpl.
  destruct d; [done|]. simpl.
  destruct (PyStr.strip (default "" (f !! "mededelingen"))); [done|].
  done.
Qed.

(** After a success on a workbook that has the sheet of the configured
    name, the workbook is saved with the new row in row 2 of that sheet:
    its twelve cells are those of [row_data], the first row is as it was
    and what stood in row [r] stands in row [r + 1]; the workbook has as
    many sheets as before and those of other titles are as they were.
    The texts of the form are taken to be plain, so that a cell holds
    them as they are given. *)
Theorem add_transaction_stores_row f w n w' wb sheet :
  files w !! EXCEL_FILE_PATH (globals w) = Some (Xlsx wb) →
  getitem wb (EXCEL_SHEET_NAME (globals w)) = inr sheet →
  (∀ k s, f !! k = Some s → plain s = true) →
  add_transaction f w = (inr (Success n), w') →
  ∃ wb' sheet' datum bedrag,
    accepted f datum bedrag
    ∧ files w' = <[EXCEL_FILE_PATH (globals w) := Xlsx wb']> (files w)
    ∧ getitem wb' (EXCEL_SHEET_NAME (globals w)) = inr sheet'
    ∧ (∀ j v, row_data f datum bedrag !! j = Some v →
              cell_value sheet' 2 (S j) = v)
    ∧ (∀ c, cell_value sheet' 1 c = cell_value sheet 1 c)
    ∧ (∀ r c, 2 ≤ r → cell_value sheet' (S r) c = cell_value sheet r c)
    ∧ length (sheets wb') = length (sheets wb)
    ∧ (∀ j y, sheets wb !! j = Some y →
              title y ≠ EXCEL_SHEET_NAME (globals w) →
              sheets wb' !! j = Some y).
Proof.
  intros Hfile Hget _ Hrun.
  destruct (add_transaction_run f w) as (r & w2 & Hrun' & _ & Hr).
  rewrite Hrun in Hrun'. injection Hrun' as <- <-.
  destruct Hr as (wb1 & datum & bedrag & wb0 & i & sheet1 & Hf & Hacc
                  & Hfiles & (s0 & Hi & Hs0) & Htitle & Hbefore & Hothers
                  & Hcase).
  assert (wb1 = wb) as -> by congruence.
  destruct Hcase as [(_ & Hsame & ->)|[Hnot _]];
    [|by apply getitem_elem in Hget].
  assert (sheet1 = sheet) as -> by congruence.
  set (sheet' := write_cells (insert_rows sheet 2) 2 1
                   (row_data f datum bedrag)) in *.
  destruct (put_row_spec sheet (row_data f datum bedrag))
    as (Ht' & Hrow & Hhead & Hshift).
  exists (with_sheet wb i sheet'), sheet', datum, bedrag.
  split; [done|]. split; [done|]. split_and!.
  - unfold getitem, with_sheet. simpl.
    rewrite (find_insert _ (EXCEL_SHEET_NAME (globals w)) i sheet'); [done| | |].
    + by eapply lookup_lt_Some.
    + done.
    + unfold sheet'. by rewrite Ht'.
  - exact Hrow.
  - exact Hhead.
  - exact Hshift.
  - simpl. by rewrite length_insert.
  - intros j y Hj Hy. simpl.
    rewrite list_lookup_insert_ne; [by apply Hothers|].
    intros <-. pose proof (Hothers _ _ Hj Hy). congruence.
Qed.

(** When the workbook has no sheet of the configured name,
    [validate_excel_headers] judges the active sheet instead and can
    accept the workbook, while the total is 0 and both listings are
    empty. *)
Theorem active_sheet_accepted_but_unused limit required w wb :
  files w !! EXCEL_FILE_PATH (globals w) = Some (Xlsx wb) →
  EXCEL_SHEET_NAME (globals w) ∉ sheetnames wb →
  (validate_excel_headers (EXCEL_FILE_PATH (globals w)) required w).1
  = inr match active wb with
        | inr sheet => headers_match (first_row_of sheet) required
        | inl _ => false
        end
  ∧ (calculate_total_amount w).1 = inr (NInt 0)
  ∧ (get_all_transactions w).1 = inr []
  ∧ (get_recent_transactions limit w).1 = inr [].
Proof.
  intros Hf Hnot. split_and!.
  - rewrite (validate_run _ _ _ _ Hf). unfold sheet_or_active.
    by rewrite bool_decide_false.
  - unfold calculate_total_amount, try_except, total_body.
    unfold bind, read_globals, path_exists, load_workbook, ret.
    simpl. rewrite Hf. simpl. rewrite Hf. simpl.
    by rewrite bool_decide_false.
  - unfold get_all_transactions, try_except, all_body.
    unfold bind, read_globals, path_exists, load_workbook, ret.
    simpl. rewrite Hf. simpl. rewrite Hf. simpl.
    by rewrite bool_decide_false.
  - unfold get_recent_transactions, try_except, recent_body.
    unfold bind, read_globals, path_exists, load_workbook, ret.
    simpl. rewrite Hf. simpl. rewrite Hf. simpl.
    by rewrite bool_decide_false.
Qed.

(** ** The settings *)

Section Settings.

Lemma validate_keeps path required w :
  ∃ b w', validate_excel_headers path required w = (inr b, w')
          ∧ files w' = files w ∧ globals w' = globals w.
Proof.
  unfold validate_excel_headers, try_except, validate_body.
  unfold bind, load_workbook, read_globals, lift, ret, logging_error.
  destruct (files w !! path) as [[|wb]|]; simpl; eauto.
  destruct (sheet_or_active wb _); simpl; eauto.
Qed.

(** The result of the check depends on the files and on the name of the
    sheet only. *)
Lemma validate_same path required w1 w2 :
  files w1 = files w2 →
  EXCEL_SHEET_NAME (globals w1) = EXCEL_SHEET_NAME (globals w2) →
  (validate_excel_headers path required w1).1
  = (validate_excel_headers path required w2).1.
Proof.
  intros Hf Hn.
  unfold validate_excel_headers, try_except, validate_body.
  unfold bind, load_workbook, read_globals, lift, ret, logging_error.
  rewrite Hf.
  destruct (files w2 !! path) as [[|wb]|]; simpl; try done.
  rewrite Hn. by destruct (sheet_or_active wb _).
Qed.

Lemma files_after_other config_path how fs path :
  path ≠ config_path →
  files_after config_path how fs !! path = fs !! path.
Proof.
  intros Hne. destruct how; simpl; [|done|]; by rewrite lookup_insert_ne.
Qed.

#[local] Opaque validate_excel_headers.

Lemma set_excel_file_path_run request config_path how w :
  ∃ a w', set_excel_file_path request config_path how w = (inr a, w')
    ∧ EXCEL_SHEET_NAME (globals w') = EXCEL_SHEET_NAME (globals w)
    ∧ match a with
      | Refused _ =>
          (∃ field, request = Field field)
          ∧ globals w' = globals w ∧ files w' = files w
      | Failed NoJson =>
          request = Unreadable ∧ globals w' = globals w ∧ files w' = files w
      | Failed (Raised e) =>
          request = NotAnObject ∧ e = AttributeError
          ∧ globals w' = globals w ∧ files w' = files w
      | Failed CannotCatch => False
      | Changed | Failed NotSaved =>
          ∃ field, request = Field field
          ∧ (how = Written ↔ a = Changed)
          ∧ EXCEL_FILE_PATH (globals w') = PyStr.strip field
          ∧ PyStr.strip field ≠ ""
          ∧ endswith (PyStr.lower (PyStr.strip field)) ".xlsx" = true
          ∧ is_Some (files w !! PyStr.strip field)
          ∧ (validate_excel_headers (PyStr.strip field)
               REQUIRED_HEADERS w).1 = inr true
          ∧ files w' = files_after config_path how (files w)
      end.
Proof.
  destruct request as [| |field].
  { eexists _, _. split; [reflexivity|]. by split_and!. }
  { eexists _, _. split; [reflexivity|]. by split_and!. }
  unfold set_excel_file_path, try_except, set_path_body.
  unfold bind, path_exists, assign_path, logging_error, ret.
  destruct (PyStr.is_empty (PyStr.strip field)) eqn:He; simpl.
  { eexists _, _. split; [reflexivity|]. split_and!; eauto. }
  destruct (endswith _ _) eqn:Hx; simpl.
  2:{ eexists _, _. split; [reflexivity|]. split_and!; eauto. }
  destruct (files w !! PyStr.strip field) as [file|] eqn:Hf; simpl.
  2:{ eexists _, _. split; [reflexivity|]. split_and!; eauto. }
  set (w1 := emit (PathExists (PyStr.strip field)) w).
  destruct (validate_keeps (PyStr.strip field) REQUIRED_HEADERS w1)
    as (b & w2 & Hv & Hf2 & Hg2).
  pose proof (validate_same (PyStr.strip field) REQUIRED_HEADERS w w1
                eq_refl eq_refl) as Hsame.
  rewrite Hv in Hsame |- *. simpl in Hsame.
  destruct b; simpl.
  2:{ eexists _, _. split; [reflexivity|]. split_and!; eauto.
      all: by rewrite ?Hf2, ?Hg2. }
  assert (PyStr.strip field ≠ "") as Hne by by apply is_empty_false.
  destruct how; simpl.
  all: eexists _, _; (split; [reflexivity|]); simpl.
  all: split; [by rewrite Hg2|].
  all: exists field; split_and!; try done; by rewrite Hf2.
Qed.

#[local] Transparent validate_excel_headers.

Lemma set_excel_sheet_name_run request config_path how w :
  ∃ a w', set_excel_sheet_name request config_path how w = (inr a, w')
    ∧ EXCEL_FILE_PATH (globals w') = EXCEL_FILE_PATH (globals w)
    ∧ match a with
      | Refused _ =>
          (∃ field, request = Field field)
          ∧ globals w' = globals w ∧ files w' = files w
      | Failed NoJson =>
          request = Unreadable ∧ globals w' = globals w ∧ files w' = files w
      | Failed (Raised e) =>
          request = NotAnObject ∧ e = AttributeError
          ∧ globals w' = globals w ∧ files w' = files w
      | Failed CannotCatch =>
          (∃ field, request = Field field ∧ PyStr.strip field ≠ "")
          ∧ globals w' = globals w ∧ files w' = files w
          ∧ files w !! EXCEL_FILE_PATH (globals w) = Some NotAWorkbook
      | Changed | Failed NotSaved =>
          ∃ field, request = Field field
          ∧ (how = Written ↔ a = Changed)
          ∧ EXCEL_SHEET_NAME (globals w') = PyStr.strip field
          ∧ PyStr.strip field ≠ ""
          ∧ (∃ wb sheet,
              files w !! EXCEL_FILE_PATH (globals w) = Some (Xlsx wb)
              ∧ PyStr.strip field ∈ sheetnames wb
              ∧ getitem wb (PyStr.strip field) = inr sheet
              ∧ headers_match (first_row_of sheet) REQUIRED_HEADERS = true)
          ∧ files w' = files_after config_path how (files w)
      end.
Proof.
  destruct request as [| |field].
  { eexists _, _. split; [reflexivity|]. by split_and!. }
  { eexists _, _. split; [reflexivity|]. by split_and!. }
  unfold set_excel_sheet_name, set_sheet_body, check_sheet.
  unfold try_except, bind, read_globals, path_exists, load_workbook,
    assign_sheet_name, logging_error, lift, ret.
  destruct (PyStr.is_empty (PyStr.strip field)) eqn:He; simpl.
  { eexists _, _. split; [reflexivity|]. split_and!; eauto. }
  assert (PyStr.strip field ≠ "") as Hne by by apply is_empty_false.
  destruct (files w !! EXCEL_FILE_PATH (globals w)) as [[|wb]|] eqn:Hf;
    simpl; rewrite ?Hf; simpl.
  - eexists _, _. split; [reflexivity|]. split_and!; eauto.
  - case_bool_decide as Hin; simpl.
    2:{ eexists _, _. split; [reflexivity|]. split_and!; eauto. }
    destruct (getitem_sheetnames _ _ Hin) as (sheet & Hget & _ & _).
    rewrite Hget. simpl.
    destruct (headers_match _ _) eqn:Hh; simpl.
    2:{ eexists _, _. split; [reflexivity|]. split_and!; eauto. }
    destruct how; simpl.
    all: eexists _, _; (split; [reflexivity|]); simpl.
    all: split; [done|].
    all: exists field; split_and!; try done; by exists wb, sheet.
  - eexists _, _. split; [reflexivity|]. split_and!; eauto.
Qed.

End Settings.

(** [set_excel_sheet_name] always answers and leaves the path of the
    workbook as it is; no file but that of the configuration is ever
    changed.  The answer is 500 for a request whose body is not JSON or
    is JSON without a [get]; these, a refusal (400) and a workbook that
    cannot be read leave the globals and all files as they are.  The name
    is changed only if it is not blank, the workbook has a sheet of that
    name and the first row of that sheet holds the required headers;
    [save_config] then writes the file of the configuration, and the
    answer is a success exactly when that goes well: when it fails the
    answer is 500 although the name in use is already the new one. *)
Theorem set_excel_sheet_name_outcomes request config_path how w :
  ∃ a w', set_excel_sheet_name request config_path how w = (inr a, w')
    ∧ EXCEL_FILE_PATH (globals w') = EXCEL_FILE_PATH (globals w)
    ∧ (∀ path, path ≠ config_path → files w' !! path = files w !! path)
    ∧ (a = Failed NoJson ↔ request = Unreadable)
    ∧ (∀ e, a = Failed (Raised e)
            ↔ request = NotAnObject ∧ e = AttributeError)
    ∧ (a = Failed CannotCatch →
       files w !! EXCEL_FILE_PATH (globals w) = Some NotAWorkbook)
    ∧ (a ≠ Changed → a ≠ Failed NotSaved →
       globals w' = globals w ∧ files w' = files w)
    ∧ (a = Changed ∨ a = Failed NotSaved →
       ∃ field, request = Field field
       ∧ (how = Written ↔ a = Changed)
       ∧ EXCEL_SHEET_NAME (globals w') = PyStr.strip field
       ∧ PyStr.strip field ≠ ""
       ∧ (∃ wb sheet,
           files w !! EXCEL_FILE_PATH (globals w) = Some (Xlsx wb)
           ∧ PyStr.strip field ∈ sheetnames wb
           ∧ getitem wb (PyStr.strip field) = inr sheet
           ∧ headers_match (first_row_of sheet) REQUIRED_HEADERS = true)
       ∧ files w' = files_after config_path how (files w)).
Proof.
  destruct (set_excel_sheet_name_run request config_path how w)
    as (a & w' & Hrun & Hp & Ha).
  exists a, w'. split; [done|]. split; [done|].
  destruct a as [|why|[|e| |]]; simpl in Ha.
  - destruct Ha as (field & -> & Hhow & Hname & Hne & Hwb & Hfiles).
    split_and!; try done.
    + intros path Hpath. by rewrite Hfiles, files_after_other.
    + intros e. split; [done|]. by intros [? _].
    + intros _. by exists field.
  - destruct Ha as ((field & ->) & Hg & Hf).
    split_and!; try done.
    + intros path _. by rewrite Hf.
    + intros e. split; [done|]. by intros [? _].
    + by intros [?|?].
  - destruct Ha as (field & -> & Hhow & Hname & Hne & Hwb & Hfiles).
    split_and!; try done.
    + intros path Hpath. by rewrite Hfiles, files_after_other.
    + intros e. split; [done|]. by intros [? _].
    + intros _. by exists field.
  - destruct Ha as (-> & -> & Hg & Hf).
    split_and!; try done.
    + intros path _. by rewrite Hf.
    + intros e. split; [by intros [= ->]|by intros [_ ->]].
    + by intros [?|?].
  - destruct Ha as ((field & -> & Hne) & Hg & Hf & Hbroken).
    split_and!; try done.
    + intros path _. by rewrite Hf.
    + intros e. split; [done|]. by intros [? _].
    + by intros [?|?].
  - destruct Ha as (-> & Hg & Hf).
    split_and!; try done.
    + intros path _. by rewrite Hf.
    + intros e. split; [done|]. by intros [? _].
    + by intros [?|?].
Qed.

(** When the workbook exists but cannot be read, [set_excel_sheet_name]
    answers 500 and not the 400 its inner [except Exception] prepares: the
    clause [except jsonify] before it raises [TypeError] first.  The
    globals and the files are left as they are. *)
Theorem set_excel_sheet_name_unreadable field config_path how w :
  PyStr.strip field ≠ "" →
  files w !! EXCEL_FILE_PATH (globals w) = Some NotAWorkbook →
  (set_excel_sheet_name (Field field) config_path how w).1
  = inr (Failed CannotCatch)
  ∧ globals (set_excel_sheet_name (Field field) config_path how w).2
    = globals w
  ∧ files (set_excel_sheet_name (Field field) config_path how w).2
    = files w.
Proof.
  intros Hne Hf.
  unfold set_excel_sheet_name, set_sheet_body, check_sheet.
  unfold try_except, bind, read_globals, path_exists, load_workbook,
    logging_error, ret.
  destruct (PyStr.strip field); [done|]. simpl.
  rewrite Hf. simpl. by rewrite Hf.
Qed.

(** [set_excel_file_path] always answers and leaves the name of the
    sheet as it is; no file but that of the configuration is ever
    changed.  The answer is 500 for a request whose body is not JSON or
    is JSON without a [get]; these and a refusal (400) leave the globals
    and all files as they are.  The path is changed only if it is not
    blank, ends in ".xlsx" in any case of the letters, names a file that
    exists and that [validate_excel_headers] accepts; [save_config] then
    writes the file of the configuration, and the answer is a success
    exactly when that goes well: when it fails the answer is 500 although
    the path in use is already the new one. *)
Theorem set_excel_file_path_outcomes request config_path how w :
  ∃ a w', set_excel_file_path request config_path how w = (inr a, w')
    ∧ EXCEL_SHEET_NAME (globals w') = EXCEL_SHEET_NAME (globals w)
    ∧ (∀ path, path ≠ config_path → files w' !! path = files w !! path)
    ∧ (a = Failed NoJson ↔ request = Unreadable)
    ∧ (∀ e, a = Failed (Raised e)
            ↔ request = NotAnObject ∧ e = AttributeError)
    ∧ (a ≠ Changed → a ≠ Failed NotSaved →
       globals w' = globals w ∧ files w' = files w)
    ∧ (a = Changed ∨ a = Failed NotSaved →
       ∃ field, request = Field field
       ∧ (how = Written ↔ a = Changed)
       ∧ EXCEL_FILE_PATH (globals w') = PyStr.strip field
       ∧ PyStr.strip field ≠ ""
       ∧ endswith (PyStr.lower (PyStr.strip field)) ".xlsx" = true
       ∧ is_Some (files w !! PyStr.strip field)
       ∧ (validate_excel_headers (PyStr.strip field)
            REQUIRED_HEADERS w).1 = inr true
       ∧ files w' = files_after config_path how (files w)).
Proof.
  destruct (set_excel_file_path_run request config_path how w)
    as (a & w' & Hrun & Hp & Ha).
  exists a, w'. split; [done|]. split; [done|].
  destruct a as [|why|[|e| |]]; simpl in Ha; [| | | |done|].
  - destruct Ha as (field & -> & Hhow & Hrest).
    pose proof Hrest as (_ & _ & _ & _ & _ & Hfiles).
    split_and!; try done.
    + intros path Hpath. by rewrite Hfiles, files_after_other.
    + intros e. split; [done|]. by intros [? _].
    + intros _. by exists field.
  - destruct Ha as ((field & ->) & Hg & Hf).
    split_and!; try done.
    + intros path _. by rewrite Hf.
    + intros e. split; [done|]. by intros [? _].
    + by intros [?|?].
  - destruct Ha as (field & -> & Hhow & Hrest).
    pose proof Hrest as (_ & _ & _ & _ & _ & Hfiles).
    split_and!; try done.
    + intros path Hpath. by rewrite Hfiles, files_after_other.
    + intros e. split; [done|]. by intros [? _].
    + intros _. by exists field.
  - destruct Ha as (-> & -> & Hg & Hf).
    split_and!; try done.
    + intros path _. by rewrite Hf.
    + intros e. split; [by intros [= ->]|by intros [_ ->]].
    + by intros [?|?].
  - destruct Ha as (-> & Hg & Hf).
    split_and!; try done.
    + intros path _. by rewrite Hf.
    + intros e. split; [done|]. by intros [? _].
    + by intros [?|?].
Qed.

(** ** The configuration *)

Section ConfigFacts.

Import Config.

Lemma check_keys_dict d (keys : list string) :
  (check_keys (DDict d) keys = inr tt ∧ ∀ k, k ∈ keys → is_Some (d !! k))
  ∨ ∃ k, k ∈ keys ∧ d !! k = None
         ∧ check_keys (DDict d) keys = inl (KeyError k).
Proof.
  induction keys as [|key keys IH]; simpl.
  { left. split; [done|]. by intros k ?%elem_of_nil. }
  case_bool_decide as Hkey; simpl.
  - destruct IH as [[Hok Hall]|(k & Hk & Hnone & Hraise)].
    + left. split; [done|]. intros k [->|Hk]%elem_of_cons; auto.
    + right. exists k. split_and!; [by right|done|done].
  - right. exists key. split_and!; [by left| |done].
    by apply eq_None_not_Some.
Qed.

Lemma default_config_no_path : default_config !! "excel_file_path" = None.
Proof. by vm_compute. Qed.

Lemma module_start_default :
  bind (inr (DDict default_config)) (λ config,
    bind (Config.getitem config "excel_file_path") (λ _, inr tt))
  = inl (KeyError "excel_file_path").
Proof. simpl. by rewrite default_config_no_path. Qed.

End ConfigFacts.

(** [load_config] on a configuration that is a dictionary: it returns the
    dictionary exactly when each of the seven required keys is present,
    and otherwise raises [KeyError] for a required key that is missing; a
    missing file raises [FileNotFoundError] and text that is not JSON
    raises the error of the parser. *)
Theorem load_config_required_keys (fs : gmap string Config.file) path :
  (fs !! path = None → Config.load_config fs path = inl Config.FileNotFoundError)
  ∧ (fs !! path = Some Config.Malformed →
     Config.load_config fs path = inl Config.JSONDecodeError)
  ∧ (∀ d, fs !! path = Some (Config.Json (Config.DDict d)) →
       (Config.load_config fs path = inr (Config.DDict d)
        ∧ ∀ k, k ∈ Config.required_keys → is_Some (d !! k))
       ∨ ∃ k, k ∈ Config.required_keys ∧ d !! k = None
              ∧ Config.load_config fs path = inl (Config.KeyError k)).
Proof.
  unfold Config.load_config. split_and!.
  - by intros ->.
  - by intros ->.
  - intros d ->.
    destruct (check_keys_dict d Config.required_keys)
      as [[Hok Hall]|(k & Hk & Hnone & Hraise)].
    + left. by rewrite Hok.
    + right. exists k. by rewrite Hraise.
Qed.

(** The module starts only with a configuration file that holds a
    dictionary with all required keys and a string for the path of the
    workbook.  With no file, or with a dictionary that lacks a required
    key, the module takes its built-in configuration, which has no
    "excel_file_path", and the start ends in [KeyError] for that key. *)
Theorem module_start_needs_config (fs : gmap string Config.file) path :
  (∀ s, Config.module_start fs path = inr s →
     ∃ d p, fs !! path = Some (Config.Json (Config.DDict d))
       ∧ (∀ k, k ∈ Config.required_keys → is_Some (d !! k))
       ∧ d !! "excel_file_path" = Some (Config.CStr p)
       ∧ Config.EXCEL_FILE_PATH s = p
       ∧ d !! "backup_directory" = Some (Config.BACKUP_DIRECTORY s)
       ∧ d !! "log_directory" = Some (Config.LOG_DIRECTORY s)
       ∧ d !! "excel_sheet_name" = Some (Config.EXCEL_SHEET_NAME s)
       ∧ d !! "tags" = Some (Config.TAGS s)
       ∧ d !! "log_level" = Some (Config.LOG_LEVEL s))
  ∧ (fs !! path = None →
     Config.module_start fs path = inl (Config.KeyError "excel_file_path"))
  ∧ (∀ d k, fs !! path = Some (Config.Json (Config.DDict d)) →
       k ∈ Config.required_keys → d !! k = None →
       Config.module_start fs path = inl (Config.KeyError "excel_file_path")).
Proof.
  assert (∀ e, e = Config.FileNotFoundError ∨ (∃ k, e = Config.KeyError k) →
          Config.load_config fs path = inl e →
          Config.module_start fs path = inl (Config.KeyError "excel_file_path"))
    as Hfallback.
  { intros e He Hload. unfold Config.module_start. rewrite Hload.
    destruct He as [->|[k ->]]; simpl; by rewrite default_config_no_path. }
  split_and!.
  - intros s Hs.
    destruct (Config.load_config fs path) as [e|config] eqn:Hload.
    { destruct e; try (rewrite (Hfallback _ _ Hload) in Hs by eauto; done);
        unfold Config.module_start in Hs; by rewrite Hload in Hs. }
    unfold Config.module_start in Hs. rewrite Hload in Hs. simpl in Hs.
    unfold Config.load_config in Hload.
    destruct (fs !! path) as [[|doc]|] eqn:Hfile; try done.
    destruct (Config.check_keys doc Config.required_keys) as [e|[]] eqn:Hck;
      simpl in Hload; [done|].
    injection Hload as <-.
    destruct doc as [d|items|str|]; simpl in Hs; try done.
    destruct (check_keys_dict d Config.required_keys)
      as [[Hok Hall]|(k & Hk & Hnone & Hraise)]; [|congruence].
    repeat match type of Hs with
           | context [d !! ?k] => destruct (d !! k) eqn:?; simpl in Hs; [|done]
           | context [Config.as_path ?v] => destruct v; simpl in Hs; [|done..]
           end.
    injection Hs as <-. simpl. eexists d, _. split_and!; done.
  - intros Hfile. apply (Hfallback Config.FileNotFoundError); [by left|].
    unfold Config.load_config. by rewrite Hfile.
  - intros d k Hfile Hk Hnone.
    destruct (check_keys_dict d Config.required_keys)
      as [[Hok Hall]|(k' & Hk' & Hnone' & Hraise)].
    { destruct (Hall k Hk) as [v Hv]. congruence. }
    apply (Hfallback (Config.KeyError k')); [right; eauto|].
    unfold Config.load_config. by rewrite Hfile, Hraise.
Qed.

(** ** The launcher *)

Section LauncherFacts.

Import Launcher.

Lemma attempts_spec (server : nat → outcome) i n eff :
  match attempts server i n eff with
  | (Returned true, eff') =>
      ∃ k, k < n ∧ server (i + k) = Answers
           ∧ (∀ j, j < k → server (i + j) = Refused)
           ∧ calls eff' = calls eff + S k ∧ sleeps eff' = sleeps eff + k
  | (Returned false, eff') =>
      (∀ j, j < n → server (i + j) = Refused)
      ∧ calls eff' = calls eff + n ∧ sleeps eff' = sleeps eff + n
  | (Raised, eff') =>
      ∃ k, k < n ∧ server (i + k) = Fails
           ∧ (∀ j, j < k → server (i + j) = Refused)
           ∧ calls eff' = calls eff + S k ∧ sleeps eff' = sleeps eff + k
  end.
Proof.
  revert i eff. induction n as [|n IH]; intros i eff; simpl.
  { split_and!; [lia|lia|lia]. }
  destruct (server i) eqn:Hi.
  - exists 0. rewrite Nat.add_0_r. simpl. split_and!; [lia|done|lia|lia|lia].
  - specialize (IH (S i) {| calls := S (calls eff); sleeps := S (sleeps eff) |}).
    destruct (attempts server (S i) n _) as [[[]|] eff']; simpl in IH.
    + destruct IH as (k & Hk & Hans & Hbefore & Hc & Hs).
      exists (S k). rewrite <-Nat.add_succ_comm. split_and!; [lia|done| |lia|lia].
      intros [|j] Hj; [by rewrite Nat.add_0_r|].
      rewrite <-Nat.add_succ_comm. apply Hbefore. lia.
    + destruct IH as (Hall & Hc & Hs). split_and!; [|lia|lia].
      intros [|j] Hj; [by rewrite Nat.add_0_r|].
      rewrite <-Nat.add_succ_comm. apply Hall. lia.
    + destruct IH as (k & Hk & Hans & Hbefore & Hc & Hs).
      exists (S k). rewrite <-Nat.add_succ_comm. split_and!; [lia|done| |lia|lia].
      intros [|j] Hj; [by rewrite Nat.add_0_r|].
      rewrite <-Nat.add_succ_comm. apply Hbefore. lia.
  - exists 0. rewrite Nat.add_0_r. simpl. split_and!; [lia|done|lia|lia|lia].
Qed.

End LauncherFacts.

(** [check_server_ready] tries at most [max_attempts] times and stops at
    the first call that is not refused.  It returns [True] when that call
    answers, having slept once for each refusal before it; it returns
    [False] when all [max_attempts] calls are refused, having slept after
    each; and an error that is not caught leaves the function at once. *)
Theorem check_server_ready_spec (server : nat → Launcher.outcome)
    (max_attempts : Z) :
  let n := Z.to_nat max_attempts in
  match Launcher.check_server_ready server max_attempts with
  | (Launcher.Returned true, eff) =>
      ∃ k, k < n ∧ server k = Launcher.Answers
           ∧ (∀ j, j < k → server j = Launcher.Refused)
           ∧ Launcher.calls eff = S k ∧ Launcher.sleeps eff = k
  | (Launcher.Returned false, eff) =>
      (∀ j, j < n → server j = Launcher.Refused)
      ∧ Launcher.calls eff = n ∧ Launcher.sleeps eff = n
  | (Launcher.Raised, eff) =>
      ∃ k, k < n ∧ server k = Launcher.Fails
           ∧ (∀ j, j < k → server j = Launcher.Refused)
           ∧ Launcher.calls eff = S k ∧ Launcher.sleeps eff = k
  end.
Proof.
  intros n. unfold Launcher.check_server_ready. fold n.
  exact (attempts_spec server 0 n {| Launcher.calls := 0; Launcher.sleeps := 0 |}).
Qed.

End Kasboek.

(** ** The rounding of the total *)

Section Rounding.

Lemma round_half_even_near num den :
  (0 < den)%Z →
  (Z.abs (2 * num - 2 * round_half_even num den * den) ≤ den)%Z
  ∧ (Z.abs (2 * num - 2 * round_half_even num den * den) = den →
     Z.even (round_half_even num den) = true).
Proof.
  intros Hden. unfold round_half_even.
  pose proof (Z.div_mod num den ltac:(lia)) as Hdm.
  pose proof (Z.mod_pos_bound num den Hden) as Hb.
  set (q := (num / den)%Z) in *. set (r := (num mod den)%Z) in *.
  destruct (Z.compare_spec (2 * r) den) as [Heq|Hlt|Hgt].
  - destruct (Z.even q) eqn:Hq.
    + split; [nia|done].
    + split; [nia|]. intros _. rewrite Z.even_add, Hq. reflexivity.
  - split; [nia|]. intros Habs. exfalso. nia.
  - split; [nia|]. intros Habs. exfalso. nia.
Qed.

(** A power with an exponent of any sign, as a quotient of two powers
    whose exponents are not negative. *)
Lemma Qpower_split (b e : Z) :
  (0 < b)%Z →
  (inject_Z b ^ e
   == inject_Z (b ^ Z.max e 0) / inject_Z (b ^ Z.max (- e) 0))%Q.
Proof.
  intros Hb.
  assert (¬ (inject_Z b == 0)%Q) as Hb0.
  { unfold Qeq. simpl. lia. }
  destruct e as [|p|p].
  - simpl. reflexivity.
  - rewrite Z.max_l, Z.max_r by lia. rewrite Z.pow_0_r.
    rewrite Zpower_Qpower by lia. field.
  - rewrite Z.max_r, Z.max_l by lia. rewrite Z.pow_0_r.
    change (- Z.neg p)%Z with (Z.pos p).
    rewrite Zpower_Qpower by lia.
    change (inject_Z b ^ Z.neg p)%Q with (/ (inject_Z b ^ Z.pos p))%Q.
    field. by apply Qpower_not_0.
Qed.

(** The integer that [dtoa] gives is nearest to the scaled value, and
    even when two integers are equally near. *)
Lemma dtoa_nearest s m e ndigits :
  let x := S754_finite s m e in
  let k := dtoa m e ndigits in
  (0 ≤ k)%Z
  ∧ (Qabs (magnitude x * inject_Z 10 ^ ndigits - inject_Z k) <= 1 # 2)%Q
  ∧ ((Qabs (magnitude x * inject_Z 10 ^ ndigits - inject_Z k) == 1 # 2)%Q →
     Z.even k = true).
Proof.
  simpl. unfold dtoa.
  set (num := (Z.pos m * 2 ^ Z.max e 0 * 10 ^ Z.max ndigits 0)%Z).
  set (den := (2 ^ Z.max (- e) 0 * 10 ^ Z.max (- ndigits) 0)%Z).
  assert (0 < den)%Z as Hden.
  { unfold den. apply Z.mul_pos_pos; apply Z.pow_pos_nonneg; lia. }
  assert (0 ≤ num)%Z as Hnum.
  { unfold num. repeat apply Z.mul_nonneg_nonneg; try lia;
      apply Z.pow_nonneg; lia. }
  assert (0 ≤ round_half_even num den)%Z as Hk.
  { unfold round_half_even. cbv zeta.
    pose proof (Z.div_pos num den Hnum Hden).
    destruct (2 * (num mod den) ?= den)%Z;
      [destruct (Z.even (num / den))|..]; lia. }
  destruct (round_half_even_near num den Hden) as [Hnear Heven].
  set (k := round_half_even num den) in *.
  assert (Qabs (inject_Z (Z.pos m) * 2 ^ e * inject_Z 10 ^ ndigits
                - inject_Z k)
          == Z.abs (2 * num - 2 * k * den) # Z.to_pos (2 * den))%Q as ->.
  { change 2%Q with (inject_Z 2).
    rewrite (Qpower_split 2 e), (Qpower_split 10 ndigits) by lia.
    fold (inject_Z 2).
    assert (inject_Z (Z.pos m) * (inject_Z (2 ^ Z.max e 0)
              / inject_Z (2 ^ Z.max (- e) 0))
            * (inject_Z (10 ^ Z.max ndigits 0)
               / inject_Z (10 ^ Z.max (- ndigits) 0)) - inject_Z k
            == inject_Z (2 * num - 2 * k * den)
               * / inject_Z (Z.pos (Z.to_pos (2 * den))))%Q as ->.
    { rewrite Z2Pos.id by lia. unfold Z.sub.
      rewrite inject_Z_plus, inject_Z_opp, !inject_Z_mult.
      unfold num, den. rewrite !inject_Z_mult.
      field. split; unfold Qeq; simpl; rewrite Z.mul_1_r;
        apply Z.neq_sym, Z.lt_neq, Z.pow_pos_nonneg; lia. }
    rewrite Qabs_Qmult, Qabs_Qinv.
    rewrite (Qmake_Qdiv (Z.abs _)). reflexivity. }
  split; [done|]. split.
  - unfold Qle. simpl. rewrite Z2Pos.id by lia. lia.
  - intros Htie. apply Heven. revert Htie.
    unfold Qeq. simpl. rewrite Z2Pos.id by lia. lia.
Qed.

End Rounding.

(** C10. [calculate_total_amount] never raises.  It returns 0 when the
    workbook does not exist, when the workbook has no sheet of the
    configured name, and when anything raises while it reads.  Otherwise
    it returns, rounded to two decimals, the total of the rows below the
    header: a row whose amount is a number adds it when its Af/Bij cell
    is "Bij" and subtracts it when that cell is "Af", and any other row
    changes nothing.  When the amounts that count are integers, that total
    is their signed sum.  The rounding returns an [int] as it is, and a
    zero, an infinity and a NaN as well; a float [x] that is finite gives
    the float nearest to [k / 100] with the sign of [x], where [k] is the
    integer nearest to [100 * |x|], the even one of two that are equally
    near. *)
Theorem calculate_total_amount_spec w :
  (∃ n w', calculate_total_amount double_round w = (inr n, w'))
  ∧ (files w !! EXCEL_FILE_PATH (globals w) = None →
     (calculate_total_amount double_round w).1 = inr (NInt 0))
  ∧ (∀ wb, files w !! EXCEL_FILE_PATH (globals w) = Some (Xlsx wb) →
       EXCEL_SHEET_NAME (globals w) ∉ sheetnames wb →
       (calculate_total_amount double_round w).1 = inr (NInt 0))
  ∧ (∀ e w1, total_body double_round w = (inl e, w1) →
       (calculate_total_amount double_round w).1 = inr (NInt 0))
  ∧ (∀ wb, files w !! EXCEL_FILE_PATH (globals w) = Some (Xlsx wb) →
       EXCEL_SHEET_NAME (globals w) ∈ sheetnames wb →
       ∃ sheet,
         getitem wb (EXCEL_SHEET_NAME (globals w)) = inr sheet
         ∧ title sheet = EXCEL_SHEET_NAME (globals w)
         ∧ (∀ total,
              add_up (omap (signed_amount sheet)
                        (seq 2 (max_row sheet - 1))) (NInt 0) = inr total →
              (calculate_total_amount double_round w).1
              = inr (py_round double_round total 2))
         ∧ (∀ ts,
              omap (signed_amount sheet) (seq 2 (max_row sheet - 1))
              = (λ t, (t.1, NInt t.2)) <$> ts →
              (calculate_total_amount double_round w).1
              = inr (NInt (sum_signed ts))))
  ∧ (∀ z, py_round double_round (NInt z) 2 = NInt z)
  ∧ (∀ x, (∀ s m e, x ≠ S754_finite s m e) →
          py_round double_round (NFloat x) 2 = NFloat x)
  ∧ (∀ s m e, ∃ k,
       py_round double_round (NFloat (S754_finite s m e)) 2
       = NFloat (strtod s k 2)
       ∧ (0 ≤ k)%Z
       ∧ (Qabs (magnitude (S754_finite s m e) * 100 - inject_Z k)
          <= 1 # 2)%Q
       ∧ ((Qabs (magnitude (S754_finite s m e) * 100 - inject_Z k)
           == 1 # 2)%Q → Z.even k = true)).
Proof.
  destruct (calculate_total_amount_cases double_round w)
    as (Hret & Hnone & Hsheet & Hraise & Hsum).
  split_and!; try done.
  - intros [s|s| |s m e] Hx; try done. by destruct (Hx s m e).
  - intros s m e. exists (dtoa m e 2). split; [done|].
    exact (dtoa_nearest s m e 2).
Qed.

(** After [set_excel_sheet_name] has changed the name, with the
    configuration kept in a file other than the workbook, the check of
    the headers accepts the workbook and the total is that of the rows
    of the sheet of the new name, rounded to two decimals as the runtime
    rounds. *)
Theorem set_excel_sheet_name_then_reads
    (float_repr : spec_float → string) request config_path how w w' :
  config_path ≠ EXCEL_FILE_PATH (globals w) →
  set_excel_sheet_name float_repr request config_path how w
  = (inr Changed, w') →
  ∃ field,
    request = Field field
    ∧ (validate_excel_headers float_repr (EXCEL_FILE_PATH (globals w'))
         REQUIRED_HEADERS w').1 = inr true
    ∧ ∃ wb sheet,
        files w' !! EXCEL_FILE_PATH (globals w') = Some (Xlsx wb)
        ∧ getitem wb (PyStr.strip field) = inr sheet
        ∧ (calculate_total_amount double_round w').1
          = inr match add_up (omap (signed_amount sheet)
                                (seq 2 (max_row sheet - 1))) (NInt 0) with
                | inr total => py_round double_round total 2
                | inl _ => NInt 0
                end.
Proof.
  intros Hother Hrun.
  destruct (set_excel_sheet_name_run float_repr request config_path how w)
    as (a & w2 & Hrun' & Hp & Ha).
  rewrite Hrun in Hrun'. injection Hrun' as <- <-.
  destruct Ha as (field & -> & _ & Hname & _
                  & (wb & sheet & Hfile & Hin & Hget & Hh) & Hfiles).
  assert (files w' !! EXCEL_FILE_PATH (globals w') = Some (Xlsx wb))
    as Hfile'.
  { rewrite Hp, Hfiles, files_after_other by done. exact Hfile. }
  rewrite <-Hname in Hin, Hget.
  exists field. split; [done|]. split.
  - rewrite (validate_run _ _ _ _ _ Hfile'). unfold sheet_or_active.
    by rewrite bool_decide_true, Hget, Hh.
  - exists wb, sheet. rewrite <-Hname. split; [done|]. split; [done|].
    by apply (calculate_total_amount_run _ _ wb).
Qed.

(** ** The worked data, evaluated *)

Example split_words :
  PyStr.split "  koffie  en thee " = ["koffie"; "en"; "thee"].
Proof. reflexivity. Qed.

Example normalize_query : normalize "  Koffie EN thee  " = "koffie en thee".
Proof. reflexivity. Qed.

(** The scenario of the specification: both categories at 1/3, the
    earlier row first, and "thee en koffie" dropped for "koffie en thee". *)
Example recommend_koffie :
  (recommend_category demo_repr " Koffie " demo_world).1
  = inr [ {| Match.category := "Materiaal"; Match.score := Q2Qc (1 # 3);
             Match.example := "koffie en thee" |};
          {| Match.category := "Training"; Match.score := Q2Qc (1 # 3);
             Match.example := "koffie voor training" |} ].
Proof. by vm_compute. Qed.

Example recommend_koffie_trace :
  trace (recommend_category demo_repr " Koffie " demo_world).2
  = [PathExists "static/category_test_set.xlsx";
     LoadWorkbook "static/category_test_set.xlsx"].
Proof. by vm_compute. Qed.

Example recommend_no_overlap :
  (recommend_category demo_repr "xyz123" demo_world).1 = inr [].
Proof. by vm_compute. Qed.

Example recommend_missing_data_set :
  recommend_category demo_repr "materiaal kopen" bare_world
  = (inr [],
     emit (LogWarning "Category test set niet gevonden")
       (emit (PathExists "static/category_test_set.xlsx") bare_world)).
Proof. by vm_compute. Qed.

Example total_of_kas :
  (calculate_total_amount demo_round demo_world).1 = inr (NInt 70).
Proof. by vm_compute. Qed.

(** An [int] and a [float] add up as floats: 1 + 0.5 = 1.5; and an [int]
    beyond the range of the format raises. *)
Example add_int_float :
  py_add (NInt 1) (NFloat (binary_normalize prec emax 1 (-1) false))
  = inr (NFloat (binary_normalize prec emax 3 (-1) false)).
Proof. by vm_compute. Qed.

Example add_huge_int_float :
  py_add (NInt (2 ^ 1024)) (NFloat (binary_normalize prec emax 1 (-1) false))
  = inl OverflowError.
Proof. by vm_compute. Qed.

Example total_without_book :
  (calculate_total_amount demo_round bare_world).1 = inr (NInt 0).
Proof. by vm_compute. Qed.

(** [round(0.1 + 0.2, 2)] is 0.3; [round(2.675, 2)] is 2.67, for the
    float 2.675 lies below 2.675; the ties [round(0.125, 2)] and
    [round(0.375, 2)] go to the even neighbours 0.12 and 0.38; and
    [round(-0.001, 2)] is the negative zero. *)
Example round_three_tenths :
  double_round (S754_finite false 5404319552844596 (-54)) 2
  = S754_finite false 5404319552844595 (-54).
Proof. by vm_compute. Qed.

Example round_below_the_tie :
  double_round (S754_finite false 6023564501608038 (-51)) 2
  = S754_finite false 6012305502539612 (-51).
Proof. by vm_compute. Qed.

Example round_tie_down :
  double_round eighth 2 = S754_finite false 8646911284551352 (-56).
Proof. by vm_compute. Qed.

Example round_tie_up :
  double_round (S754_finite false 6755399441055744 (-54)) 2
  = S754_finite false 6845471433603154 (-54).
Proof. by vm_compute. Qed.

Example round_negative_zero :
  double_round (S754_finite true 4611686018427388 (-62)) 2 = S754_zero true.
Proof. by vm_compute. Qed.

Example total_of_cents :
  (calculate_total_amount double_round cents_world).1
  = inr (NFloat (S754_finite false 6485183463413514 (-55))).
Proof. by vm_compute. Qed.

(** ** The properties at the worked data *)

Lemma recommend_five_distinct_best_witness :
  ∃ l w', recommend_category demo_repr " Koffie " demo_world = (inr l, w')
    ∧ length l ≤ 5
    ∧ NoDup (Match.category <$> l)
    ∧ ∀ r, r ∈ l →
        r ∈ all_matches demo_repr " Koffie " demo_world
        ∧ ∀ m, m ∈ all_matches demo_repr " Koffie " demo_world →
               Match.category m = Match.category r →
               (Match.score m ≤ Match.score r)%Qc.
Proof. exact (recommend_five_distinct_best demo_repr " Koffie " demo_world). Defined.

Lemma similarity_is_jaccard_witness :
  calculate_similarity "" "koffie en thee" = 0%Qc.
Proof.
  apply (proj1 (proj2 (similarity_is_jaccard demo_repr))).
  left. reflexivity.
Defined.

Lemma recommend_short_query_witness :
  String.length (normalize "  Ko  ") < 3
  ∧ recommend_category demo_repr "  Ko  " demo_world = (inr [], demo_world).
Proof.
  split; [vm_compute; lia|].
  apply (recommend_short_query demo_repr "  Ko  " demo_world).
  vm_compute. lia.
Defined.

Lemma recommend_descending_witness :
  ∃ l w', recommend_category demo_repr " Koffie " demo_world = (inr l, w')
    ∧ ∀ i j ri rj, i < j → l !! i = Some ri → l !! j = Some rj →
        (Match.score rj ≤ Match.score ri)%Qc.
Proof. exact (recommend_descending demo_repr " Koffie " demo_world). Defined.

Lemma recommend_score_range_witness :
  ∃ l w', recommend_category demo_repr " Koffie " demo_world = (inr l, w')
    ∧ ∀ r, r ∈ l → (0 < Match.score r)%Qc ∧ (Match.score r ≤ 1)%Qc.
Proof. exact (recommend_score_range demo_repr " Koffie " demo_world). Defined.

Lemma recommend_never_raises_witness :
  files bare_world !! test_set_path = None
  ∧ (recommend_category demo_repr "materiaal kopen" bare_world).1 = inr [].
Proof.
  split; [reflexivity|].
  apply (proj1 (proj2
    (recommend_never_raises demo_repr "materiaal kopen" bare_world))).
  reflexivity.
Defined.

Lemma load_skips_header_and_gaps_witness :
  4 ≤ max_column (sheet_of_rows "Sheet" test_set_rows)
  ∧ collect demo_repr
      (iter_rows (sheet_of_rows "Sheet" test_set_rows) 2 1
         (max_column (sheet_of_rows "Sheet" test_set_rows))) []
    = inr (omap (item_of_row demo_repr (sheet_of_rows "Sheet" test_set_rows))
             (seq 2 (max_row (sheet_of_rows "Sheet" test_set_rows) - 1))).
Proof.
  split; [vm_compute; lia|].
  apply (proj1 (load_skips_header_and_gaps demo_repr
                  (sheet_of_rows "Sheet" test_set_rows))).
  vm_compute. lia.
Defined.

Lemma recommend_deterministic_witness :
  files demo_world
  = files (recommend_category demo_repr " Koffie " demo_world).2
  ∧ (recommend_category demo_repr " Koffie " demo_world).1
    = (recommend_category demo_repr " Koffie "
         (recommend_category demo_repr " Koffie " demo_world).2).1.
Proof.
  split; [reflexivity|].
  apply (recommend_deterministic demo_repr " Koffie " demo_world).
  reflexivity.
Defined.

Lemma recommend_tie_breaking_witness :
  too_short " Koffie " = false
  ∧ ∃ l w', recommend_category demo_repr " Koffie " demo_world = (inr l, w')
      ∧ l = take 5 (first_by_category []
                      (sort_desc (all_matches demo_repr " Koffie " demo_world))).
Proof.
  split; [reflexivity|].
  destruct (recommend_tie_breaking demo_repr " Koffie " demo_world)
    as (l & w' & Hrun & Hfirst & _).
  exists l, w'. split; [exact Hrun|]. apply Hfirst. reflexivity.
Defined.

(** On the cash book of floats the amounts add up to
    0.17500000000000004, which is rounded to 0.18. *)
Lemma calculate_total_amount_spec_witness :
  files cents_world !! EXCEL_FILE_PATH (globals cents_world)
  = Some (Xlsx cents_book)
  ∧ (EXCEL_SHEET_NAME (globals cents_world) ∈ sheetnames cents_book)
  ∧ add_up (omap (signed_amount (sheet_of_rows "Kas" cents_rows))
              (seq 2 (max_row (sheet_of_rows "Kas" cents_rows) - 1)))
      (NInt 0)
    = inr (NFloat (S754_finite false 6305039478318696 (-55)))
  ∧ (calculate_total_amount double_round cents_world).1
    = inr (NFloat (S754_finite false 6485183463413514 (-55))).
Proof.
  assert (files cents_world !! EXCEL_FILE_PATH (globals cents_world)
          = Some (Xlsx cents_book)) as Hf by reflexivity.
  assert (EXCEL_SHEET_NAME (globals cents_world) ∈ sheetnames cents_book)
    as Hin by (vm_compute; left).
  assert (add_up (omap (signed_amount (sheet_of_rows "Kas" cents_rows))
                    (seq 2 (max_row (sheet_of_rows "Kas" cents_rows) - 1)))
            (NInt 0)
          = inr (NFloat (S754_finite false 6305039478318696 (-55))))
    as Hsum by (vm_compute; reflexivity).
  split; [exact Hf|]. split; [exact Hin|]. split; [exact Hsum|].
  destruct (proj1 (proj2 (proj2 (proj2 (proj2
              (calculate_total_amount_spec cents_world)))))
              cents_book Hf Hin)
    as (sheet & Hget & _ & Htotal & _).
  injection Hget as <-.
  exact (Htotal _ Hsum).
Defined.

(** ** The further properties at the worked data *)

Example all_of_ledger :
  match (get_all_transactions demo_repr demo_builtins ledger_world).1 with
  | inr l => fmap (M := list) Entry.datum l
  | inl _ => []
  end
  = ["2026-01-05"; "2026-01-03"].
Proof. by vm_compute. Qed.

Lemma validate_excel_headers_spec_witness :
  ∃ b, (validate_excel_headers demo_repr "kasboek.xlsx" REQUIRED_HEADERS
          ledger_world).1 = inr b
       ∧ (b = true ↔ ∀ i h, REQUIRED_HEADERS !! i = Some h →
                            header_at demo_repr
                              (sheet_of_rows "Kas" ledger_rows) i
                            = PyStr.strip h).
Proof.
  apply (proj2 (proj2 (validate_excel_headers_spec demo_repr "kasboek.xlsx"
                         REQUIRED_HEADERS ledger_world)) ledger_book);
    reflexivity.
Defined.

Lemma validate_excel_headers_narrow_witness :
  max_column (sheet_of_rows "Kas" kas_rows) < 12
  ∧ (validate_excel_headers demo_repr "kasboek.xlsx" REQUIRED_HEADERS
       demo_world).1 = inr false.
Proof.
  split; [vm_compute; lia|].
  apply (validate_excel_headers_narrow demo_repr "kasboek.xlsx" demo_world
           kas_book (sheet_of_rows "Kas" kas_rows));
    [reflexivity|reflexivity|vm_compute; lia].
Defined.

Lemma get_recent_transactions_limit_witness :
  ∃ l w', get_recent_transactions demo_repr demo_builtins 1 ledger_world
          = (inr l, w')
          ∧ length l ≤ Z.to_nat 1
          ∧ files w' = files ledger_world.
Proof.
  apply (get_recent_transactions_limit demo_repr demo_builtins 1
           ledger_world).
  lia.
Defined.

Lemma listings_narrow_sheet_witness :
  max_column (sheet_of_rows "Kas" kas_rows) < 12
  ∧ (get_all_transactions demo_repr demo_builtins demo_world).1 = inr []
  ∧ (get_recent_transactions demo_repr demo_builtins 5 demo_world).1
    = inr [].
Proof.
  split; [vm_compute; lia|].
  apply (listings_narrow_sheet demo_repr demo_builtins 5 demo_world
           kas_book (sheet_of_rows "Kas" kas_rows));
    [reflexivity|reflexivity|vm_compute; lia].
Defined.

Lemma recent_is_prefix_of_all_witness :
  ∃ lr la w1 w2,
    recent_body demo_repr demo_builtins 1 ledger_world = (inr lr, w1)
    ∧ all_body demo_repr demo_builtins ledger_world = (inr la, w2)
    ∧ length lr = 1 ∧ length la = 2
    ∧ (recent_common <$> lr) `prefix_of` (entry_common <$> la).
Proof.
  destruct (recent_body demo_repr demo_builtins 1 ledger_world)
    as [[e|lr] w1] eqn:Hr; [by vm_compute in Hr|].
  destruct (all_body demo_repr demo_builtins ledger_world)
    as [[e|la] w2] eqn:Ha; [by vm_compute in Ha|].
  exists lr, la, w1, w2. split; [reflexivity|]. split; [reflexivity|].
  split; [by vm_compute in Hr; injection Hr as <- _|].
  split; [by vm_compute in Ha; injection Ha as <- _|].
  apply (recent_is_prefix_of_all demo_repr demo_builtins 1 ledger_world
           lr la w1 w2); [lia|exact Hr|exact Ha].
Defined.

Lemma add_transaction_checks_witness :
  ∃ r w', add_transaction demo_round demo_builtins demo_form bare_world
          = (inr r, w')
    ∧ globals w' = globals bare_world
    ∧ ∃ m, r = BadRequest m.
Proof.
  destruct (add_transaction_checks demo_round demo_builtins demo_form
              bare_world) as (r & w' & Hrun & Hg & _ & Hnone & _).
  exists r, w'. split; [exact Hrun|]. split; [exact Hg|].
  apply Hnone. reflexivity.
Defined.

Lemma add_transaction_missing_amount_witness :
  delete "bedrag" demo_form !! "bedrag" = None
  ∧ (add_transaction demo_round demo_builtins (delete "bedrag" demo_form)
       ledger_world).1 = inr (ServerError AttributeError)
  ∧ files (add_transaction demo_round demo_builtins
             (delete "bedrag" demo_form) ledger_world).2
    = files ledger_world.
Proof.
  split; [reflexivity|].
  apply (add_transaction_missing_amount demo_round demo_builtins
           (delete "bedrag" demo_form) ledger_world "2026-01-07");
    [reflexivity|by eexists|reflexivity|done|done|reflexivity].
Defined.

Lemma add_transaction_stores_row_witness :
  ∃ n w' wb' sheet',
    add_transaction demo_round demo_builtins demo_form ledger_world
    = (inr (Success n), w')
    ∧ files w' = <["kasboek.xlsx" := Xlsx wb']> (files ledger_world)
    ∧ getitem wb' "Kas" = inr sheet'
    ∧ cell_value sheet' 2 9 = VStr "Ballen"
    ∧ (∀ c, cell_value sheet' 1 c
            = cell_value (sheet_of_rows "Kas" ledger_rows) 1 c)
    ∧ (∀ r c, 2 ≤ r →
         cell_value sheet' (S r) c
         = cell_value (sheet_of_rows "Kas" ledger_rows) r c).
Proof.
  destruct (add_transaction demo_round demo_builtins demo_form ledger_world)
    as [[e|[n|m|e]] w'] eqn:Hrun; try by vm_compute in Hrun.
  assert (∀ k s, demo_form !! k = Some s → plain s = true) as Hplain.
  { intros k s. unfold demo_form, form.
    rewrite !lookup_insert_Some, lookup_singleton_Some.
    intros H.
    repeat (destruct H as [[_ <-]|[_ H]]; [by vm_compute|]).
    destruct H as [_ <-]. by vm_compute. }
  destruct (add_transaction_stores_row demo_round demo_builtins demo_form
              ledger_world n w' ledger_book
              (sheet_of_rows "Kas" ledger_rows) eq_refl eq_refl Hplain Hrun)
    as (wb' & sheet' & datum & bedrag & Hacc & Hf' & Hget
        & Hrow & Hhead & Hshift & _).
  exists n, w', wb', sheet'. split; [reflexivity|].
  split; [exact Hf'|]. split; [exact Hget|].
  split; [|split; [exact Hhead|exact Hshift]].
  apply (Hrow 8). reflexivity.
Defined.

Lemma active_sheet_accepted_but_unused_witness :
  (EXCEL_SHEET_NAME (globals other_world) ∉ sheetnames other_book)
  ∧ (validate_excel_headers demo_repr "kasboek.xlsx" REQUIRED_HEADERS
       other_world).1 = inr true
  ∧ (calculate_total_amount demo_round other_world).1 = inr (NInt 0)
  ∧ (get_all_transactions demo_repr demo_builtins other_world).1 = inr []
  ∧ (get_recent_transactions demo_repr demo_builtins 5 other_world).1
    = inr [].
Proof.
  assert (EXCEL_SHEET_NAME (globals other_world) ∉ sheetnames other_book)
    as Hnot by (vm_compute; set_solver).
  split; [exact Hnot|].
  exact (active_sheet_accepted_but_unused demo_repr demo_round demo_builtins
           5 REQUIRED_HEADERS other_world other_book eq_refl Hnot).
Defined.

Lemma set_excel_sheet_name_outcomes_witness :
  ∃ w', set_excel_sheet_name demo_repr (Field " Blad1 ") "config.json"
          Written other_world
        = (inr Changed, w')
    ∧ EXCEL_SHEET_NAME (globals w') = "Blad1"
    ∧ files w' = <["config.json" := NotAWorkbook]> (files other_world).
Proof.
  destruct (set_excel_sheet_name_outcomes demo_repr (Field " Blad1 ")
              "config.json" Written other_world)
    as (a & w' & Hrun & _ & _ & _ & _ & _ & _ & Hch).
  assert (a = Changed) as ->.
  { assert ((set_excel_sheet_name demo_repr (Field " Blad1 ") "config.json"
               Written other_world).1 = inr Changed) as H1 by reflexivity.
    rewrite Hrun in H1. by injection H1. }
  destruct (Hch (or_introl eq_refl))
    as (field & Hfield & _ & Hname & _ & _ & Hfiles).
  injection Hfield as <-.
  exists w'. split; [exact Hrun|]. split; [exact Hname|exact Hfiles].
Defined.

Lemma set_excel_sheet_name_unreadable_witness :
  (set_excel_sheet_name demo_repr (Field "Kas") "config.json" Written
     broken_world).1
  = inr (Failed CannotCatch)
  ∧ globals (set_excel_sheet_name demo_repr (Field "Kas") "config.json"
               Written broken_world).2
    = globals broken_world
  ∧ files (set_excel_sheet_name demo_repr (Field "Kas") "config.json"
             Written broken_world).2
    = files broken_world.
Proof.
  apply (set_excel_sheet_name_unreadable demo_repr "Kas" "config.json"
           Written broken_world);
    [done|reflexivity].
Defined.

(** The name is set to that of the sheet of floats: the total is then
    0.18. *)
Lemma set_excel_sheet_name_then_reads_witness :
  "config.json" ≠ EXCEL_FILE_PATH (globals centen_world)
  ∧ (validate_excel_headers demo_repr "kasboek.xlsx" REQUIRED_HEADERS
       (set_excel_sheet_name demo_repr (Field "Centen") "config.json"
          Written centen_world).2).1
    = inr true
  ∧ (calculate_total_amount double_round centen_world).1 = inr (NInt 0)
  ∧ (calculate_total_amount double_round
       (set_excel_sheet_name demo_repr (Field "Centen") "config.json"
          Written centen_world).2).1
    = inr (NFloat (S754_finite false 6485183463413514 (-55))).
Proof.
  assert ("config.json" ≠ EXCEL_FILE_PATH (globals centen_world))
    as Hother by done.
  split; [exact Hother|].
  destruct (set_excel_sheet_name demo_repr (Field "Centen") "config.json"
              Written centen_world) as [r w'] eqn:Hrun.
  assert (r = inr Changed) as ->.
  { change r with (r, w').1. rewrite <-Hrun. reflexivity. }
  destruct (set_excel_sheet_name_then_reads demo_repr (Field "Centen")
              "config.json" Written centen_world w' Hother Hrun)
    as (field & _ & Hv & wb & sheet & Hf & Hget & Ht).
  assert (w' = (set_excel_sheet_name demo_repr (Field "Centen")
                  "config.json" Written centen_world).2) as Hw
    by (by rewrite Hrun).
  simpl. split; [|split; [reflexivity|]].
  - rewrite <-Hv. rewrite Hw. reflexivity.
  - rewrite Hw. by vm_compute.
Defined.

Lemma set_excel_file_path_outcomes_witness :
  ∃ w', set_excel_file_path demo_repr (Field " kasboek.xlsx ") "config.json"
          NotWritten ledger_world
        = (inr (Failed NotSaved), w')
    ∧ EXCEL_FILE_PATH (globals w') = "kasboek.xlsx"
    ∧ files w' = <["config.json" := NotAWorkbook]> (files ledger_world).
Proof.
  destruct (set_excel_file_path_outcomes demo_repr (Field " kasboek.xlsx ")
              "config.json" NotWritten ledger_world)
    as (a & w' & Hrun & _ & _ & _ & _ & _ & Hch).
  assert (a = Failed NotSaved) as ->.
  { assert ((set_excel_file_path demo_repr (Field " kasboek.xlsx ")
               "config.json" NotWritten ledger_world).1
            = inr (Failed NotSaved)) as H1 by reflexivity.
    rewrite Hrun in H1. by injection H1. }
  destruct (Hch (or_intror eq_refl))
    as (field & Hfield & _ & Hpath & _ & _ & _ & _ & Hfiles).
  injection Hfield as <-.
  exists w'. split; [exact Hrun|]. split; [exact Hpath|exact Hfiles].
Defined.

Lemma load_config_required_keys_witness :
  Config.load_config config_files "config.json"
  = inr (Config.DDict full_config)
  ∧ Config.load_config config_files "old.json" = inl (Config.KeyError "tags")
  ∧ Config.load_config config_files "none.json"
    = inl Config.FileNotFoundError.
Proof.
  destruct (load_config_required_keys config_files "config.json")
    as (_ & _ & Hfull).
  destruct (load_config_required_keys config_files "none.json")
    as (Hnone & _ & _).
  split; [|split; [reflexivity|by apply Hnone]].
  destruct (Hfull full_config eq_refl) as [[Hl _]|(k & Hin & Hk & _)];
    [exact Hl|].
  exfalso. unfold Config.required_keys in Hin.
  repeat (apply elem_of_cons in Hin as [->|Hin]; [by vm_compute in Hk|]).
  by apply elem_of_nil in Hin.
Defined.

Lemma module_start_needs_config_witness :
  Config.module_start config_files "none.json"
  = inl (Config.KeyError "excel_file_path")
  ∧ Config.module_start config_files "old.json"
    = inl (Config.KeyError "excel_file_path").
Proof.
  destruct (module_start_needs_config config_files "none.json")
    as (_ & Hnone & _).
  destruct (module_start_needs_config config_files "old.json")
    as (_ & _ & Hold).
  split; [by apply Hnone|].
  apply (Hold (delete "tags" full_config) "tags"); [reflexivity| |reflexivity].
  vm_compute. set_solver.
Defined.

Lemma check_server_ready_spec_witness :
  Launcher.check_server_ready slow_server 30
  = (Launcher.Returned true, {| Launcher.calls := 3; Launcher.sleeps := 2 |})
  ∧ ∃ k, k < 30 ∧ slow_server k = Launcher.Answers
         ∧ ∀ j, j < k → slow_server j = Launcher.Refused.
Proof.
  split; [reflexivity|].
  pose proof (check_server_ready_spec slow_server 30) as H.
  change (Launcher.check_server_ready slow_server 30)
    with (Launcher.Returned true,
          {| Launcher.calls := 3; Launcher.sleeps := 2 |}) in H.
  destruct H as (k & Hk & Ha & Hr & _).
  exists k. split; [exact Hk|]. split; [exact Ha|exact Hr].
Defined.
